(** * Smart PDF Compressor: the target-size planner, embedded in Rocq.

    The development follows [pdfcompress/utils.py], [pdfcompress/analyzer.py]
    and [pdfcompress/compressor.py]; its last part covers the sizes written
    as text and the output path of [utils.py], [extract_text] and [has_text]
    of [pdfcompress/text_handler.py], and [allowed_file] of [web/app.py].

    Conventions of the embedding:
    - Python [int] is [Z]; Python [float] is an exact rational [Q]: the
      thresholds and factors of the program are decimal literals, and the
      rounding of the last binary digit of a float is not modelled;
    - [str] is [string]; the content of a file is a [list byte];
    - the PDF library, the image codec and the copy of a file are external:
      what they answer is a parameter of the model (an outcome per call),
      while everything the repository's own code does with the answer is
      written out;
    - effects (the file at [output_path], document handles, progress
      callbacks) are threaded through an explicit [World]. *)

From Stdlib Require Import ZArith QArith Qround List String Ascii Bool Lia Lqa.
From Stdlib.Strings Require Import Byte.
Import ListNotations.

Open Scope Z_scope.

(** ** Python helpers *)

Module Py.

(** [int(x)] on a float: truncation toward zero. *)
Definition int (x : Q) : Z := Z.quot (Qnum x) (Z.pos (Qden x)).

Definition Qlt_bool (x y : Q) : bool := negb (Qle_bool y x).

(** [str.lower()], on the ASCII range. *)
Definition lower_ascii (c : ascii) : ascii :=
  let n := nat_of_ascii c in
  if (Nat.leb 65 n && Nat.leb n 90)%bool then ascii_of_nat (n + 32) else c.

Fixpoint lower (s : string) : string :=
  match s with
  | EmptyString => EmptyString
  | String c rest => String (lower_ascii c) (lower rest)
  end.

(** [str.isspace()] of one character, on the ASCII range. *)
Definition is_space (c : ascii) : bool :=
  let n := nat_of_ascii c in
  ((Nat.leb 9 n && Nat.leb n 13) || (Nat.leb 28 n && Nat.leb n 32))%bool.

(** [len(s.strip()) > 0]: some character is not white space. *)
Fixpoint has_non_space (s : string) : bool :=
  match s with
  | EmptyString => false
  | String c rest => (negb (is_space c) || has_non_space rest)%bool
  end.

(** [sum(1 for x in xs if p x)]. *)
Fixpoint count_if {A : Type} (p : A -> bool) (xs : list A) : Z :=
  match xs with
  | [] => 0
  | x :: rest => if p x then 1 + count_if p rest else count_if p rest
  end.

Definition len {A : Type} (xs : list A) : Z := Z.of_nat (List.length xs).

Definition size_of (content : list byte) : Z := len content.

End Py.

(** ** utils.py *)

Module Utils.

Definition calculate_compression_ratio (original_size compressed_size : Z) : Q :=
  if original_size =? 0 then 0%Q
  else (1 - inject_Z compressed_size / inject_Z original_size)%Q.

Definition estimate_quality_score
    (original_size compressed_size : Z) (image_percentage : Q)
    (compression_level : Z) : string :=
  let ratio :=
    if 0 <? original_size
    then (inject_Z compressed_size / inject_Z original_size)%Q
    else 1%Q in
  if Py.Qlt_bool (7 # 10) ratio then "Excellent"%string
  else if Py.Qlt_bool (5 # 10) ratio then "Good"%string
  else if Py.Qlt_bool (3 # 10) ratio then "Fair"%string
  else if (Py.Qlt_bool 70 image_percentage && (compression_level <? 50))%bool
       then "Acceptable"%string
       else "Reduced"%string.

End Utils.

(** ** analyzer.py: data *)

Record ImageInfo : Type := mkImageInfo {
  page_number : Z;
  width : Z;
  height : Z;
  bits_per_component : Z;
  colorspace : string;
  size_bytes : Z;
  xref : Z;
  compression : string
}.

Record AnalysisResult : Type := mkAnalysisResult {
  file_path : string;
  file_size : Z;
  page_count : Z;
  has_text : bool;
  text_character_count : Z;
  image_count : Z;
  total_image_bytes : Z;
  image_percentage : Q;
  images : list ImageInfo;
  pdf_type : string;
  estimated_min_size : Z;
  estimated_max_size : Z;
  has_embedded_fonts : bool;
  has_metadata : bool;
  is_encrypted : bool;
  analysis_error : option string
}.

(** ** analyzer.py: the pure part of [PDFAnalyzer] *)

Module Analyzer.

(** [PDFAnalyzer._determine_pdf_type]. *)
Definition _determine_pdf_type
    (image_percentage : Q) (has_text : bool) (text_count page_count : Z) : string :=
  let chars_per_page :=
    if 0 <? page_count
    then (inject_Z text_count / inject_Z page_count)%Q
    else 0%Q in
  if Py.Qlt_bool 70 image_percentage then "image-heavy"%string
  else if (Py.Qlt_bool image_percentage 20 && Py.Qlt_bool 500 chars_per_page)%bool
       then "text-heavy"%string
       else "mixed"%string.

Definition is_jpeg (img : ImageInfo) : bool :=
  let c := Py.lower (compression img) in
  (String.eqb c "jpeg" || String.eqb c "jpg")%bool.

Definition is_png (img : ImageInfo) : bool :=
  String.eqb (Py.lower (compression img)) "png".

(** Lines 294-310 of [_estimate_compression]: the pair
    [(avg_image_reduction_min, avg_image_reduction_max)] once the image
    formats have been looked at. *)
Definition image_reduction_factors (images : list ImageInfo) : Q * Q :=
  let jpeg_count := Py.count_if is_jpeg images in
  let png_count := Py.count_if is_png images in
  match images with
  | [] => (3 # 10, 7 # 10)%Q
  | _ :: _ =>
      let jpeg_ratio := (inject_Z jpeg_count / inject_Z (Py.len images))%Q in
      if Py.Qlt_bool (8 # 10) jpeg_ratio then (5 # 10, 8 # 10)%Q
      else if Py.Qlt_bool (5 # 10) (inject_Z png_count / inject_Z (Py.len images))%Q
           then (2 # 10, 5 # 10)%Q
           else (3 # 10, 7 # 10)%Q
  end.

(** [PDFAnalyzer._estimate_compression]. *)
Definition _estimate_compression
    (file_size : Z) (image_percentage : Q) (images : list ImageInfo)
    (has_text has_embedded_fonts : bool) : Z * Z :=
  let image_fraction := (image_percentage / 100)%Q in
  let non_image_fraction := (1 - image_fraction)%Q in
  let '(avg_image_reduction_min, avg_image_reduction_max) :=
    image_reduction_factors images in
  let image_size := (inject_Z file_size * image_fraction)%Q in
  let non_image_size := (inject_Z file_size * non_image_fraction)%Q in
  let non_image_reduction_min :=
    if has_embedded_fonts then ((8 # 10) * (9 # 10))%Q else (8 # 10)%Q in
  let non_image_reduction_max :=
    if has_embedded_fonts then ((95 # 100) * (95 # 100))%Q else (95 # 100)%Q in
  let min_size :=
    Py.int (image_size * avg_image_reduction_min
            + non_image_size * non_image_reduction_min)%Q in
  let max_size :=
    Py.int (image_size * avg_image_reduction_max
            + non_image_size * non_image_reduction_max)%Q in
  let min_size := Z.max min_size (Py.int (inject_Z file_size * (1 # 10))%Q) in
  let max_size := Z.max max_size min_size in
  (min_size, max_size).

End Analyzer.

(** ** The outside world

    What the program does to its surroundings is recorded in a [World]: the
    file found at [output_path], and a journal of the calls that matter for
    the properties below. *)

Inductive Event : Type :=
| Progress (stage : string) (percentage : Z)  (* progress_callback(stage, percentage) *)
| Copied                                      (* shutil.copy2(pdf_path, output_path) *)
| Analyze                                     (* PDFAnalyzer.analyze entered *)
| Attempt (quality dpi : Z)                   (* _compress_with_settings entered *)
| TextPass                                    (* _compress_text_heavy entered *)
| Opened                                      (* fitz.open returned a document handle *)
| Closed.                                     (* doc.close() *)

Record World : Type := mkWorld {
  output_file : option (list byte);
  journal : list Event
}.

Definition emit (e : Event) (w : World) : World :=
  mkWorld (output_file w) (journal w ++ [e]).

Definition write_output (content : list byte) (w : World) : World :=
  mkWorld (Some content) (journal w).

(** What [fitz] answers to one [doc.extract_image(xref)]. *)
Record BaseImage : Type := mkBaseImage {
  bi_image : list byte;          (* base_image["image"] *)
  bi_width : option Z;           (* base_image.get("width", 0) *)
  bi_height : option Z;
  bi_bpc : option Z;
  bi_ext : option string
}.

Inductive ExtractOutcome : Type :=
| ExtractRaised
| ExtractEmpty
| Extracted (base_image : BaseImage).

(** One entry of [page.get_images(full=True)]: [img[0]], and [img[5]] when
    the tuple is long enough. *)
Record PageImage : Type := mkPageImage {
  img_xref : Z;
  img_colorspace : option string
}.

Record Page : Type := mkPage {
  page_text : string;                 (* page.get_text() *)
  page_images : list PageImage;       (* page.get_images(full=True) *)
  page_fonts : option bool            (* page.get_fonts() is non-empty; None: it raised *)
}.

(** An opened document, as far as [analyze] looks at it.  [doc_fault] is the
    message of an exception raised by the library while the body of
    [analyze] runs (outside the places where the code catches it). *)
Record Document : Type := mkDocument {
  doc_pages : list Page;
  doc_extract_image : Z -> ExtractOutcome;
  doc_is_encrypted : bool;
  doc_metadata : bool;
  doc_fault : option string
}.

(** What one call of [_compress_with_settings] meets in the library: the
    page and image loop, [doc.save], [stat] and [doc.close] of lines 347-430
    either go through, leaving [content] at [output_path] with
    [images_processed] streams replaced, or raise. *)
Inductive SettingsOutcome : Type :=
| OpenRaised (msg : string)
    (* fitz.open raised: no handle *)
| Raised (msg : string) (written : option (list byte))
    (* raised after fitz.open; [written]: what doc.save left at output_path, if anything *)
| Saved (content : list byte) (images_processed : Z).

(** What [shutil.copy2(self.pdf_path, output_path)] meets at line 134: it
    goes through and leaves a copy of the input at [output_path], or it
    raises, as it does with [SameFileError] when [output_path] names the
    input file itself; [written] is what the failed call left at
    [output_path], if it wrote there. *)
Inductive CopyOutcome : Type :=
| CopyDone
| CopyRaised (exception : string) (written : option (list byte)).

(** ** compressor.py: data *)

Record CompressionResult : Type := mkCompressionResult {
  success : bool;
  input_path : string;
  output_path : string;
  original_size : Z;
  compressed_size : Z;
  compression_ratio : Q;
  quality_estimate : string;
  pages_processed : Z;
  images_processed : Z;
  target_size : Z;
  target_achieved : bool;
  iterations : Z;
  error : option string
}.

(** The dataclass default [iterations: int = 1]. *)
Definition default_iterations : Z := 1.

Definition set_target_achieved (b : bool) (r : CompressionResult) : CompressionResult :=
  mkCompressionResult (success r) (input_path r) (output_path r) (original_size r)
    (compressed_size r) (compression_ratio r) (quality_estimate r)
    (pages_processed r) (images_processed r) (target_size r) b (iterations r) (error r).

Definition set_iterations (n : Z) (r : CompressionResult) : CompressionResult :=
  mkCompressionResult (success r) (input_path r) (output_path r) (original_size r)
    (compressed_size r) (compression_ratio r) (quality_estimate r)
    (pages_processed r) (images_processed r) (target_size r) (target_achieved r) n (error r).

(** A call either returns a result or lets an exception escape. *)
Inductive Completion : Type :=
| Returns (r : CompressionResult)
| Escapes (exception : string).

Module CompressionStage.
Definition ANALYZING : string := "Analyzing PDF".
Definition PROCESSING_IMAGES : string := "Processing images".
Definition OPTIMIZING_OBJECTS : string := "Optimizing objects".
Definition FINALIZING : string := "Finalizing PDF".
End CompressionStage.

Record ToleranceConfig : Type := mkToleranceConfig {
  max_iterations : Z;
  min_quality : Z;
  min_dpi : Z
}.

Definition QUALITY_LEVELS : list Z := [95; 85; 75; 65; 55; 45; 35; 25].
Definition DPI_LEVELS : list Z := [300; 200; 150; 120; 100; 72].

(** [self.tolerance_config], a dict: [None] is Python's [KeyError]. *)
Definition tolerance_config (tolerance : string) : option ToleranceConfig :=
  if String.eqb tolerance "strict" then Some (mkToleranceConfig 10 25 72)
  else if String.eqb tolerance "balanced" then Some (mkToleranceConfig 6 45 100)
  else if String.eqb tolerance "high_clarity" then Some (mkToleranceConfig 4 65 150)
  else None.

(** ** analyzer.py: [PDFAnalyzer.analyze] *)

Section PDFAnalyzer.

(** [self.pdf_path], and the bytes of the file it names. *)
Variable self_pdf_path : string.
Variable pdf_bytes : list byte.

(** What [fitz.open(self.pdf_path)] answers inside [analyze]: the message
    of the exception, or the document. *)
Variable open_for_analysis : string + Document.

(** The body of the inner loop of [_analyze_images], for one [img] of the
    page numbered [page_num] (from 0). *)
Definition analyze_image (doc : Document) (page_num : Z)
    (acc : list ImageInfo * Z * list Z) (img : PageImage)
    : list ImageInfo * Z * list Z :=
  let '(images, total_bytes, seen_xrefs) := acc in
  let xref := img_xref img in
  if existsb (Z.eqb xref) seen_xrefs then acc
  else
    let seen_xrefs := xref :: seen_xrefs in
    match doc_extract_image doc xref with
    | Extracted base_image =>
        let image_bytes := Py.len (bi_image base_image) in
        let cs := match img_colorspace img with
                  | Some c => c
                  | None => "unknown"%string
                  end in
        (images ++ [mkImageInfo (page_num + 1)
                      (match bi_width base_image with Some v => v | None => 0 end)
                      (match bi_height base_image with Some v => v | None => 0 end)
                      (match bi_bpc base_image with Some v => v | None => 8 end)
                      cs image_bytes xref
                      (match bi_ext base_image with
                       | Some v => v
                       | None => "unknown"%string
                       end)],
         total_bytes + image_bytes, seen_xrefs)
    | ExtractEmpty | ExtractRaised => (images, total_bytes, seen_xrefs)
    end.

Fixpoint analyze_pages (doc : Document) (page_num : Z) (pages : list Page)
    (acc : list ImageInfo * Z * list Z) : list ImageInfo * Z * list Z :=
  match pages with
  | [] => acc
  | page :: rest =>
      analyze_pages doc (page_num + 1) rest
        (fold_left (analyze_image doc page_num) (page_images page) acc)
  end.

Definition _analyze_images (doc : Document) : list ImageInfo * Z :=
  let '(images, total_bytes, _) := analyze_pages doc 0 (doc_pages doc) ([], 0, []) in
  (images, total_bytes).

Fixpoint check_fonts (pages : list Page) : bool :=
  match pages with
  | [] => false
  | page :: rest =>
      match page_fonts page with
      | None => false
      | Some true => true
      | Some false => check_fonts rest
      end
  end.

Definition _check_embedded_fonts (doc : Document) : bool :=
  check_fonts (doc_pages doc).

Definition analysis_failure (file_size : Z) (msg : string) : AnalysisResult :=
  mkAnalysisResult self_pdf_path file_size 0 false 0 0 0 0%Q [] "mixed"%string
    0 0 false false false (Some msg).

Definition analyze (w : World) : AnalysisResult * World :=
  let w := emit Analyze w in
  let file_size := Py.size_of pdf_bytes in
  match open_for_analysis with
  | inl e => (analysis_failure file_size ("Failed to open PDF: " ++ e)%string, w)
  | inr doc =>
      let w := emit Opened w in
      match doc_fault doc with
      | Some e =>
          (analysis_failure file_size ("Analysis failed: " ++ e)%string,
           emit Closed w)
      | None =>
          let page_count := Py.len (doc_pages doc) in
          let is_encrypted := doc_is_encrypted doc in
          let text_content :=
            fold_left (fun acc page => (acc ++ page_text page)%string)
                      (doc_pages doc) ""%string in
          let has_text := Py.has_non_space text_content in
          let text_character_count := Z.of_nat (String.length text_content) in
          let '(images, total_image_bytes) := _analyze_images doc in
          let image_count := Py.len images in
          let image_percentage :=
            if 0 <? file_size
            then (inject_Z total_image_bytes / inject_Z file_size * 100)%Q
            else 0%Q in
          let pdf_type :=
            Analyzer._determine_pdf_type image_percentage has_text
              text_character_count page_count in
          let has_embedded_fonts := _check_embedded_fonts doc in
          let has_metadata := doc_metadata doc in
          let '(est_min, est_max) :=
            Analyzer._estimate_compression file_size image_percentage images
              has_text has_embedded_fonts in
          (mkAnalysisResult self_pdf_path file_size page_count has_text
             text_character_count image_count total_image_bytes image_percentage
             images pdf_type est_min est_max has_embedded_fonts has_metadata
             is_encrypted None,
           emit Closed w)
      end
  end.

End PDFAnalyzer.

(** ** compressor.py: [PDFCompressor] *)

(** The loop variables of [_compress_image_heavy], with the world. *)
Record SearchState : Type := mkSearchState {
  iteration : Z;
  best_result : option CompressionResult;
  best_size : Z;
  world : World
}.

(** How a piece of the search ends: fall through to the next statement, or
    [return result]. *)
Inductive Flow : Type :=
| Continue (st : SearchState)
| Return (r : CompressionResult) (w : World).

Section PDFCompressor.

Variable self_pdf_path : string.
Variable pdf_bytes : list byte.
Variable self_target_size : Z.
Variable self_tolerance : string.

(** Whether [self.progress_callback] is set. *)
Variable self_progress_callback : bool.

(** The [output_path] argument of [compress]; [shutil.copy2] and the
    library's [save] write the file it names. *)
Variable out_path : string.

(** What [shutil.copy2] meets when [compress] copies a small input. *)
Variable copy_outcome : CopyOutcome.

(** The library's answers: to the analysis, to the save of the text-heavy
    pass, and to each (quality, dpi) trial.  A trial reads its dpi through
    [scale = min(1.0, target_dpi / 150)] only (lines 385-386): the answers
    of one run of the program satisfy [reads_dpi_through_scale] below.  The
    statements that hold for every table of answers do not need it; a run
    that is shown to exist has it. *)
Variable open_for_analysis : string + Document.
Variable text_outcome : SettingsOutcome.
Variable settings_outcome : Z -> Z -> SettingsOutcome.

Definition _report_progress (stage : string) (percentage : Z) (w : World) : World :=
  if self_progress_callback then emit (Progress stage percentage) w else w.

(** The result built in the [except] branches and at the end of
    [_compress_image_heavy]. *)
Definition failed (analysis : AnalysisResult) (msg : string) : CompressionResult :=
  mkCompressionResult false self_pdf_path out_path
    (file_size analysis) (file_size analysis) 0%Q "N/A"%string 0 0
    self_target_size false default_iterations (Some msg).

Definition _compress_with_settings (quality target_dpi : Z)
    (analysis : AnalysisResult) (w : World) : CompressionResult * World :=
  let w := emit (Attempt quality target_dpi) w in
  match settings_outcome quality target_dpi with
  | OpenRaised e => (failed analysis e, w)
  | Raised e written =>
      let w := emit Opened w in
      (failed analysis e,
       match written with Some content => write_output content w | None => w end)
  | Saved content images_processed =>
      let w := emit Opened w in
      let w := write_output content w in
      let compressed_size := Py.size_of content in
      let w := emit Closed w in
      let ratio :=
        Utils.calculate_compression_ratio (file_size analysis) compressed_size in
      let quality_est :=
        Utils.estimate_quality_score (file_size analysis) compressed_size
          (image_percentage analysis) quality in
      (mkCompressionResult true self_pdf_path out_path
         (file_size analysis) compressed_size ratio quality_est
         (page_count analysis) images_processed self_target_size
         (compressed_size <=? self_target_size) default_iterations None,
       w)
  end.

Section Search.

Variable config : ToleranceConfig.
Variable analysis : AnalysisResult.

(** Lines 204-222: one trial, [iteration] already counted. *)
Definition attempt (quality dpi : Z) (st : SearchState) : Flow :=
  let progress :=
    Z.min 90 (Py.int (inject_Z (iteration st) / inject_Z (max_iterations config) * 90)%Q) in
  let w := _report_progress CompressionStage.PROCESSING_IMAGES progress (world st) in
  let '(result, w) := _compress_with_settings quality dpi analysis w in
  if success result then
    if compressed_size result <=? self_target_size then
      let w := _report_progress CompressionStage.FINALIZING 100 w in
      Return (set_iterations (iteration st) (set_target_achieved true result)) w
    else if compressed_size result <? best_size st then
      Continue (mkSearchState (iteration st) (Some result) (compressed_size result) w)
    else
      Continue (mkSearchState (iteration st) (best_result st) (best_size st) w)
  else
    Continue (mkSearchState (iteration st) (best_result st) (best_size st) w).

Definition count_iteration (st : SearchState) : SearchState :=
  mkSearchState (iteration st + 1) (best_result st) (best_size st) (world st).

(** [for dpi in self.DPI_LEVELS: ...], from the entries still to visit. *)
Fixpoint dpi_loop (dpis : list Z) (quality : Z) (st : SearchState) : Flow :=
  match dpis with
  | [] => Continue st
  | dpi :: rest =>
      if dpi <? min_dpi config then Continue st
      else
        let st := count_iteration st in
        if max_iterations config <? iteration st then Continue st
        else
          match attempt quality dpi st with
          | Continue st => dpi_loop rest quality st
          | Return r w => Return r w
          end
  end.

(** [for quality in self.QUALITY_LEVELS: ...]. *)
Fixpoint quality_loop (qualities : list Z) (st : SearchState) : Flow :=
  match qualities with
  | [] => Continue st
  | quality :: rest =>
      if quality <? min_quality config then Continue st
      else
        match dpi_loop DPI_LEVELS quality st with
        | Continue st =>
            if max_iterations config <? iteration st then Continue st
            else quality_loop rest st
        | Return r w => Return r w
        end
  end.

(** [_compress_image_heavy] once [config] has been looked up. *)
Definition grid_search (w : World) : CompressionResult * World :=
  match quality_loop QUALITY_LEVELS
          (mkSearchState 0 None (file_size analysis) w) with
  | Return r w => (r, w)
  | Continue st =>
      let w := _report_progress CompressionStage.FINALIZING 100 (world st) in
      match best_result st with
      | Some best =>
          (set_target_achieved (compressed_size best <=? self_target_size) best, w)
      | None => (failed analysis "Could not achieve target size", w)
      end
  end.

End Search.

Definition _compress_image_heavy (analysis : AnalysisResult) (w : World)
    : Completion * World :=
  match tolerance_config self_tolerance with
  | None => (Escapes "KeyError", w)
  | Some config =>
      let '(r, w) := grid_search config analysis w in (Returns r, w)
  end.

Definition _compress_text_heavy (analysis : AnalysisResult) (w : World)
    : CompressionResult * World :=
  let w := emit TextPass w in
  let w := _report_progress CompressionStage.OPTIMIZING_OBJECTS 30 w in
  match text_outcome with
  | OpenRaised e => (failed analysis e, w)
  | Raised e written =>
      let w := emit Opened w in
      (failed analysis e,
       match written with Some content => write_output content w | None => w end)
  | Saved content _ =>
      let w := emit Opened w in
      let w := write_output content w in
      let compressed_size := Py.size_of content in
      let w := _report_progress CompressionStage.FINALIZING 100 w in
      let w := emit Closed w in
      let ratio :=
        Utils.calculate_compression_ratio (file_size analysis) compressed_size in
      let quality :=
        Utils.estimate_quality_score (file_size analysis) compressed_size
          (image_percentage analysis) 90 in
      (mkCompressionResult true self_pdf_path out_path
         (file_size analysis) compressed_size ratio quality
         (page_count analysis) 0 self_target_size
         (compressed_size <=? self_target_size) default_iterations None,
       w)
  end.

Definition _compress_mixed (analysis : AnalysisResult) (w : World)
    : Completion * World :=
  _compress_image_heavy analysis w.

(** [PDFCompressor.compress].  The call of [shutil.copy2] stands outside
    any [try]: when it raises, the exception leaves [compress]. *)
Definition compress (w : World) : Completion * World :=
  let original_size := Py.size_of pdf_bytes in
  if original_size <=? self_target_size then
    let w := emit Copied w in
    match copy_outcome with
    | CopyRaised e written =>
        (Escapes e,
         match written with Some content => write_output content w | None => w end)
    | CopyDone =>
        let w := write_output pdf_bytes w in
        (Returns (mkCompressionResult true self_pdf_path out_path
                    original_size original_size 0%Q "Excellent"%string 0 0
                    self_target_size true default_iterations None),
         w)
    end
  else
    let w := _report_progress CompressionStage.ANALYZING 0 w in
    let '(analysis, w) := analyze self_pdf_path pdf_bytes open_for_analysis w in
    match analysis_error analysis with
    | Some (String c rest as e) =>
        (Returns (mkCompressionResult false self_pdf_path out_path
                    original_size original_size 0%Q "N/A"%string 0 0
                    self_target_size false default_iterations (Some e)),
         w)
    | _ =>
        let w := _report_progress CompressionStage.ANALYZING 100 w in
        if String.eqb (pdf_type analysis) "image-heavy" then
          _compress_image_heavy analysis w
        else if String.eqb (pdf_type analysis) "text-heavy" then
          let '(r, w) := _compress_text_heavy analysis w in (Returns r, w)
        else
          _compress_mixed analysis w
    end.

End PDFCompressor.

(** ** Vocabulary of the statements *)

(** The classification rule in the words of the specification:
    first match wins, with [textCharacterCount / max(pageCount, 1)]. *)
Definition spec_type_rule (image_percentage : Q) (text_count page_count : Z) : string :=
  if Py.Qlt_bool 70 image_percentage then "image-heavy"%string
  else if (Py.Qlt_bool image_percentage 20
           && Py.Qlt_bool 500 (inject_Z text_count / inject_Z (Z.max page_count 1))%Q)%bool
       then "text-heavy"%string
       else "mixed"%string.

(** The (quality, dpi) trials recorded in a journal, in order. *)
Fixpoint attempts_of (j : list Event) : list (Z * Z) :=
  match j with
  | [] => []
  | Attempt q d :: rest => (q, d) :: attempts_of rest
  | _ :: rest => attempts_of rest
  end.

(** The handle events of a journal, in order. *)
Fixpoint handle_events (j : list Event) : list Event :=
  match j with
  | [] => []
  | Opened :: rest => Opened :: handle_events rest
  | Closed :: rest => Closed :: handle_events rest
  | _ :: rest => handle_events rest
  end.

(** Handles are taken one after the other, each closed before the next is
    opened, and none is left open. *)
Inductive one_at_a_time : list Event -> Prop :=
| oat_done : one_at_a_time []
| oat_next : forall rest, one_at_a_time rest -> one_at_a_time (Opened :: Closed :: rest).

(** The number of handles opened and not closed at the end of a journal. *)
Fixpoint left_open (j : list Event) : Z :=
  match j with
  | [] => 0
  | Opened :: rest => left_open rest + 1
  | Closed :: rest => left_open rest - 1
  | _ :: rest => left_open rest
  end.

(** The longest prefix whose entries all pass [p]: a loop left by [break]
    at the first entry that fails. *)
Fixpoint take_while {A : Type} (p : A -> bool) (xs : list A) : list A :=
  match xs with
  | [] => []
  | x :: rest => if p x then x :: take_while p rest else []
  end.

(** The rungs of the two ladders a profile allows, quality-major. *)
Definition ladder_from (config : ToleranceConfig) (qualities : list Z) : list (Z * Z) :=
  flat_map
    (fun q => map (pair q)
                (take_while (fun d => negb (d <? min_dpi config)) DPI_LEVELS))
    (take_while (fun q => negb (q <? min_quality config)) qualities).

(** The trials the search makes when none meets the target: the first
    [max_iterations] rungs. *)
Definition search_order (config : ToleranceConfig) : list (Z * Z) :=
  firstn (Z.to_nat (max_iterations config)) (ladder_from config QUALITY_LEVELS).

(** What is found at [output_path] after a series of trials. *)
Fixpoint last_output (outcomes : list SettingsOutcome) (before : option (list byte))
    : option (list byte) :=
  match outcomes with
  | [] => before
  | Saved content _ :: rest => last_output rest (Some content)
  | Raised _ (Some content) :: rest => last_output rest (Some content)
  | _ :: rest => last_output rest before
  end.

(** The size a trial saved, when it saved. *)
Definition saved_size (o : SettingsOutcome) : option Z :=
  match o with
  | Saved content _ => Some (Py.size_of content)
  | _ => None
  end.

(** The library raised while the document was open. *)
Definition raised_after_open (o : SettingsOutcome) : bool :=
  match o with
  | Raised _ _ => true
  | _ => false
  end.

Section SearchVocabulary.

Variable self_pdf_path : string.
Variable self_target_size : Z.
Variable self_progress_callback : bool.
Variable out_path : string.
Variable settings_outcome : Z -> Z -> SettingsOutcome.
Variable config : ToleranceConfig.
Variable analysis : AnalysisResult.

(** A trial meets the target: it saved at most [target_size] bytes. *)
Definition meets_target (p : Z * Z) : bool :=
  match saved_size (settings_outcome (fst p) (snd p)) with
  | Some n => n <=? self_target_size
  | None => false
  end.

(** A trial saved strictly less than [bound] bytes. *)
Definition saves_below (bound : Z) (p : Z * Z) : bool :=
  match saved_size (settings_outcome (fst p) (snd p)) with
  | Some n => n <? bound
  | None => false
  end.

(** The trials of a list made one after the other with one shared counter:
    the search with its two loops flattened. *)
Fixpoint scan (pairs : list (Z * Z)) (st : SearchState) : Flow :=
  match pairs with
  | [] => Continue st
  | (q, d) :: rest =>
      match attempt self_pdf_path self_target_size self_progress_callback
              out_path settings_outcome config analysis q d
              (count_iteration st) with
      | Continue st => scan rest st
      | Return r w => Return r w
      end
  end.

End SearchVocabulary.

(** Lines 385-386 of [_compress_with_settings]:
    [scale = min(1.0, target_dpi / current_dpi)] with [current_dpi = 150],
    the one use a trial makes of [target_dpi]. *)
Definition image_scale (target_dpi : Z) : Q :=
  let ratio := (inject_Z target_dpi / 150)%Q in
  if Py.Qlt_bool ratio 1 then ratio else 1%Q.

(** The answers to the trials are those of one program: two trials of the
    same quality whose dpi give the same scale are the same computation, and
    save the same file. *)
Definition reads_dpi_through_scale (settings_outcome : Z -> Z -> SettingsOutcome)
    : Prop :=
  forall quality dpi dpi',
    (image_scale dpi == image_scale dpi')%Q ->
    settings_outcome quality dpi = settings_outcome quality dpi'.

(** The handle events of one trial. *)
Definition handles_of_outcome (o : SettingsOutcome) : list Event :=
  match o with
  | OpenRaised _ => []
  | Raised _ _ => [Opened]
  | Saved _ _ => [Opened; Closed]
  end.

Section SearchInvariant.

Variable self_target_size : Z.

(** What the search keeps in [best_result]: a result as a trial built it,
    of a save that missed the target, with its size in [best_size]. *)
Definition retained (st : SearchState) : Prop :=
  match best_result st with
  | None => True
  | Some r =>
      success r = true
      /\ iterations r = default_iterations
      /\ compressed_size r = best_size st
      /\ self_target_size < compressed_size r
  end.

End SearchInvariant.

(** [w'] is [w] after the trials [pairs], which met [outcomes]. *)
Definition advances (pairs : list (Z * Z)) (outcomes : list SettingsOutcome)
    (w w' : World) : Prop :=
  attempts_of (journal w') = attempts_of (journal w) ++ pairs
  /\ handle_events (journal w')
     = handle_events (journal w) ++ flat_map handles_of_outcome outcomes
  /\ output_file w' = last_output outcomes (output_file w).

(** The reading of "exactly one handle per call, acquired at call start and
    released before returning": the handle events of the call are one
    opening followed by one closing. *)
Definition single_handle (j : list Event) : Prop :=
  handle_events j = [Opened; Closed].

(** A call that opens the document in order to compress it: a trial of the
    search at (quality, dpi), or the one pass of [_compress_text_heavy]. *)
Inductive Pass : Type :=
| Trial (quality dpi : Z)
| TextHeavyPass.

(** The passes a journal records, in order. *)
Fixpoint passes_of (j : list Event) : list Pass :=
  match j with
  | [] => []
  | Attempt q d :: rest => Trial q d :: passes_of rest
  | TextPass :: rest => TextHeavyPass :: passes_of rest
  | _ :: rest => passes_of rest
  end.

Definition trial_pass (p : Z * Z) : Pass := Trial (fst p) (snd p).

(** What the library answered to a pass. *)
Definition outcome_of_pass (text_outcome : SettingsOutcome)
    (settings_outcome : Z -> Z -> SettingsOutcome) (p : Pass) : SettingsOutcome :=
  match p with
  | Trial quality dpi => settings_outcome quality dpi
  | TextHeavyPass => text_outcome
  end.

(** The handle events of [analyze]: one handle, opened and closed, when
    [fitz.open] returns a document; none when it raises. *)
Definition analysis_handles (opening : string + Document) : list Event :=
  match opening with
  | inl _ => []
  | inr _ => [Opened; Closed]
  end.

(** From [w] to [w'] the journal grew, and by no text-heavy pass. *)
Definition grows_by_trials (w w' : World) : Prop :=
  exists more,
    journal w' = journal w ++ more
    /\ passes_of more = map trial_pass (attempts_of more).

(** From [w] to [w'] the passes [passes] were made, and the handle events
    are theirs. *)
Definition passed (text_outcome : SettingsOutcome)
    (settings_outcome : Z -> Z -> SettingsOutcome) (passes : list Pass)
    (w w' : World) : Prop :=
  passes_of (journal w') = passes_of (journal w) ++ passes
  /\ handle_events (journal w')
     = handle_events (journal w)
       ++ flat_map handles_of_outcome
            (map (outcome_of_pass text_outcome settings_outcome) passes).

(** ** Inputs of the examples *)

(** A file content of [n] bytes. *)
Definition blank (n : nat) : list byte := repeat x00 n.

Definition empty_world : World := mkWorld None [].

(** A one-page document with a few words and no image. *)
Definition small_document : Document :=
  mkDocument [mkPage "Quarterly report" [] (Some false)]
    (fun _ => ExtractEmpty) false false None.

(** The profile of a 1000-byte file of mixed content. *)
Definition mixed_analysis : AnalysisResult :=
  mkAnalysisResult "in.pdf" 1000 1 true 16 0 0 0%Q [] "mixed" 800 950
    false false false None.

Definition balanced_config : ToleranceConfig := mkToleranceConfig 6 45 100.

(** Every trial saves a file as large as the 1000-byte input. *)
Definition nothing_gained (quality dpi : Z) : SettingsOutcome :=
  Saved (blank 1000) 0.

(** The first trial saves 700 bytes, every later one 900: a table of
    answers chosen freely, for statements that hold of every table. *)
Definition first_is_smallest (quality dpi : Z) : SettingsOutcome :=
  if ((quality =? 95) && (dpi =? 300))%bool
  then Saved (blank 700) 2
  else Saved (blank 900) 1.

(** The strict profile. *)
Definition strict_config : ToleranceConfig := mkToleranceConfig 10 25 72.

(** Sizes a run can meet: with the images at full scale the file saved at
    quality 95 has 950 bytes, at scale 0.8 (120 dpi) 900, at scale 2/3
    (100 dpi) 850 and below that 700; at quality 85 it has 900 bytes at
    full scale and 800 below.  The dpi counts through [image_scale] only, so
    the trials at 300, 200 and 150 dpi of one quality save the same file. *)
Definition coarser_is_smaller (quality dpi : Z) : SettingsOutcome :=
  let scale := image_scale dpi in
  if 95 <=? quality
  then if Py.Qlt_bool scale (2 # 3) then Saved (blank 700) 2
       else if Py.Qlt_bool scale (4 # 5) then Saved (blank 850) 2
       else if Py.Qlt_bool scale 1 then Saved (blank 900) 2
       else Saved (blank 950) 2
  else if Py.Qlt_bool scale 1 then Saved (blank 800) 2
       else Saved (blank 900) 2.

(** A scanned page: two images, of 500 and 300 bytes, in a file of 1000
    bytes. *)
Definition scanned_document : Document :=
  mkDocument
    [mkPage "Scanned page"
       [mkPageImage 7 (Some "DeviceRGB"%string); mkPageImage 9 (Some "DeviceGray"%string)]
       (Some false)]
    (fun x =>
       if x =? 7
       then Extracted (mkBaseImage (blank 500) (Some 1200) (Some 1600) (Some 8)
                         (Some "png"%string))
       else if x =? 9
            then Extracted (mkBaseImage (blank 300) (Some 800) (Some 600) (Some 8)
                              (Some "jpeg"%string))
            else ExtractRaised)
    false false None.

(** Its profile, as [analyze] builds it: image-heavy, with 80% of images. *)
Definition scanned_analysis : AnalysisResult :=
  fst (analyze "in.pdf" (blank 1000) (inr scanned_document) empty_world).

(** The first trial saves 900 bytes, the second 500, the others raise: a
    table of answers chosen freely, for statements that hold of every
    table. *)
Definition second_fits (quality dpi : Z) : SettingsOutcome :=
  if ((quality =? 95) && (dpi =? 300))%bool then Saved (blank 900) 1
  else if ((quality =? 95) && (dpi =? 200))%bool then Saved (blank 500) 2
  else Raised "save failed" None.

(** Every trial saves 500 bytes. *)
Definition always_fits (quality dpi : Z) : SettingsOutcome :=
  Saved (blank 500) 2.

(** Every save raises once the document is open. *)
Definition save_always_raises (quality dpi : Z) : SettingsOutcome :=
  Raised "save failed" None.

(** Five images, four of them jpeg-family: exactly 80%. *)
Definition four_jpeg_one_png : list ImageInfo :=
  [ mkImageInfo 1 640 480 8 "DeviceRGB" 5000 11 "jpeg";
    mkImageInfo 1 640 480 8 "DeviceRGB" 5000 12 "jpeg";
    mkImageInfo 2 640 480 8 "DeviceRGB" 5000 13 "JPEG";
    mkImageInfo 2 640 480 8 "DeviceRGB" 5000 14 "jpg";
    mkImageInfo 3 640 480 8 "DeviceRGB" 9000 15 "png" ].

(** Five images, all of them jpeg-family. *)
Definition five_jpeg : list ImageInfo :=
  [ mkImageInfo 1 640 480 8 "DeviceRGB" 5000 11 "jpeg";
    mkImageInfo 1 640 480 8 "DeviceRGB" 5000 12 "jpeg";
    mkImageInfo 2 640 480 8 "DeviceRGB" 5000 13 "JPEG";
    mkImageInfo 2 640 480 8 "DeviceRGB" 5000 14 "jpg";
    mkImageInfo 3 640 480 8 "DeviceRGB" 9000 15 "jpeg" ].

(** ** Vocabulary of the further properties *)

Section ResultRecords.

Variable self_pdf_path : string.
Variable self_target_size : Z.
Variable out_path : string.

(** The result built at lines 438-450, after a save of [content] at the
    given [quality]. *)
Definition saved_result (quality : Z) (content : list byte) (images_processed : Z)
    (analysis : AnalysisResult) : CompressionResult :=
  mkCompressionResult true self_pdf_path out_path
    (file_size analysis) (Py.size_of content)
    (Utils.calculate_compression_ratio (file_size analysis) (Py.size_of content))
    (Utils.estimate_quality_score (file_size analysis) (Py.size_of content)
       (image_percentage analysis) quality)
    (page_count analysis) images_processed self_target_size
    (Py.size_of content <=? self_target_size) default_iterations None.

(** The result built at lines 288-300, after the single save of the
    text-heavy pass. *)
Definition text_result (content : list byte) (analysis : AnalysisResult)
    : CompressionResult :=
  mkCompressionResult true self_pdf_path out_path
    (file_size analysis) (Py.size_of content)
    (Utils.calculate_compression_ratio (file_size analysis) (Py.size_of content))
    (Utils.estimate_quality_score (file_size analysis) (Py.size_of content)
       (image_percentage analysis) 90)
    (page_count analysis) 0 self_target_size
    (Py.size_of content <=? self_target_size) default_iterations None.

(** The result of the copy, lines 135-147. *)
Definition copied_result (original_size : Z) : CompressionResult :=
  mkCompressionResult true self_pdf_path out_path original_size original_size 0%Q
    "Excellent" 0 0 self_target_size true default_iterations None.

End ResultRecords.

(** The percentages handed to the progress callback, in order. *)
Fixpoint progress_of (j : list Event) : list (string * Z) :=
  match j with
  | [] => []
  | Progress stage percentage :: rest => (stage, percentage) :: progress_of rest
  | _ :: rest => progress_of rest
  end.

(** The order of the labels of [estimate_quality_score]. *)
Definition quality_rank (label : string) : Z :=
  if String.eqb label "Excellent" then 3
  else if String.eqb label "Good" then 2
  else if String.eqb label "Fair" then 1
  else 0.

(** From [w] to [w'] no trial was made and [output_path] was not written. *)
Definition quiet (w w' : World) : Prop :=
  attempts_of (journal w') = attempts_of (journal w)
  /\ output_file w' = output_file w.

(** A progress report with its percentage between 0 and 100. *)
Definition percent_in_range (report : string * Z) : Prop := 0 <= snd report <= 100.

(** From [w] to [w'] the callback, if there is one, was only handed
    percentages between 0 and 100. *)
Definition reports_in_range (callback : bool) (w w' : World) : Prop :=
  exists ps,
    progress_of (journal w') = progress_of (journal w) ++ ps
    /\ Forall percent_in_range ps
    /\ (callback = false -> ps = []).

(** The bytes of a list of images, added up. *)
Definition sum_sizes (images : list ImageInfo) : Z :=
  fold_right Z.add 0 (map size_bytes images).

(** What [_analyze_images] keeps true of its three variables while it goes
    through the pages numbered up to [last_page]. *)
Definition images_invariant (doc : Document) (last_page : Z)
    (acc : list ImageInfo * Z * list Z) : Prop :=
  let '(images, total_bytes, seen_xrefs) := acc in
  NoDup (map xref images)
  /\ total_bytes = sum_sizes images
  /\ (forall info, In info images ->
        In (xref info) seen_xrefs
        /\ 1 <= page_number info <= last_page
        /\ exists base_image,
             doc_extract_image doc (xref info) = Extracted base_image
             /\ size_bytes info = Py.len (bi_image base_image))
  /\ (forall x base_image,
        In x seen_xrefs -> doc_extract_image doc x = Extracted base_image ->
        exists info, In info images /\ xref info = x).

Definition seen_of (acc : list ImageInfo * Z * list Z) : list Z := snd acc.

(** ** Inputs of the further examples *)

(** Two pages showing the same image (xref 7); a second image (xref 9)
    cannot be extracted. *)
Definition illustrated_document : Document :=
  mkDocument
    [ mkPage "Figure 1"%string [mkPageImage 7 (Some "DeviceRGB"%string); mkPageImage 9 None]
        (Some false);
      mkPage ""%string [mkPageImage 7 (Some "DeviceRGB"%string)] (Some true) ]
    (fun x => if x =? 7
              then Extracted (mkBaseImage (blank 8) (Some 4) (Some 2) None (Some "jpeg"%string))
              else ExtractRaised)
    false true None.

(** A page of 600 letters: a text-heavy document. *)
Definition wordy_document : Document :=
  mkDocument [mkPage (String.concat ""%string (repeat "word "%string 120)) [] (Some true)]
    (fun _ => ExtractEmpty) false false None.

(** Every trial saves 5 bytes, with one image replaced. *)
Definition five_bytes (quality dpi : Z) : SettingsOutcome := Saved (blank 5) 1.

(** * The helpers: sizes as text, names of files, text extraction *)

(** ** Python strings, further helpers *)

Module PyStr.

Definition code (c : ascii) : Z := Z.of_nat (nat_of_ascii c).

Definition is_digit (c : ascii) : bool := (48 <=? code c) && (code c <=? 57).

Definition is_lower (c : ascii) : bool := (97 <=? code c) && (code c <=? 122).

(** The characters on which this model of [str] is that of Python. *)
Definition is_ascii (c : ascii) : bool := code c <? 128.

(** [str.upper()], on the ASCII range. *)
Definition upper_ascii (c : ascii) : ascii :=
  if is_lower c then ascii_of_nat (nat_of_ascii c - 32) else c.

Fixpoint upper (s : string) : string :=
  match s with
  | EmptyString => EmptyString
  | String c rest => String (upper_ascii c) (upper rest)
  end.

Fixpoint lstrip (s : string) : string :=
  match s with
  | EmptyString => EmptyString
  | String c rest => if Py.is_space c then lstrip rest else s
  end.

Fixpoint rstrip (s : string) : string :=
  match s with
  | EmptyString => EmptyString
  | String c rest =>
      match rstrip rest with
      | EmptyString => if Py.is_space c then EmptyString else String c EmptyString
      | kept => String c kept
      end
  end.

(** [str.strip()]. *)
Definition strip (s : string) : string := rstrip (lstrip s).

(** The longest prefix of [s] whose characters pass [p], and what follows. *)
Fixpoint span (p : ascii -> bool) (s : string) : string * string :=
  match s with
  | EmptyString => (EmptyString, EmptyString)
  | String c rest =>
      if p c
      then let '(taken, remaining) := span p rest in (String c taken, remaining)
      else (EmptyString, s)
  end.

Fixpoint all_chars (p : ascii -> bool) (s : string) : bool :=
  match s with
  | EmptyString => true
  | String c rest => p c && all_chars p rest
  end.

(** [s.replace(c, "")] for a single character [c]. *)
Fixpoint remove_char (c : ascii) (s : string) : string :=
  match s with
  | EmptyString => EmptyString
  | String d rest => if Ascii.eqb c d then remove_char c rest else String d (remove_char c rest)
  end.

Definition len (s : string) : Z := Z.of_nat (String.length s).

Definition digit_char (d : Z) : ascii := ascii_of_nat (Z.to_nat d + 48).

Definition digit_value (c : ascii) : Z := code c - 48.

(** The decimal digits of [n >= 0], most significant first; [fuel] bounds
    the number of digits. *)
Fixpoint digits (fuel : nat) (n : Z) : string :=
  match fuel with
  | O => EmptyString
  | S fuel' =>
      String.append
        (if n / 10 =? 0 then EmptyString else digits fuel' (n / 10))
        (String (digit_char (n mod 10)) EmptyString)
  end.

(** [str(n)] for an [int]. *)
Definition str (n : Z) : string :=
  if n <? 0
  then String "-" (digits (S (Z.to_nat (Z.log2 (- n)))) (- n))
  else digits (S (Z.to_nat (Z.log2 n))) n.

(** The number a string of decimal digits writes, read from the left. *)
Fixpoint digits_value (acc : Z) (s : string) : Z :=
  match s with
  | EmptyString => acc
  | String c rest => digits_value (acc * 10 + digit_value c) rest
  end.

(** [float(s)] for a string of digits and dots: a value when there is at
    most one dot and at least one digit, [None] for Python's [ValueError]. *)
Definition float_of (s : string) : option Q :=
  let '(whole, rest) := span is_digit s in
  match rest with
  | EmptyString =>
      match whole with
      | EmptyString => None
      | _ => Some (inject_Z (digits_value 0 whole))
      end
  | String c fraction =>
      if Ascii.eqb c "."
      then if all_chars is_digit fraction
           then match String.append whole fraction with
                | EmptyString => None
                | _ =>
                    Some (inject_Z (digits_value 0 whole)
                          + inject_Z (digits_value 0 fraction)
                            / inject_Z (10 ^ len fraction))%Q
                end
           else None
      else None
  end.

(** Rounding to the nearest integer, ties to the even one: the rounding of
    Python's float formatting. *)
Definition round_half_even (x : Q) : Z :=
  let below := Qfloor x in
  let twice := Qfloor (x * 2) - 2 * below in
  if twice =? 0 then below
  else if Qeq_bool (x * 2) (inject_Z (2 * below + 1))
       then (if Z.even below then below else below + 1)
       else below + 1.

(** [f"{x:.1f}"] and [f"{x:.2f}"] for [x >= 0]: [decimals] digits after
    the point. *)
Definition format_fixed (decimals : nat) (x : Q) : string :=
  let scale := 10 ^ Z.of_nat decimals in
  let scaled := round_half_even (x * inject_Z scale) in
  let fraction := str (scaled mod scale) in
  String.append (str (scaled / scale))
    (String "."
       (String.append
          (String.concat "" (repeat "0"%string (decimals - String.length fraction)))
          fraction)).

End PyStr.

(** ** utils.py: sizes as text *)

Module UtilsSize.

(** The [multipliers] dict, with the default unit ['B'] for no unit;
    [None] for a text that is not a unit. *)
Definition multiplier (unit : string) : option Z :=
  if String.eqb unit "" then Some 1
  else if String.eqb unit "B" then Some 1
  else if String.eqb unit "K" then Some 1024
  else if String.eqb unit "KB" then Some 1024
  else if String.eqb unit "M" then Some (1024 * 1024)
  else if String.eqb unit "MB" then Some (1024 * 1024)
  else if String.eqb unit "G" then Some (1024 * 1024 * 1024)
  else if String.eqb unit "GB" then Some (1024 * 1024 * 1024)
  else None.

Definition is_number_char (c : ascii) : bool :=
  PyStr.is_digit c || Ascii.eqb c ".".

(** [parse_size]: [None] stands for the [ValueError] it raises, on a text
    the pattern does not match or on a number [float] refuses. *)
Definition parse_size (size_str : string) : option Z :=
  let size_str := PyStr.upper (PyStr.strip size_str) in
  let '(number, rest) := PyStr.span is_number_char size_str in
  match number with
  | EmptyString => None
  | _ =>
      match multiplier (PyStr.lstrip rest) with
      | None => None
      | Some factor =>
          match PyStr.float_of number with
          | None => None
          | Some value => Some (Py.int (value * inject_Z factor))
          end
      end
  end.

(** [format_size]. *)
Definition format_size (size_bytes : Z) : string :=
  if size_bytes <? 1024 then String.append (PyStr.str size_bytes) " B"
  else if size_bytes <? 1024 * 1024
       then String.append
              (PyStr.format_fixed 1 (inject_Z size_bytes / inject_Z 1024)) " KB"
  else if size_bytes <? 1024 * 1024 * 1024
       then String.append
              (PyStr.format_fixed 2 (inject_Z size_bytes / inject_Z (1024 * 1024)))
              " MB"
  else String.append
         (PyStr.format_fixed 2 (inject_Z size_bytes / inject_Z (1024 * 1024 * 1024)))
         " GB".

End UtilsSize.

(** ** Names of files *)

Module PyName.

(** The text before the last dot of [s] and the text after it: what
    [s.rfind('.')] and [s.rsplit('.', 1)] cut [s] into; [None] when [s] has
    no dot. *)
Fixpoint rsplit_dot (s : string) : option (string * string) :=
  match s with
  | EmptyString => None
  | String c rest =>
      match rsplit_dot rest with
      | Some (before, after) => Some (String c before, after)
      | None => if Ascii.eqb c "." then Some (EmptyString, rest) else None
      end
  end.

(** [PurePath.suffix] of a path whose final component is [name]: the last
    dot and what follows, when the dot is neither the first nor the last
    character of the name. *)
Definition suffix (name : string) : string :=
  match rsplit_dot name with
  | Some (String _ _, String d after) => String "." (String d after)
  | _ => EmptyString
  end.

(** [PurePath.stem]: the name without its suffix. *)
Definition stem (name : string) : string :=
  match rsplit_dot name with
  | Some (String c before, String _ _) => String c before
  | _ => name
  end.

Fixpoint has_dot (s : string) : bool :=
  match s with
  | EmptyString => false
  | String c rest => Ascii.eqb c "." || has_dot rest
  end.

End PyName.

(** The path [get_output_path] returns: the caller's own, or a file of the
    given name in the directory of the input ([input_path.parent / name]). *)
Inductive OutputPath : Type :=
| Explicit (output_path : string)
| Beside (file_name : string).

Module UtilsPath.

(** [get_output_path], for an input path whose final component is
    [input_name]; [output_path] is [None] or a [str], of which the empty one
    counts as false. *)
Definition get_output_path (input_name : string) (output_path : option string)
    (suffix : string) : OutputPath :=
  match output_path with
  | Some (String c rest) => Explicit (String c rest)
  | _ => Beside (String.append (PyName.stem input_name) (String.append suffix ".pdf"))
  end.

(** The default of the parameter [suffix]. *)
Definition default_suffix : string := "_compressed".

End UtilsPath.

(** ** web/app.py *)

Module WebApp.

(** [ALLOWED_EXTENSIONS], a set. *)
Definition ALLOWED_EXTENSIONS : list string := ["pdf"%string].

(** [allowed_file]. *)
Definition allowed_file (filename : string) : bool :=
  match PyName.rsplit_dot filename with
  | Some (_, extension) =>
      existsb (String.eqb (Py.lower extension)) ALLOWED_EXTENSIONS
  | None => false
  end.

End WebApp.

(** ** text_handler.py *)

Record TextBlock : Type := mkTextBlock {
  tb_page_number : Z;
  tb_text : string;
  tb_bbox : Q * Q * Q * Q
}.

Record TextExtractionResult : Type := mkTextExtractionResult {
  te_success : bool;
  te_total_characters : Z;
  te_total_pages : Z;
  te_pages_with_text : Z;
  te_text_content : string;
  te_text_blocks : list TextBlock;
  te_output_path : option string;
  te_error : option string
}.

(** What [page.get_text("dict")["blocks"]] holds, as far as [extract_text]
    reads it: [block.get("type")], [block.get("lines", [])],
    [line.get("spans", [])], [span.get("text", "")] and [block["bbox"]]. *)
Record TextSpan : Type := mkTextSpan { span_text : option string }.

Record TextLine : Type := mkTextLine { line_spans : option (list TextSpan) }.

Record Block : Type := mkBlock {
  block_type : option Z;
  block_lines : option (list TextLine);
  block_bbox : Q * Q * Q * Q
}.

Inductive TextCompletion : Type :=
| TextReturns (r : TextExtractionResult)
| TextEscapes (exception : string).

Module PyText.

Definition newline : ascii := "010"%char.

(** ['=' * n]. *)
Fixpoint bar (n : nat) : string :=
  match n with
  | O => EmptyString
  | S n' => String "=" (bar n')
  end.

(** [s.replace("\n", "").replace(" ", "")]. *)
Definition ink (s : string) : string :=
  PyStr.remove_char " " (PyStr.remove_char newline s).

End PyText.

Section TextHandler.

(** What [fitz.open(self.pdf_path)] answers: the message of the exception,
    or the document.  [doc_fault] is here the message of an exception the
    library raises inside the [try] of [extract_text]. *)
Variable open_for_text : string + Document.

(** [page.get_text("dict")["blocks"]] of the page numbered [page_num]
    (from 0). *)
Variable page_blocks : Z -> list Block.

(** Whether [page.get_text()] raises on the page numbered [page_num], for
    [has_text], whose answer depends on where the exception occurs. *)
Variable unreadable : Z -> bool.

(** [str(Path(output_path))]. *)
Variable path_text : string -> string.

(** The exception of [output_path.write_text(...)], if it raises, and the
    one of [doc.close()] on a document that is closed already, if that
    raises. *)
Variable write_text_raises : option string.
Variable second_close_raises : option string.

Definition text_failure (msg : string) : TextExtractionResult :=
  mkTextExtractionResult false 0 0 0 "" [] None (Some msg).

(** The three entries a page with text gets before its text. *)
Definition page_marker (page_num : Z) : list string :=
  [String PyText.newline (PyText.bar 50);
   String.append "Page " (PyStr.str (page_num + 1));
   String.append (PyText.bar 50) (String PyText.newline "")].

(** The text of one block: the spans of each line, and a newline after
    each line. *)
Definition block_text (block : Block) : string :=
  fold_left
    (fun block_text line =>
       String.append
         (fold_left
            (fun block_text span =>
               String.append block_text
                 (match span_text span with Some t => t | None => EmptyString end))
            (match line_spans line with Some spans => spans | None => [] end)
            block_text)
         (String PyText.newline ""))
    (match block_lines block with Some lines => lines | None => [] end)
    EmptyString.

(** The body of the loop over the blocks of a page. *)
Definition add_block (page_num : Z) (text_blocks : list TextBlock) (block : Block)
    : list TextBlock :=
  match block_type block with
  | Some 0 =>
      if Py.has_non_space (block_text block)
      then text_blocks ++ [mkTextBlock (page_num + 1)
                             (PyStr.strip (block_text block)) (block_bbox block)]
      else text_blocks
  | _ => text_blocks
  end.

(** The loop over the pages: [all_text], [text_blocks] and
    [pages_with_text]. *)
Fixpoint extract_pages (include_page_markers : bool) (page_num : Z)
    (pages : list Page) (acc : list string * list TextBlock * Z)
    : list string * list TextBlock * Z :=
  match pages with
  | [] => acc
  | page :: rest =>
      let '(all_text, text_blocks, pages_with_text) := acc in
      extract_pages include_page_markers (page_num + 1) rest
        (if Py.has_non_space (page_text page)
         then
           (all_text
              ++ (if include_page_markers then page_marker page_num else [])
              ++ [page_text page],
            fold_left (add_block page_num) (page_blocks page_num) text_blocks,
            pages_with_text + 1)
         else acc)
  end.

(** [extract_text]: the completion, the text written at [output_path] when
    the write went through, and the world. *)
Definition extract_text (output_path : option string) (include_page_markers : bool)
    (w : World) : TextCompletion * option string * World :=
  match open_for_text with
  | inl e => (TextReturns (text_failure (String.append "Failed to open PDF: " e)), None, w)
  | inr doc =>
      let w := emit Opened w in
      match doc_fault doc with
      | Some e =>
          (TextReturns (text_failure (String.append "Text extraction failed: " e)),
           None, emit Closed w)
      | None =>
          let total_pages := Py.len (doc_pages doc) in
          let '(all_text, text_blocks, pages_with_text) :=
            extract_pages include_page_markers 0 (doc_pages doc) ([], [], 0) in
          let w := emit Closed w in
          let full_text := String.concat (String PyText.newline "") all_text in
          let total_characters := PyStr.len (PyText.ink full_text) in
          let finish saved_path written :=
            (TextReturns
               (mkTextExtractionResult true total_characters total_pages
                  pages_with_text full_text text_blocks saved_path None),
             written, w) in
          match output_path with
          | Some (String c rest) =>
              match write_text_raises with
              | None => finish (Some (path_text (String c rest))) (Some full_text)
              | Some e =>
                  (* the handler closes the document a second time *)
                  match second_close_raises with
                  | Some e' => (TextEscapes e', None, w)
                  | None =>
                      (TextReturns
                         (text_failure (String.append "Text extraction failed: " e)),
                       None, emit Closed w)
                  end
              end
          | _ => finish None None
          end
      end
  end.

(** The loop of [has_text]: [Some true] at the first page with text,
    [Some false] when there is none, [None] when [get_text] raises before. *)
Fixpoint has_text_pages (page_num : Z) (pages : list Page) : option bool :=
  match pages with
  | [] => Some false
  | page :: rest =>
      if unreadable page_num then None
      else if Py.has_non_space (page_text page) then Some true
      else has_text_pages (page_num + 1) rest
  end.

(** [TextHandler.has_text]. *)
Definition handler_has_text (w : World) : bool * World :=
  match open_for_text with
  | inl _ => (false, w)
  | inr doc =>
      let w := emit Opened w in
      match has_text_pages 0 (doc_pages doc) with
      | Some found => (found, emit Closed w)
      | None => (false, w)
      end
  end.

End TextHandler.

(** The pages of a document that have text, with their numbers from
    [page_num]. *)
Fixpoint pages_with_text_from (page_num : Z) (pages : list Page) : list (Z * Page) :=
  match pages with
  | [] => []
  | page :: rest =>
      (if Py.has_non_space (page_text page) then [(page_num, page)] else [])
      ++ pages_with_text_from (page_num + 1) rest
  end.

(** The characters of a text other than newlines and spaces. *)
Definition ink_count (s : string) : Z := PyStr.len (PyText.ink s).

(** The characters of the marker of a page, spaces and newlines apart: two
    bars of 50, [Page] and the number. *)
Definition marker_ink (page_num : Z) : Z := 104 + PyStr.len (PyStr.str (page_num + 1)).

Definition sum_of {A : Type} (f : A -> Z) (xs : list A) : Z :=
  fold_right (fun x total => f x + total) 0 xs.

(** ** Vocabulary of the properties of the helpers *)

(** The first character of [s], if any, fails [p]. *)
Definition starts_outside (p : ascii -> bool) (s : string) : Prop :=
  match s with
  | EmptyString => True
  | String c _ => p c = false
  end.

(** [s] is not empty and its last character is not white space. *)
Fixpoint ends_with_ink (s : string) : bool :=
  match s with
  | EmptyString => false
  | String c EmptyString => negb (Py.is_space c)
  | String _ rest => ends_with_ink rest
  end.

(** The digits after the point, padded with zeros to [decimals] places. *)
Definition padded_fraction (decimals : nat) (m : Z) : string :=
  String.append
    (String.concat "" (repeat "0"%string (decimals - String.length (PyStr.str m))))
    (PyStr.str m).

Definition padded_fraction_ok (decimals : nat) (m : Z) : bool :=
  PyStr.all_chars PyStr.is_digit (padded_fraction decimals m)
  && (PyStr.len (padded_fraction decimals m) =? Z.of_nat decimals)
  && (PyStr.digits_value 0 (padded_fraction decimals m) =? m).

(** What the loop over the pages leaves in [all_text]. *)
Definition page_entries (include_page_markers : bool) (numbered : Z * Page)
    : list string :=
  (if include_page_markers then page_marker (fst numbered) else [])
  ++ [page_text (snd numbered)].

(** A text block as [extract_text] reports them in a document of
    [total_pages] pages. *)
Definition sound_block (total_pages : Z) (b : TextBlock) : Prop :=
  1 <= tb_page_number b <= total_pages
  /\ Py.has_non_space (tb_text b) = true
  /\ PyStr.strip (tb_text b) = tb_text b.

(** ** Inputs of the examples of the helpers *)

(** The blocks of [illustrated_document]: on its first page a caption with
    white space around it, an image block and a blank text block. *)
Definition figure_blocks (page_num : Z) : list Block :=
  if page_num =? 0
  then [ mkBlock (Some 0)
           (Some [mkTextLine (Some [mkTextSpan (Some " Figure"%string);
                                    mkTextSpan (Some " 1 "%string)])])
           (72, 72, 200, 90)%Q;
         mkBlock (Some 1) None (72, 100, 300, 400)%Q;
         mkBlock (Some 0) (Some [mkTextLine None]) (72, 410, 72, 410)%Q ]
  else [].

Definition same_path (p : string) : string := p.

Definition all_readable (page_num : Z) : bool := false.

(** * Properties *)

(** ** The order of the search, profile by profile *)

Example search_order_strict :
  option_map search_order (tolerance_config "strict")
  = Some [(95, 300); (95, 200); (95, 150); (95, 120); (95, 100); (95, 72);
          (85, 300); (85, 200); (85, 150); (85, 120)].
Proof. reflexivity. Qed.

Example search_order_balanced :
  option_map search_order (tolerance_config "balanced")
  = Some [(95, 300); (95, 200); (95, 150); (95, 120); (95, 100); (85, 300)].
Proof. reflexivity. Qed.

Example search_order_high_clarity :
  option_map search_order (tolerance_config "high_clarity")
  = Some [(95, 300); (95, 200); (95, 150); (85, 300)].
Proof. reflexivity. Qed.

(** ** Facts on the Python helpers *)

Lemma Qlt_bool_iff (x y : Q) : Py.Qlt_bool x y = true <-> (x < y)%Q.
Proof.
  unfold Py.Qlt_bool. rewrite negb_true_iff. split.
  - intros H. apply Qnot_le_lt. intros Hle.
    apply Qle_bool_iff in Hle. congruence.
  - intros H. destruct (Qle_bool y x) eqn:E; [|reflexivity].
    apply Qle_bool_iff in E. exfalso. exact (Qlt_not_le _ _ H E).
Qed.

Lemma Qlt_bool_false_iff (x y : Q) : Py.Qlt_bool x y = false <-> (y <= x)%Q.
Proof.
  unfold Py.Qlt_bool. rewrite negb_false_iff. apply Qle_bool_iff.
Qed.

Lemma Qlt_ratio (c : Q) (k : Z) (n : positive) :
  (c < inject_Z k / inject_Z (Z.pos n))%Q <-> Qnum c * Z.pos n < k * Z.pos (Qden c).
Proof.
  unfold Qlt, Qdiv, Qmult, Qinv, inject_Z. simpl.
  rewrite Z.mul_1_r. reflexivity.
Qed.

Lemma Qle_ratio (c : Q) (k : Z) (n : positive) :
  (inject_Z k / inject_Z (Z.pos n) <= c)%Q <-> k * Z.pos (Qden c) <= Qnum c * Z.pos n.
Proof.
  unfold Qle, Qdiv, Qmult, Qinv, inject_Z. simpl.
  rewrite Z.mul_1_r. reflexivity.
Qed.

Lemma int_nonneg (x : Q) : (0 <= x)%Q -> Py.int x = Qfloor x.
Proof.
  destruct x as [n d]. unfold Qle, Py.int, Qfloor. simpl. intros H.
  apply Z.quot_div_nonneg; lia.
Qed.

Lemma count_if_bounds {A : Type} (p : A -> bool) (xs : list A) :
  0 <= Py.count_if p xs <= Py.len xs.
Proof.
  unfold Py.len. induction xs as [|x xs IH]; cbn [Py.count_if List.length].
  - lia.
  - rewrite Nat2Z.inj_succ. destruct (p x); lia.
Qed.

Lemma count_if_disjoint {A : Type} (p q : A -> bool) (xs : list A) :
  (forall x, p x = true -> q x = false) ->
  Py.count_if p xs + Py.count_if q xs <= Py.len xs.
Proof.
  intros Hpq. unfold Py.len.
  induction xs as [|x xs IH]; cbn [Py.count_if List.length].
  - lia.
  - rewrite Nat2Z.inj_succ. destruct (p x) eqn:Ep.
    + rewrite (Hpq x Ep). lia.
    + destruct (q x); lia.
Qed.

Lemma jpeg_is_not_png (img : ImageInfo) :
  Analyzer.is_jpeg img = true -> Analyzer.is_png img = false.
Proof.
  unfold Analyzer.is_jpeg, Analyzer.is_png. cbv zeta.
  intros H. apply orb_true_iff in H.
  destruct H as [H|H]; apply String.eqb_eq in H; rewrite H; reflexivity.
Qed.

Lemma len_cons_pos {A : Type} (x : A) (xs : list A) :
  exists n : positive, Py.len (x :: xs) = Z.pos n.
Proof.
  unfold Py.len. exists (Pos.of_succ_nat (List.length xs)).
  cbn [List.length]. lia.
Qed.

(** ** The content classifier *)

(** Called on its own with no page and 501 characters, an input [analyze]
    never passes, [_determine_pdf_type] answers mixed where the rule with
    [max(pageCount, 1)] answers text-heavy: the two differ outside the
    profiles of documents only. *)
Lemma determine_pdf_type_differs_from_spec_rule :
  ~ (forall (image_percentage : Q) (has_text : bool) (text_count page_count : Z),
        0 <= text_count -> 0 <= page_count ->
        Analyzer._determine_pdf_type image_percentage has_text text_count page_count
        = spec_type_rule image_percentage text_count page_count).
Proof.
  intros H. specialize (H 0%Q true 501 0 ltac:(lia) ltac:(lia)).
  vm_compute in H. discriminate H.
Qed.

(** The function as it is written, whatever it is called with: the rule is
    evaluated in order, first match wins; [image_percentage > 70] gives
    image-heavy (so 70 itself does not); otherwise [image_percentage < 20]
    with at least one page and [text_count / page_count > 500] gives
    text-heavy; otherwise mixed.  With no page the characters per page count
    as 0. *)
Lemma determine_pdf_type_rule
    (image_percentage : Q) (has_text : bool) (text_count page_count : Z) :
  let result :=
    Analyzer._determine_pdf_type image_percentage has_text text_count page_count in
  ((70 < image_percentage)%Q -> result = "image-heavy"%string)
  /\ ((image_percentage <= 70)%Q -> (image_percentage < 20)%Q -> 1 <= page_count ->
      (500 < inject_Z text_count / inject_Z page_count)%Q ->
      result = "text-heavy"%string)
  /\ ((image_percentage <= 70)%Q ->
      ~ ((image_percentage < 20)%Q /\ 1 <= page_count
         /\ (500 < inject_Z text_count / inject_Z page_count)%Q) ->
      result = "mixed"%string)
  /\ (1 <= page_count -> result = spec_type_rule image_percentage text_count page_count).
Proof.
  cbv zeta. unfold Analyzer._determine_pdf_type, spec_type_rule.
  repeat split.
  - intros H. apply Qlt_bool_iff in H. rewrite H. reflexivity.
  - intros H70 H20 Hpc Hcpp.
    apply Qlt_bool_false_iff in H70. rewrite H70.
    apply Qlt_bool_iff in H20. rewrite H20.
    destruct (0 <? page_count) eqn:E; [|apply Z.ltb_ge in E; lia].
    apply Qlt_bool_iff in Hcpp. rewrite Hcpp. reflexivity.
  - intros H70 Hno.
    apply Qlt_bool_false_iff in H70. rewrite H70.
    destruct (Py.Qlt_bool image_percentage 20) eqn:E20; [|reflexivity].
    destruct (0 <? page_count) eqn:Epc.
    + destruct (Py.Qlt_bool 500 (inject_Z text_count / inject_Z page_count)) eqn:Ecpp;
        [|reflexivity].
      exfalso. apply Hno. apply Qlt_bool_iff in E20, Ecpp.
      apply Z.ltb_lt in Epc. repeat split; [exact E20 | lia | exact Ecpp].
    + reflexivity.
  - intros Hpc. rewrite Z.max_l by lia.
    destruct (0 <? page_count) eqn:E; [reflexivity|apply Z.ltb_ge in E; lia].
Qed.

(** C5: the classifier follows the type rule, evaluated in order with the
    first match winning: [image_percentage > 70] gives image-heavy, so 70
    itself does not; otherwise [image_percentage < 20] with
    [text_count / max(page_count, 1) > 500] gives text-heavy; otherwise
    mixed, also when there is no page.  This holds of [_determine_pdf_type]
    at every input in which a document without pages has at most 500
    characters, and [analyze], its one caller, passes the number of pages of
    the document and the number of characters of their texts, none when
    there is no page: the type of every profile is the one of the rule. *)
Theorem classifier_follows_the_type_rule :
  (forall (image_percentage : Q) (has_text : bool) (text_count page_count : Z),
      (page_count <= 0 -> text_count <= 500) ->
      let result :=
        Analyzer._determine_pdf_type image_percentage has_text text_count page_count in
      let chars_per_page := (inject_Z text_count / inject_Z (Z.max page_count 1))%Q in
      result = spec_type_rule image_percentage text_count page_count
      /\ ((70 < image_percentage)%Q -> result = "image-heavy"%string)
      /\ ((image_percentage <= 70)%Q -> result <> "image-heavy"%string)
      /\ ((image_percentage <= 70)%Q -> (image_percentage < 20)%Q ->
          (500 < chars_per_page)%Q -> result = "text-heavy"%string)
      /\ ((image_percentage <= 70)%Q ->
          ~ ((image_percentage < 20)%Q /\ (500 < chars_per_page)%Q) ->
          result = "mixed"%string))
  /\ (forall (self_pdf_path : string) (pdf_bytes : list byte)
             (open_for_analysis : string + Document) (w : World),
        let a := fst (analyze self_pdf_path pdf_bytes open_for_analysis w) in
        0 <= page_count a
        /\ (page_count a = 0 -> text_character_count a = 0)
        /\ pdf_type a
           = spec_type_rule (image_percentage a) (text_character_count a)
               (page_count a)).
Proof.
  assert (Hrule : forall ip ht tc pc,
            (pc <= 0 -> tc <= 500) ->
            Analyzer._determine_pdf_type ip ht tc pc = spec_type_rule ip tc pc).
  { intros ip ht tc pc Hreach. unfold Analyzer._determine_pdf_type, spec_type_rule.
    destruct (0 <? pc) eqn:E.
    - apply Z.ltb_lt in E. rewrite Z.max_l by lia. reflexivity.
    - apply Z.ltb_ge in E. rewrite Z.max_r by lia.
      destruct (Py.Qlt_bool 70 ip); [reflexivity|].
      assert (H0 : Py.Qlt_bool 500 0 = false) by reflexivity.
      assert (H1 : Py.Qlt_bool 500 (inject_Z tc / inject_Z 1) = false).
      { apply Qlt_bool_false_iff. specialize (Hreach E).
        unfold Qle, Qdiv, Qmult, Qinv, inject_Z. simpl. lia. }
      rewrite H0, H1. reflexivity. }
  split.
  - intros ip ht tc pc Hreach. cbv zeta. rewrite (Hrule ip ht tc pc Hreach).
    unfold spec_type_rule. split; [reflexivity|]. split; [|split; [|split]].
    + intros H. apply Qlt_bool_iff in H. rewrite H. reflexivity.
    + intros H. apply Qlt_bool_false_iff in H. rewrite H.
      destruct (_ && _)%bool; discriminate.
    + intros H70 H20 Hc. apply Qlt_bool_false_iff in H70.
      apply Qlt_bool_iff in H20, Hc. rewrite H70, H20, Hc. reflexivity.
    + intros H70 Hno. apply Qlt_bool_false_iff in H70. rewrite H70.
      destruct (Py.Qlt_bool ip 20) eqn:E20; [|reflexivity].
      destruct (Py.Qlt_bool 500 _) eqn:Ec; [|reflexivity].
      exfalso. apply Hno. apply Qlt_bool_iff in E20, Ec. split; assumption.
  - intros path bytes opening w. cbv zeta. unfold analyze.
    destruct opening as [e|doc].
    + cbn. split; [lia|]. split; reflexivity.
    + destruct (doc_fault doc) as [e|].
      * cbn. split; [lia|]. split; reflexivity.
      * destruct (_analyze_images doc) as [imgs total].
        destruct (Analyzer._estimate_compression _ _ _ _ _) as [est_min est_max].
        cbn [fst page_count text_character_count pdf_type image_percentage].
        assert (Hpages : Py.len (doc_pages doc) = 0 -> doc_pages doc = []).
        { unfold Py.len. destruct (doc_pages doc); [reflexivity|cbn; lia]. }
        split; [unfold Py.len; lia|]. split.
        -- intros H0. rewrite (Hpages H0). reflexivity.
        -- apply Hrule. intros Hle.
           assert (H0 : Py.len (doc_pages doc) = 0) by (unfold Py.len in *; lia).
           rewrite (Hpages H0). cbn. lia.
Qed.

Lemma classifier_follows_the_type_rule_witness :
  Analyzer._determine_pdf_type 10 true 1002 2 = spec_type_rule 10 1002 2
  /\ Analyzer._determine_pdf_type 71 true 0 0 = "image-heavy"%string
  /\ Analyzer._determine_pdf_type 70 true 0 0 <> "image-heavy"%string
  /\ Analyzer._determine_pdf_type 10 true 1002 2 = "text-heavy"%string
  /\ Analyzer._determine_pdf_type 10 false 0 0 = "mixed"%string.
Proof.
  pose proof (proj1 classifier_follows_the_type_rule 10%Q true 1002 2 ltac:(lia)) as A.
  pose proof (proj1 classifier_follows_the_type_rule 71%Q true 0 0 ltac:(lia)) as B.
  pose proof (proj1 classifier_follows_the_type_rule 70%Q true 0 0 ltac:(lia)) as C.
  pose proof (proj1 classifier_follows_the_type_rule 10%Q false 0 0 ltac:(lia)) as D.
  cbv zeta in A, B, C, D.
  destruct A as (A1 & _ & _ & A4 & _). destruct B as (_ & B2 & _).
  destruct C as (_ & _ & C3 & _). destruct D as (_ & _ & _ & _ & D5).
  split; [exact A1|]. split; [apply B2; reflexivity|].
  split; [apply C3; discriminate|].
  split; [apply A4; [discriminate|reflexivity|reflexivity]|].
  apply D5; [discriminate|]. intros [_ H]. revert H. unfold Qlt. simpl. lia.
Defined.

(** The profile of a document of one page with 600 characters and no
    image, and that of a file that does not open. *)
Example classifier_on_profiles :
  pdf_type (fst (analyze "in.pdf" (blank 1000) (inr wordy_document) empty_world))
  = "text-heavy"%string
  /\ pdf_type (fst (analyze "in.pdf" (blank 1000) (inl "no such file"%string) empty_world))
     = "mixed"%string.
Proof. vm_compute. split; reflexivity. Qed.

(** ** The bound estimator *)

Lemma image_reduction_factors_cases (images : list ImageInfo) :
  Analyzer.image_reduction_factors images = ((3 # 10)%Q, (7 # 10)%Q)
  \/ Analyzer.image_reduction_factors images = ((5 # 10)%Q, (8 # 10)%Q)
  \/ Analyzer.image_reduction_factors images = ((2 # 10)%Q, (5 # 10)%Q).
Proof.
  unfold Analyzer.image_reduction_factors. destruct images as [|img rest]; cbv zeta.
  - left; reflexivity.
  - destruct (Py.Qlt_bool (8 # 10) _); [right; left; reflexivity|].
    destruct (Py.Qlt_bool (5 # 10) _); [right; right; reflexivity|left; reflexivity].
Qed.

Lemma fifth_le_int (file_size : Z) (x : Q) :
  5 <= file_size -> (inject_Z file_size * (1 # 5) <= x)%Q ->
  (inject_Z file_size * (1 # 10) <= inject_Z (Py.int x))%Q.
Proof.
  intros Hfs Hx.
  assert (H0 : (0 <= x)%Q).
  { apply Qle_trans with (2 := Hx). unfold Qle; simpl; lia. }
  rewrite (int_nonneg x H0).
  apply Qfloor_resp_le in Hx.
  assert (E : Qfloor (inject_Z file_size * (1 # 5)) = file_size / 5).
  { unfold Qfloor, Qmult, inject_Z. simpl. rewrite Z.mul_1_r. reflexivity. }
  rewrite E in Hx.
  pose proof (Z.mul_div_le file_size 5 ltac:(lia)) as Hd.
  pose proof (Z.mod_pos_bound file_size 5 ltac:(lia)) as Hm.
  pose proof (Z.div_mod file_size 5 ltac:(lia)) as Hdm.
  unfold Qle, Qmult, inject_Z. simpl. lia.
Qed.

(** C7: the bound fails as it is written: the sizes are truncated to
    integers, and for a file of one byte both estimates are 0, below a tenth
    of a byte. *)
Lemma estimate_can_fall_below_a_tenth :
  ~ (forall (file_size : Z) (image_percentage : Q) (images : list ImageInfo)
            (has_text has_embedded_fonts : bool),
        0 <= file_size -> (0 <= image_percentage <= 100)%Q ->
        let bounds :=
          Analyzer._estimate_compression file_size image_percentage images
            has_text has_embedded_fonts in
        (inject_Z file_size * (1 # 10) <= inject_Z (fst bounds))%Q
        /\ fst bounds <= snd bounds).
Proof.
  intros H.
  specialize (H 1 0%Q [] false false ltac:(lia)
                ltac:(split; discriminate)).
  destruct H as [H _]. vm_compute in H. apply H. reflexivity.
Qed.

(** The same with a file of 1005 bytes whose extracted images add up to
    more than the file: the floor [int(file_size * 0.1)] is 100, under 100.5. *)
Example estimate_floor_is_truncated :
  Analyzer._estimate_compression 1005 250 [] false false = (100, 326).
Proof. vm_compute. reflexivity. Qed.

(** C7, amended: for every input, [int(0.1 * file_size) <= min_size <=
    max_size]; and [0.1 * file_size <= min_size] itself holds for every file
    of 5 bytes or more whose [image_percentage] lies in [0, 100]. *)
Theorem estimate_compression_bounds
    (file_size : Z) (image_percentage : Q) (images : list ImageInfo)
    (has_text has_embedded_fonts : bool) :
  let bounds :=
    Analyzer._estimate_compression file_size image_percentage images
      has_text has_embedded_fonts in
  Py.int (inject_Z file_size * (1 # 10)) <= fst bounds
  /\ fst bounds <= snd bounds
  /\ (5 <= file_size -> (0 <= image_percentage <= 100)%Q ->
      (inject_Z file_size * (1 # 10) <= inject_Z (fst bounds))%Q).
Proof.
  cbv zeta. unfold Analyzer._estimate_compression.
  destruct (Analyzer.image_reduction_factors images) as [rmin rmax] eqn:Ef.
  cbn [fst snd]. split; [lia|]. split; [lia|].
  intros Hfs [H0 H100].
  apply Qle_trans with (y := inject_Z (Py.int
     (inject_Z file_size * (image_percentage / 100) * rmin +
      inject_Z file_size * (1 - image_percentage / 100) *
      (if has_embedded_fonts then (8 # 10) * (9 # 10) else 8 # 10)))).
  2:{ unfold Qle, inject_Z. simpl. lia. }
  apply fifth_le_int; [exact Hfs|].
  assert (Hq : (5 <= inject_Z file_size)%Q) by (unfold Qle; simpl; lia).
  set (f := (image_percentage / 100)%Q).
  assert (Hf : (0 <= f <= 1)%Q).
  { unfold f. split.
    - apply Qle_shift_div_l; [reflexivity|]. lra.
    - apply Qle_shift_div_r; [reflexivity|]. lra. }
  destruct Hf as [Hf0 Hf1].
  destruct (image_reduction_factors_cases images) as [E|[E|E]];
    rewrite E in Ef; injection Ef as <- <-;
    destruct has_embedded_fonts; nra.
Qed.

Lemma estimate_compression_bounds_witness :
  (inject_Z 1000 * (1 # 10)
   <= inject_Z (fst (Analyzer._estimate_compression 1000 50 five_jpeg true true)))%Q.
Proof.
  apply (proj2 (proj2 (estimate_compression_bounds 1000 50 five_jpeg true true))).
  - lia.
  - split; discriminate.
Defined.

(** C8: the threshold fails as it is written: with exactly 80% of jpeg-family
    images the pair is the default (0.3, 0.7), the test being
    [jpeg_ratio > 0.8]. *)
Lemma exactly_80_percent_jpeg_gets_default_factors :
  ~ (forall images : list ImageInfo,
        images <> [] ->
        4 * Py.len images <= 5 * Py.count_if Analyzer.is_jpeg images ->
        Analyzer.image_reduction_factors images = ((5 # 10)%Q, (8 # 10)%Q)).
Proof.
  intros H.
  specialize (H four_jpeg_one_png ltac:(discriminate) ltac:(vm_compute; discriminate)).
  vm_compute in H. discriminate H.
Qed.

(** C8, amended: for every non-empty image list in which strictly more than
    80% of the images have codec jpeg or jpg, the image reduction factors are
    (0.5, 0.8); with exactly 80% they are the default (0.3, 0.7). *)
Theorem mostly_jpeg_reduction_factors (images : list ImageInfo) :
  images <> [] ->
  (4 * Py.len images < 5 * Py.count_if Analyzer.is_jpeg images ->
   Analyzer.image_reduction_factors images = ((5 # 10)%Q, (8 # 10)%Q))
  /\ (4 * Py.len images = 5 * Py.count_if Analyzer.is_jpeg images ->
      Analyzer.image_reduction_factors images = ((3 # 10)%Q, (7 # 10)%Q)).
Proof.
  intros Hne. destruct images as [|img rest]; [congruence|].
  destruct (len_cons_pos img rest) as [n Hn].
  pose proof (count_if_disjoint Analyzer.is_jpeg Analyzer.is_png (img :: rest)
                jpeg_is_not_png) as Hdis.
  pose proof (count_if_bounds Analyzer.is_png (img :: rest)) as Hpng.
  unfold Analyzer.image_reduction_factors.
  set (jc := Py.count_if Analyzer.is_jpeg (img :: rest)) in *.
  set (pc := Py.count_if Analyzer.is_png (img :: rest)) in *.
  cbv zeta. rewrite Hn in *. split; intros H.
  - assert (E : Py.Qlt_bool (8 # 10) (inject_Z jc / inject_Z (Z.pos n)) = true).
    { apply Qlt_bool_iff, Qlt_ratio. cbn [Qnum Qden]. lia. }
    rewrite E. reflexivity.
  - assert (E : Py.Qlt_bool (8 # 10) (inject_Z jc / inject_Z (Z.pos n)) = false).
    { apply Qlt_bool_false_iff, Qle_ratio. cbn [Qnum Qden]. lia. }
    assert (E2 : Py.Qlt_bool (5 # 10) (inject_Z pc / inject_Z (Z.pos n)) = false).
    { apply Qlt_bool_false_iff, Qle_ratio. cbn [Qnum Qden]. lia. }
    rewrite E, E2. reflexivity.
Qed.

Lemma mostly_jpeg_reduction_factors_witness :
  Analyzer.image_reduction_factors five_jpeg = ((5 # 10)%Q, (8 # 10)%Q)
  /\ Analyzer.image_reduction_factors four_jpeg_one_png = ((3 # 10)%Q, (7 # 10)%Q).
Proof.
  split.
  - apply (proj1 (mostly_jpeg_reduction_factors five_jpeg ltac:(discriminate))).
    vm_compute. reflexivity.
  - apply (proj2 (mostly_jpeg_reduction_factors four_jpeg_one_png ltac:(discriminate))).
    vm_compute. reflexivity.
Defined.

(** ** Journals *)

Lemma attempts_of_app (a b : list Event) :
  attempts_of (a ++ b) = attempts_of a ++ attempts_of b.
Proof.
  induction a as [|e a IH]; [reflexivity|].
  destruct e; cbn [app attempts_of]; rewrite IH; reflexivity.
Qed.

Lemma handle_events_app (a b : list Event) :
  handle_events (a ++ b) = handle_events a ++ handle_events b.
Proof.
  induction a as [|e a IH]; [reflexivity|].
  destruct e; cbn [app handle_events]; rewrite IH; reflexivity.
Qed.

Lemma one_at_a_time_app (a b : list Event) :
  one_at_a_time a -> one_at_a_time b -> one_at_a_time (a ++ b).
Proof.
  induction 1 as [|rest _ IH]; intros Hb; [exact Hb|].
  cbn [app]. constructor. apply IH, Hb.
Qed.

Lemma left_open_one_at_a_time (hs : list Event) : one_at_a_time hs -> left_open hs = 0.
Proof.
  induction 1 as [|rest _ IH]; cbn [left_open]; lia.
Qed.

Lemma last_output_app (a b : list SettingsOutcome) (before : option (list byte)) :
  last_output (a ++ b) before = last_output b (last_output a before).
Proof.
  revert before. induction a as [|o a IH]; intros before; [reflexivity|].
  destruct o as [e|e [content|]|content n]; cbn [app last_output]; apply IH.
Qed.

Lemma advances_refl (w : World) : advances [] [] w w.
Proof.
  unfold advances. cbn [flat_map last_output]. repeat rewrite app_nil_r.
  repeat split; reflexivity.
Qed.

Lemma advances_trans (p1 p2 : list (Z * Z)) (o1 o2 : list SettingsOutcome)
    (w1 w2 w3 : World) :
  advances p1 o1 w1 w2 -> advances p2 o2 w2 w3 -> advances (p1 ++ p2) (o1 ++ o2) w1 w3.
Proof.
  intros (A1 & H1 & F1) (A2 & H2 & F2). unfold advances.
  rewrite A2, A1, H2, H1, F2, F1, flat_map_app, last_output_app.
  repeat rewrite app_assoc. repeat split; reflexivity.
Qed.

(** ** One trial *)

Section SearchFacts.

Variable self_pdf_path : string.
Variable self_target_size : Z.
Variable self_progress_callback : bool.
Variable out_path : string.
Variable settings_outcome : Z -> Z -> SettingsOutcome.
Variable config : ToleranceConfig.
Variable analysis : AnalysisResult.

Local Abbreviation run_settings :=
  (_compress_with_settings self_pdf_path self_target_size out_path settings_outcome).
Local Abbreviation trial :=
  (attempt self_pdf_path self_target_size self_progress_callback out_path
     settings_outcome config analysis).
Local Abbreviation flat :=
  (scan self_pdf_path self_target_size self_progress_callback out_path
     settings_outcome config analysis).
Local Abbreviation hit := (meets_target self_target_size settings_outcome).
Local Abbreviation below := (saves_below settings_outcome).
Local Abbreviation outcome_of := (fun p : Z * Z => settings_outcome (fst p) (snd p)).
Local Abbreviation kept := (retained self_target_size).

Lemma report_progress_advances (stage : string) (percentage : Z) (w : World) :
  advances [] [] w (_report_progress self_progress_callback stage percentage w).
Proof.
  unfold _report_progress, advances. destruct self_progress_callback.
  - cbn [emit journal output_file flat_map last_output].
    rewrite attempts_of_app, handle_events_app. cbn [attempts_of handle_events].
    repeat split; reflexivity.
  - apply advances_refl.
Qed.

(** What one call of [_compress_with_settings] does to the world. *)
Lemma compress_with_settings_advances (q d : Z) (w : World) :
  advances [(q, d)] [settings_outcome q d] w (snd (run_settings q d analysis w)).
Proof.
  unfold _compress_with_settings, advances.
  destruct (settings_outcome q d) as [e|e [content|]|content n];
    cbn [snd emit write_output journal output_file last_output handles_of_outcome flat_map];
    repeat rewrite attempts_of_app; repeat rewrite handle_events_app;
    cbn [attempts_of handle_events app];
    repeat rewrite app_nil_r; repeat rewrite <- app_assoc; cbn [app];
    repeat split; reflexivity.
Qed.

(** What it returns. *)
Lemma compress_with_settings_result (q d : Z) (w : World) :
  let r := fst (run_settings q d analysis w) in
  iterations r = default_iterations
  /\ match saved_size (settings_outcome q d) with
     | Some n => success r = true /\ compressed_size r = n
     | None => success r = false
     end.
Proof.
  cbv zeta. unfold _compress_with_settings.
  destruct (settings_outcome q d) as [e|e [content|]|content n];
    cbn [fst saved_size]; repeat split; reflexivity.
Qed.

(** A trial that misses the target goes on, and keeps what it saved when
    that is smaller than everything before. *)
Lemma trial_miss (q d : Z) (st : SearchState) :
  hit (q, d) = false -> kept st ->
  exists st',
    trial q d st = Continue st'
    /\ iteration st' = iteration st
    /\ advances [(q, d)] [settings_outcome q d] (world st) (world st')
    /\ kept st'
    /\ best_size st' <= best_size st
    /\ (forall n, saved_size (settings_outcome q d) = Some n -> best_size st' <= n)
    /\ ((best_result st' = best_result st /\ best_size st' = best_size st
         /\ below (best_size st) (q, d) = false)
        \/ (best_result st' <> None
            /\ saved_size (settings_outcome q d) = Some (best_size st')
            /\ best_size st' < best_size st)).
Proof.
  unfold meets_target, saves_below. cbn [fst snd]. intros Hmiss Hkept.
  unfold attempt.
  set (w1 := _report_progress self_progress_callback _ _ (world st)).
  pose proof (report_progress_advances CompressionStage.PROCESSING_IMAGES
    (Z.min 90 (Py.int (inject_Z (iteration st) / inject_Z (max_iterations config) * 90)))
    (world st)) as Hp.
  fold w1 in Hp.
  pose proof (compress_with_settings_advances q d w1) as Hw.
  pose proof (compress_with_settings_result q d w1) as Hr. cbv zeta in Hr.
  destruct (run_settings q d analysis w1) as [result w2]. cbn [fst snd] in Hw, Hr.
  pose proof (advances_trans _ _ _ _ _ _ _ Hp Hw) as Hadv. cbn [app] in Hadv.
  destruct Hr as [Hit Hr].
  destruct (saved_size (settings_outcome q d)) as [n|].
  - destruct Hr as [Hs Hc]. rewrite Hs, Hc.
    apply Z.leb_gt in Hmiss.
    destruct (n <=? self_target_size) eqn:E1; [apply Z.leb_le in E1; lia|].
    destruct (n <? best_size st) eqn:E2.
    + apply Z.ltb_lt in E2. eexists. split; [reflexivity|].
      cbn [iteration world best_size best_result].
      split; [reflexivity|]. split; [exact Hadv|].
      split; [|split; [lia|split]].
      * unfold retained. cbn [best_result best_size].
        split; [exact Hs|split; [exact Hit|split; [exact Hc|lia]]].
      * intros m Hm. injection Hm as <-. lia.
      * right. split; [discriminate|split; [reflexivity|exact E2]].
    + apply Z.ltb_ge in E2. eexists. split; [reflexivity|].
      cbn [iteration world best_size best_result].
      split; [reflexivity|]. split; [exact Hadv|].
      split; [exact Hkept|split; [lia|split]].
      * intros m Hm. injection Hm as <-. exact E2.
      * left. split; [reflexivity|split; reflexivity].
  - rewrite Hr. eexists. split; [reflexivity|].
    cbn [iteration world best_size best_result].
    split; [reflexivity|]. split; [exact Hadv|].
    split; [exact Hkept|split; [lia|split]].
    + intros m Hm. discriminate Hm.
    + left. split; [reflexivity|split; reflexivity].
Qed.

(** A trial that meets the target returns at once. *)
Lemma trial_hit (q d : Z) (st : SearchState) :
  hit (q, d) = true ->
  exists r w',
    trial q d st = Return r w'
    /\ success r = true
    /\ target_achieved r = true
    /\ iterations r = iteration st
    /\ saved_size (settings_outcome q d) = Some (compressed_size r)
    /\ compressed_size r <= self_target_size
    /\ advances [(q, d)] [settings_outcome q d] (world st) w'.
Proof.
  unfold meets_target. cbn [fst snd]. intros Hhit.
  unfold attempt.
  set (w1 := _report_progress self_progress_callback _ _ (world st)).
  pose proof (report_progress_advances CompressionStage.PROCESSING_IMAGES
    (Z.min 90 (Py.int (inject_Z (iteration st) / inject_Z (max_iterations config) * 90)))
    (world st)) as Hp.
  fold w1 in Hp.
  pose proof (compress_with_settings_advances q d w1) as Hw.
  pose proof (compress_with_settings_result q d w1) as Hr. cbv zeta in Hr.
  destruct (run_settings q d analysis w1) as [result w2]. cbn [fst snd] in Hw, Hr.
  pose proof (advances_trans _ _ _ _ _ _ _ Hp Hw) as Hadv. cbn [app] in Hadv.
  pose proof (report_progress_advances CompressionStage.FINALIZING 100 w2) as Hf.
  pose proof (advances_trans _ _ _ _ _ _ _ Hadv Hf) as Hadv'. cbn [app] in Hadv'.
  destruct Hr as [Hit Hr].
  destruct (saved_size (settings_outcome q d)) as [n|]; [|discriminate Hhit].
  destruct Hr as [Hs Hc]. rewrite Hs, Hc, Hhit.
  eexists. eexists. split; [reflexivity|].
  apply Z.leb_le in Hhit.
  unfold set_iterations, set_target_achieved.
  cbn [success target_achieved iterations compressed_size].
  rewrite Hc.
  split; [exact Hs|split; [reflexivity|split; [reflexivity|]]].
  split; [reflexivity|split; [exact Hhit|exact Hadv']].
Qed.

(** ** The flattened search *)

Lemma kept_count_iteration (st : SearchState) : kept st -> kept (count_iteration st).
Proof. intros H. exact H. Qed.

Lemma scan_app (a b : list (Z * Z)) (st : SearchState) :
  flat (a ++ b) st
  = match flat a st with
    | Continue st' => flat b st'
    | Return r w => Return r w
    end.
Proof.
  revert st. induction a as [|[q d] a IH]; intros st; [reflexivity|].
  cbn [app scan]. destruct (trial q d (count_iteration st)); [apply IH|reflexivity].
Qed.

Lemma len_cons {A : Type} (x : A) (xs : list A) : Py.len (x :: xs) = Py.len xs + 1.
Proof. unfold Py.len. cbn [List.length]. lia. Qed.

Lemma len_app {A : Type} (xs ys : list A) : Py.len (xs ++ ys) = Py.len xs + Py.len ys.
Proof. unfold Py.len. rewrite length_app. lia. Qed.

(** No trial of [pairs] meets the target: all are made, and the smallest
    save below the starting [best_size] is kept. *)
Lemma scan_misses (pairs : list (Z * Z)) :
  forall st : SearchState,
    Forall (fun p => hit p = false) pairs -> kept st ->
    exists st',
      flat pairs st = Continue st'
      /\ iteration st' = iteration st + Py.len pairs
      /\ advances pairs (map outcome_of pairs) (world st) (world st')
      /\ kept st'
      /\ best_size st' <= best_size st
      /\ (forall p n, In p pairs -> saved_size (outcome_of p) = Some n ->
                      best_size st' <= n)
      /\ ((best_result st' = best_result st /\ best_size st' = best_size st
           /\ forall p, In p pairs -> below (best_size st) p = false)
          \/ (best_result st' <> None
              /\ (exists p, In p pairs
                            /\ saved_size (outcome_of p) = Some (best_size st'))
              /\ best_size st' < best_size st)).
Proof.
  induction pairs as [|[q d] rest IH]; intros st Hmiss Hkept.
  - exists st. split; [reflexivity|]. split; [unfold Py.len; cbn; lia|].
    split; [apply advances_refl|]. split; [exact Hkept|]. split; [lia|].
    split; [intros p n []|]. left. split; [reflexivity|split; [reflexivity|]].
    intros p [].
  - inversion Hmiss as [|p ps Hp Hrest]; subst.
    destruct (trial_miss q d (count_iteration st) Hp (kept_count_iteration st Hkept))
      as (st1 & E1 & I1 & A1 & K1 & B1 & M1 & D1).
    destruct (IH st1 Hrest K1) as (st2 & E2 & I2 & A2 & K2 & B2 & M2 & D2).
    exists st2. cbn [scan]. rewrite E1.
    cbn [count_iteration iteration best_size best_result world] in I1, A1, B1, D1.
    split; [exact E2|]. split; [rewrite I2, I1, len_cons; lia|].
    split; [exact (advances_trans _ _ _ _ _ _ _ A1 A2)|].
    split; [exact K2|]. split; [lia|]. split.
    + intros p n [<-|Hin] Hs.
      * specialize (M1 n Hs). lia.
      * exact (M2 p n Hin Hs).
    + destruct D1 as [(R1 & S1 & N1)|(R1 & S1 & L1)];
        destruct D2 as [(R2 & S2 & N2)|(R2 & (p & Hin & S2) & L2)].
      * left. split; [congruence|split; [lia|]].
        intros p [<-|Hin]; [exact N1|]. rewrite <- S1. exact (N2 p Hin).
      * right. split; [exact R2|split; [|lia]].
        exists p. split; [right; exact Hin|exact S2].
      * right. split; [congruence|split; [|lia]].
        exists (q, d). split; [left; reflexivity|]. rewrite S2. exact S1.
      * right. split; [exact R2|split; [|lia]].
        exists p. split; [right; exact Hin|exact S2].
Qed.

(** The first trial of the list that meets the target ends the search. *)
Lemma scan_hit (pre : list (Z * Z)) (p : Z * Z) (post : list (Z * Z))
    (st : SearchState) :
  Forall (fun p => hit p = false) pre -> hit p = true -> kept st ->
  exists r w',
    flat (pre ++ p :: post) st = Return r w'
    /\ success r = true
    /\ target_achieved r = true
    /\ iterations r = iteration st + Py.len pre + 1
    /\ saved_size (outcome_of p) = Some (compressed_size r)
    /\ compressed_size r <= self_target_size
    /\ advances (pre ++ [p]) (map outcome_of (pre ++ [p])) (world st) w'.
Proof.
  intros Hpre Hp Hkept.
  destruct (scan_misses pre st Hpre Hkept) as (st1 & E1 & I1 & A1 & _).
  destruct p as [q d].
  destruct (trial_hit q d (count_iteration st1) Hp)
    as (r & w' & E & Hs & Ht & Hi & Hsz & Hle & A).
  exists r, w'. rewrite scan_app, E1. cbn [scan]. rewrite E.
  cbn [count_iteration iteration world] in Hi, A.
  split; [reflexivity|]. split; [exact Hs|]. split; [exact Ht|].
  split; [lia|]. split; [exact Hsz|]. split; [exact Hle|].
  rewrite map_app. exact (advances_trans _ _ _ _ _ _ _ A1 A).
Qed.

Lemma split_first_hit (pairs : list (Z * Z)) :
  Forall (fun p => hit p = false) pairs
  \/ exists pre p post,
       pairs = pre ++ p :: post
       /\ Forall (fun p => hit p = false) pre /\ hit p = true.
Proof.
  induction pairs as [|p rest IH]; [left; constructor|].
  destruct (hit p) eqn:E.
  - right. exists [], p, rest. split; [reflexivity|split; [constructor|exact E]].
  - destruct IH as [H|(pre & p' & post & -> & Hpre & Hp')].
    + left. constructor; assumption.
    + right. exists (p :: pre), p', post.
      split; [reflexivity|split; [constructor; assumption|exact Hp']].
Qed.

(** ** The two loops are the flattened search *)

Lemma not_below_zero (n : nat) : (n <? 0)%nat = false.
Proof. destruct n; reflexivity. Qed.

Lemma trial_iteration (q d : Z) (st st' : SearchState) :
  trial q d st = Continue st' -> iteration st' = iteration st.
Proof.
  unfold attempt.
  destruct (run_settings q d analysis _) as [result w2].
  destruct (success result); [|intros [= <-]; reflexivity].
  destruct (compressed_size result <=? self_target_size); [discriminate|].
  destruct (compressed_size result <? best_size st); intros [= <-]; reflexivity.
Qed.

Lemma scan_iteration (pairs : list (Z * Z)) :
  forall st st', flat pairs st = Continue st' ->
                 iteration st' = iteration st + Py.len pairs.
Proof.
  induction pairs as [|[q d] rest IH]; intros st st' H.
  - injection H as <-. unfold Py.len. cbn. lia.
  - cbn [scan] in H.
    destruct (trial q d (count_iteration st)) as [st1|] eqn:E; [|discriminate].
    apply trial_iteration in E. apply IH in H.
    cbn [count_iteration iteration] in E. rewrite len_cons. lia.
Qed.

Local Abbreviation dpi_allowed := (fun d : Z => negb (d <? min_dpi config)).
Local Abbreviation inner :=
  (dpi_loop self_pdf_path self_target_size self_progress_callback out_path
     settings_outcome config analysis).
Local Abbreviation outer :=
  (quality_loop self_pdf_path self_target_size self_progress_callback out_path
     settings_outcome config analysis).

(** The leftover budget, as a number of trials. *)
Local Abbreviation budget := (fun st => Z.to_nat (max_iterations config - iteration st)).

(** How a loop's final state differs from the flattened search's: the
    counter is one further when the loop was left on an empty budget. *)
Local Abbreviation overshoot :=
  (fun (n : nat) (rungs : list (Z * Z)) (st : SearchState) =>
     if (n <? List.length rungs)%nat then count_iteration st else st).

Lemma dpi_loop_flat (dpis : list Z) (q : Z) :
  forall st : SearchState,
    iteration st <= max_iterations config ->
    inner dpis q st
    = match flat (firstn (budget st) (map (pair q) (take_while dpi_allowed dpis))) st with
      | Continue st' =>
          Continue (overshoot (budget st) (map (pair q) (take_while dpi_allowed dpis)) st')
      | Return r w => Return r w
      end.
Proof.
  induction dpis as [|dpi rest IH]; intros st Hst.
  - cbn [dpi_loop take_while map]. rewrite firstn_nil. cbn [scan List.length].
    rewrite not_below_zero. reflexivity.
  - cbn [dpi_loop take_while].
    destruct (dpi <? min_dpi config); cbn [negb map].
    + rewrite firstn_nil. cbn [scan List.length]. rewrite not_below_zero. reflexivity.
    + cbn [count_iteration iteration].
      destruct (max_iterations config <? iteration st + 1) eqn:E.
      * apply Z.ltb_lt in E.
        replace (Z.to_nat (max_iterations config - iteration st)) with 0%nat by lia.
        cbn [firstn scan List.length]. reflexivity.
      * apply Z.ltb_ge in E.
        replace (Z.to_nat (max_iterations config - iteration st))
          with (S (Z.to_nat (max_iterations config - (iteration st + 1)))) by lia.
        cbn [firstn scan List.length].
        change (mkSearchState (iteration st + 1) (best_result st) (best_size st) (world st))
          with (count_iteration st).
        destruct (trial q dpi (count_iteration st)) as [st1|r w] eqn:Et; [|reflexivity].
        pose proof (trial_iteration _ _ _ _ Et) as Hi.
        cbn [count_iteration iteration] in Hi.
        rewrite IH by lia. rewrite Hi. reflexivity.
Qed.

Lemma quality_loop_flat (qualities : list Z) :
  forall st : SearchState,
    iteration st <= max_iterations config ->
    outer qualities st
    = match flat (firstn (budget st) (ladder_from config qualities)) st with
      | Continue st' => Continue (overshoot (budget st) (ladder_from config qualities) st')
      | Return r w => Return r w
      end.
Proof.
  unfold ladder_from.
  induction qualities as [|quality rest IH]; intros st Hst.
  - cbn [quality_loop take_while flat_map]. rewrite firstn_nil. cbn [scan List.length].
    rewrite not_below_zero. reflexivity.
  - cbn [quality_loop take_while].
    destruct (quality <? min_quality config); cbn [negb flat_map].
    + rewrite firstn_nil. cbn [scan List.length]. rewrite not_below_zero. reflexivity.
    + rewrite dpi_loop_flat by exact Hst.
      set (row := map (pair quality) (take_while dpi_allowed DPI_LEVELS)).
      set (below_rows := flat_map _ _).
      rewrite firstn_app, scan_app.
      destruct (flat (firstn (budget st) row) st) as [st1|r w] eqn:E1; [|reflexivity].
      pose proof (scan_iteration _ _ _ E1) as Hi. unfold Py.len in Hi.
      rewrite length_firstn in Hi. rewrite length_app.
      destruct (budget st <? List.length row)%nat eqn:En.
      * apply Nat.ltb_lt in En.
        cbn [count_iteration iteration].
        destruct (max_iterations config <? iteration st1 + 1) eqn:Em;
          [|apply Z.ltb_ge in Em; lia].
        replace (budget st - List.length row)%nat with 0%nat by lia.
        cbn [firstn scan].
        destruct (budget st <? List.length row + List.length below_rows)%nat eqn:En';
          [reflexivity|apply Nat.ltb_ge in En'; lia].
      * apply Nat.ltb_ge in En.
        destruct (max_iterations config <? iteration st1) eqn:Em;
          [apply Z.ltb_lt in Em; lia|].
        rewrite IH by lia. fold below_rows.
        replace (budget st1) with (budget st - List.length row)%nat by lia.
        destruct (flat (firstn (budget st - List.length row) below_rows) st1)
          as [st2|r w]; [|reflexivity].
        destruct (budget st - List.length row <? List.length below_rows)%nat eqn:E2.
        -- apply Nat.ltb_lt in E2.
           destruct (budget st <? List.length row + List.length below_rows)%nat eqn:E3;
             [reflexivity|apply Nat.ltb_ge in E3; lia].
        -- apply Nat.ltb_ge in E2.
           destruct (budget st <? List.length row + List.length below_rows)%nat eqn:E3;
             [apply Nat.ltb_lt in E3; lia|reflexivity].
Qed.

(** [_compress_image_heavy], from the look-up of [config] on, is the
    flattened search over [search_order config] and the lines after the
    loops. *)
Lemma grid_search_flat (w : World) :
  0 <= max_iterations config ->
  grid_search self_pdf_path self_target_size self_progress_callback out_path
    settings_outcome config analysis w
  = match flat (search_order config) (mkSearchState 0 None (file_size analysis) w) with
    | Return r w' => (r, w')
    | Continue st =>
        match best_result st with
        | Some best =>
            (set_target_achieved (compressed_size best <=? self_target_size) best,
             _report_progress self_progress_callback CompressionStage.FINALIZING 100
               (world st))
        | None =>
            (failed self_pdf_path self_target_size out_path analysis
               "Could not achieve target size",
             _report_progress self_progress_callback CompressionStage.FINALIZING 100
               (world st))
        end
    end.
Proof.
  intros Hmax. unfold grid_search, search_order.
  rewrite quality_loop_flat by (cbn [iteration]; lia).
  cbn [iteration]. rewrite Z.sub_0_r.
  destruct (flat _ _) as [st|r w']; [|reflexivity].
  destruct (_ <? _)%nat; reflexivity.
Qed.

End SearchFacts.

(** ** [_compress_image_heavy] as a whole *)

Lemma tolerance_config_profiles (tolerance : string) (config : ToleranceConfig) :
  tolerance_config tolerance = Some config ->
  (tolerance = "strict"%string /\ config = mkToleranceConfig 10 25 72)
  \/ (tolerance = "balanced"%string /\ config = mkToleranceConfig 6 45 100)
  \/ (tolerance = "high_clarity"%string /\ config = mkToleranceConfig 4 65 150).
Proof.
  unfold tolerance_config.
  destruct (String.eqb tolerance "strict") eqn:E1.
  { apply String.eqb_eq in E1. intros [= <-]. left. split; [exact E1|reflexivity]. }
  destruct (String.eqb tolerance "balanced") eqn:E2.
  { apply String.eqb_eq in E2. intros [= <-]. right; left. split; [exact E2|reflexivity]. }
  destruct (String.eqb tolerance "high_clarity") eqn:E3; [|discriminate].
  apply String.eqb_eq in E3. intros [= <-]. right; right. split; [exact E3|reflexivity].
Qed.

Lemma profile_budget (tolerance : string) (config : ToleranceConfig) :
  tolerance_config tolerance = Some config ->
  0 <= max_iterations config
  /\ Py.len (search_order config) = max_iterations config
  /\ exists rest, search_order config = (95, 300) :: rest.
Proof.
  intros H.
  destruct (tolerance_config_profiles _ _ H) as [[_ ->]|[[_ ->]|[_ ->]]];
    (split; [cbn; lia|split; [reflexivity|eexists; reflexivity]]).
Qed.

Section GridSearch.

Variable self_pdf_path : string.
Variable self_target_size : Z.
Variable self_tolerance : string.
Variable self_progress_callback : bool.
Variable out_path : string.
Variable settings_outcome : Z -> Z -> SettingsOutcome.
Variable analysis : AnalysisResult.

Variable config : ToleranceConfig.
Hypothesis known_profile : tolerance_config self_tolerance = Some config.

Local Abbreviation image_heavy :=
  (_compress_image_heavy self_pdf_path self_target_size self_tolerance
     self_progress_callback out_path settings_outcome analysis).
Local Abbreviation search :=
  (grid_search self_pdf_path self_target_size self_progress_callback out_path
     settings_outcome config analysis).
Local Abbreviation hit := (meets_target self_target_size settings_outcome).
Local Abbreviation below := (saves_below settings_outcome).
Local Abbreviation outcome_of := (fun p : Z * Z => settings_outcome (fst p) (snd p)).

Lemma image_heavy_is_search (w : World) :
  image_heavy w = (Returns (fst (search w)), snd (search w)).
Proof.
  unfold _compress_image_heavy. rewrite known_profile.
  destruct (search w) as [r w']. reflexivity.
Qed.

(** The run in which no trial meets the target. *)
Lemma search_without_hit (w : World) :
  Forall (fun p => hit p = false) (search_order config) ->
  advances (search_order config) (map outcome_of (search_order config)) w (snd (search w))
  /\ target_achieved (fst (search w)) = false
  /\ iterations (fst (search w)) = default_iterations
  /\ (success (fst (search w)) = true
      <-> exists p, In p (search_order config) /\ below (file_size analysis) p = true)
  /\ (success (fst (search w)) = true ->
      (exists p, In p (search_order config)
                 /\ saved_size (outcome_of p) = Some (compressed_size (fst (search w))))
      /\ forall p n, In p (search_order config) -> saved_size (outcome_of p) = Some n ->
                     compressed_size (fst (search w)) <= n).
Proof.
  intros Hmiss.
  destruct (profile_budget _ _ known_profile) as (Hmax & _ & _).
  rewrite (grid_search_flat _ _ _ _ _ _ _ w Hmax).
  destruct (scan_misses self_pdf_path self_target_size self_progress_callback out_path
              settings_outcome config analysis (search_order config)
              (mkSearchState 0 None (file_size analysis) w) Hmiss I)
    as (st & E & _ & A & K & _ & M & D).
  rewrite E. cbn [world best_result best_size] in A, D.
  pose proof (report_progress_advances self_progress_callback
                CompressionStage.FINALIZING 100 (world st)) as Hf.
  pose proof (advances_trans _ _ _ _ _ _ _ A Hf) as A'.
  rewrite !app_nil_r in A'.
  destruct D as [(R & S & N)|(R & (p & Hin & Sp) & L)].
  - rewrite R. cbn [fst snd failed success target_achieved iterations].
    split; [exact A'|]. split; [reflexivity|]. split; [reflexivity|]. split.
    + split; [discriminate|]. intros (p & Hin & Hp).
      rewrite (N p Hin) in Hp. discriminate Hp.
    + discriminate.
  - unfold retained in K.
    destruct (best_result st) as [best|]; [|congruence].
    destruct K as (Ks & Ki & Kc & Kt).
    cbn [fst snd]. unfold set_target_achieved.
    cbn [success target_achieved iterations compressed_size].
    split; [exact A'|]. split; [apply Z.leb_gt; exact Kt|]. split; [exact Ki|]. split.
    + split; [|intros _; exact Ks]. intros _. exists p. split; [exact Hin|].
      unfold saves_below. rewrite Sp. apply Z.ltb_lt. exact L.
    + intros _. rewrite Kc. split.
      * exists p. split; [exact Hin|exact Sp].
      * exact M.
Qed.

(** The run in which [p] is the first trial to meet the target. *)
Lemma search_with_hit (w : World) (pre : list (Z * Z)) (p : Z * Z) (post : list (Z * Z)) :
  search_order config = pre ++ p :: post ->
  Forall (fun p => hit p = false) pre -> hit p = true ->
  success (fst (search w)) = true
  /\ target_achieved (fst (search w)) = true
  /\ iterations (fst (search w)) = Py.len pre + 1
  /\ saved_size (outcome_of p) = Some (compressed_size (fst (search w)))
  /\ compressed_size (fst (search w)) <= self_target_size
  /\ advances (pre ++ [p]) (map outcome_of (pre ++ [p])) w (snd (search w)).
Proof.
  intros Hsplit Hpre Hp.
  destruct (profile_budget _ _ known_profile) as (Hmax & _ & _).
  rewrite (grid_search_flat _ _ _ _ _ _ _ w Hmax), Hsplit.
  destruct (scan_hit self_pdf_path self_target_size self_progress_callback out_path
              settings_outcome config analysis pre p post
              (mkSearchState 0 None (file_size analysis) w) Hpre Hp I)
    as (r & w' & E & Hs & Ht & Hi & Hsz & Hle & A).
  rewrite E. cbn [fst snd iteration world] in *.
  split; [exact Hs|]. split; [exact Ht|]. split; [lia|].
  split; [exact Hsz|]. split; [exact Hle|exact A].
Qed.


(** C1: the first trial, in the order of the search, whose saved output is
    at most [target_size] bytes makes [_compress_image_heavy] return at once
    with [target_achieved = True] and [iterations] the number of trials made
    so far, that trial being the last one made; when the very first trial
    (quality 95, 300 dpi) meets the target, [iterations] is 1 and it is the
    only trial. *)
Theorem first_success_returns (w : World) :
  (forall pre q d post,
      search_order config = pre ++ (q, d) :: post ->
      (forall p, In p pre -> hit p = false) ->
      hit (q, d) = true ->
      exists r w',
        image_heavy w = (Returns r, w')
        /\ success r = true
        /\ target_achieved r = true
        /\ iterations r = Py.len (pre ++ [(q, d)])
        /\ attempts_of (journal w') = attempts_of (journal w) ++ pre ++ [(q, d)]
        /\ saved_size (settings_outcome q d) = Some (compressed_size r))
  /\ (hit (95, 300) = true ->
      exists r w',
        image_heavy w = (Returns r, w')
        /\ target_achieved r = true
        /\ iterations r = 1
        /\ attempts_of (journal w') = attempts_of (journal w) ++ [(95, 300)]).
Proof.
  split.
  - intros pre q d post Hsplit Hpre Hp.
    apply Forall_forall in Hpre.
    destruct (search_with_hit w pre (q, d) post Hsplit Hpre Hp)
      as (Hs & Ht & Hi & Hsz & _ & (A & _)).
    exists (fst (search w)), (snd (search w)).
    split; [apply image_heavy_is_search|]. split; [exact Hs|]. split; [exact Ht|].
    split; [rewrite len_app; exact Hi|]. split; [exact A|exact Hsz].
  - intros Hp.
    destruct (profile_budget _ _ known_profile) as (_ & _ & (rest & Hrest)).
    destruct (search_with_hit w [] (95, 300) rest Hrest (Forall_nil _) Hp)
      as (_ & Ht & Hi & _ & _ & (A & _)).
    exists (fst (search w)), (snd (search w)).
    split; [apply image_heavy_is_search|]. split; [exact Ht|].
    split; [exact Hi|exact A].
Qed.

(** C2: whatever the profile, [_compress_image_heavy] calls
    [_compress_with_settings] at most [max_iterations] times (10 for strict,
    6 for balanced, 4 for high_clarity), on the first rungs of the search
    order, one counter running through both loops; when no trial meets the
    target it makes exactly [max_iterations] calls. *)
Theorem attempts_within_budget (w : World) :
  exists made,
    attempts_of (journal (snd (image_heavy w))) = attempts_of (journal w) ++ made
    /\ Py.len made <= max_iterations config
    /\ (exists rest, search_order config = made ++ rest)
    /\ ((forall p, In p (search_order config) -> hit p = false) ->
        made = search_order config /\ Py.len made = max_iterations config)
    /\ (self_tolerance = "strict"%string -> max_iterations config = 10)
    /\ (self_tolerance = "balanced"%string -> max_iterations config = 6)
    /\ (self_tolerance = "high_clarity"%string -> max_iterations config = 4).
Proof.
  destruct (profile_budget _ _ known_profile) as (_ & Hlen & _).
  assert (Hcounts :
    (self_tolerance = "strict"%string -> max_iterations config = 10)
    /\ (self_tolerance = "balanced"%string -> max_iterations config = 6)
    /\ (self_tolerance = "high_clarity"%string -> max_iterations config = 4)).
  { destruct (tolerance_config_profiles _ _ known_profile)
      as [[-> ->]|[[-> ->]|[-> ->]]];
      (split; [|split]); intros E; try reflexivity; discriminate E. }
  rewrite image_heavy_is_search. cbn [snd].
  destruct (split_first_hit self_target_size settings_outcome (search_order config))
    as [Hmiss|(pre & p & post & Hsplit & Hpre & Hp)].
  - destruct (search_without_hit w Hmiss) as ((A & _) & _).
    exists (search_order config). split; [exact A|]. split; [lia|].
    split; [exists []; rewrite app_nil_r; reflexivity|].
    split; [intros _; split; [reflexivity|exact Hlen]|exact Hcounts].
  - destruct (search_with_hit w pre p post Hsplit Hpre Hp)
      as (_ & _ & _ & _ & _ & (A & _)).
    exists (pre ++ [p]). split; [exact A|]. split.
    { rewrite <- Hlen, Hsplit, !len_app, !len_cons. unfold Py.len. cbn. lia. }
    split; [exists post; rewrite <- app_assoc; exact Hsplit|].
    split; [|exact Hcounts].
    intros Hall. exfalso.
    assert (Hin : In p (search_order config)).
    { rewrite Hsplit. apply in_or_app. right. left. reflexivity. }
    rewrite (Hall p Hin) in Hp. discriminate Hp.
Qed.

(** C3, amended: [_compress_image_heavy] returns [success = True] exactly
    when one of the trials it made saved an output that met the target or
    was strictly smaller than the original file; [target_achieved] tells
    which.  So [success = False] means that every trial made either raised
    or saved at least as many bytes as the input has. *)
Theorem success_needs_a_smaller_output (w : World) :
  exists r w' made,
    image_heavy w = (Returns r, w')
    /\ attempts_of (journal w') = attempts_of (journal w) ++ made
    /\ (success r = true
        <-> exists p, In p made
                      /\ (hit p = true \/ below (file_size analysis) p = true))
    /\ (target_achieved r = true <-> exists p, In p made /\ hit p = true)
    /\ (success r = false ->
        forall p, In p made ->
                  match saved_size (outcome_of p) with
                  | Some n => file_size analysis <= n
                  | None => True
                  end).
Proof.
  exists (fst (search w)), (snd (search w)).
  destruct (split_first_hit self_target_size settings_outcome (search_order config))
    as [Hmiss|(pre & p & post & Hsplit & Hpre & Hp)].
  - destruct (search_without_hit w Hmiss) as ((A & _) & Ht & _ & Hiff & _).
    pose proof (proj1 (Forall_forall _ _) Hmiss) as Hall.
    exists (search_order config).
    split; [apply image_heavy_is_search|]. split; [exact A|]. split; [|split].
    + rewrite Hiff. split.
      * intros (p & Hin & Hb). exists p. split; [exact Hin|right; exact Hb].
      * intros (p & Hin & [Hh|Hb]); [rewrite (Hall p Hin) in Hh; discriminate Hh|].
        exists p. split; assumption.
    + rewrite Ht. split; [discriminate|].
      intros (p & Hin & Hh). rewrite (Hall p Hin) in Hh. discriminate Hh.
    + intros Hfail p Hin.
      destruct (saved_size (outcome_of p)) as [n|] eqn:En; [|exact I].
      destruct (Z.le_gt_cases (file_size analysis) n) as [Hle|Hgt]; [exact Hle|].
      exfalso. assert (Hs : success (fst (search w)) = true).
      { apply Hiff. exists p. split; [exact Hin|].
        unfold saves_below. rewrite En. apply Z.ltb_lt. exact Hgt. }
      congruence.
  - destruct (search_with_hit w pre p post Hsplit Hpre Hp)
      as (Hs & Ht & _ & _ & _ & (A & _)).
    assert (Hin : In p (pre ++ [p])) by (apply in_or_app; right; left; reflexivity).
    exists (pre ++ [p]).
    split; [apply image_heavy_is_search|]. split; [exact A|]. split; [|split].
    + split; [|intros _; exact Hs].
      intros _. exists p. split; [exact Hin|left; exact Hp].
    + split; [|intros _; exact Ht]. intros _. exists p. split; assumption.
    + intros Hfail. congruence.
Qed.

(** C10: when [_compress_image_heavy] returns without a trial having met
    the target ([target_achieved = False]), the [iterations] of its result is
    1, the default of the dataclass, although [max_iterations] trials were
    made; only the return on the first success sets [iterations] to the
    number of trials made. *)
Theorem best_effort_reports_one_iteration (w : World) :
  exists r w' made,
    image_heavy w = (Returns r, w')
    /\ attempts_of (journal w') = attempts_of (journal w) ++ made
    /\ (target_achieved r = false ->
        iterations r = 1 /\ Py.len made = max_iterations config
        /\ 4 <= max_iterations config)
    /\ (target_achieved r = true -> iterations r = Py.len made).
Proof.
  exists (fst (search w)), (snd (search w)).
  destruct (profile_budget _ _ known_profile) as (_ & Hlen & _).
  destruct (split_first_hit self_target_size settings_outcome (search_order config))
    as [Hmiss|(pre & p & post & Hsplit & Hpre & Hp)].
  - destruct (search_without_hit w Hmiss) as ((A & _) & Ht & Hi & _).
    exists (search_order config).
    split; [apply image_heavy_is_search|]. split; [exact A|]. split.
    + intros _. split; [exact Hi|split; [exact Hlen|]].
      destruct (tolerance_config_profiles _ _ known_profile)
        as [[_ ->]|[[_ ->]|[_ ->]]]; cbn; lia.
    + rewrite Ht. discriminate.
  - destruct (search_with_hit w pre p post Hsplit Hpre Hp)
      as (_ & Ht & Hi & _ & _ & (A & _)).
    exists (pre ++ [p]).
    split; [apply image_heavy_is_search|]. split; [exact A|]. split.
    + rewrite Ht. discriminate.
    + intros _. rewrite len_app, Hi. unfold Py.len. cbn. lia.
Qed.

(** The best-effort return: the size reported is the smallest one saved,
    the file left at [output_path] is the one written last. *)
Lemma best_effort_size_and_file (w : World) :
  exists r w' made,
    image_heavy w = (Returns r, w')
    /\ attempts_of (journal w') = attempts_of (journal w) ++ made
    /\ (success r = true -> target_achieved r = false ->
        (exists p, In p made /\ saved_size (outcome_of p) = Some (compressed_size r))
        /\ (forall p n, In p made -> saved_size (outcome_of p) = Some n ->
                        compressed_size r <= n)
        /\ output_file w' = last_output (map outcome_of made) (output_file w)).
Proof.
  exists (fst (search w)), (snd (search w)).
  destruct (split_first_hit self_target_size settings_outcome (search_order config))
    as [Hmiss|(pre & p & post & Hsplit & Hpre & Hp)].
  - destruct (search_without_hit w Hmiss) as ((A & _ & F) & _ & _ & _ & Hbest).
    exists (search_order config).
    split; [apply image_heavy_is_search|]. split; [exact A|].
    intros Hs _. destruct (Hbest Hs) as [Hex Hmin].
    split; [exact Hex|]. split; [exact Hmin|exact F].
  - destruct (search_with_hit w pre p post Hsplit Hpre Hp)
      as (_ & Ht & _ & _ & _ & (A & _)).
    exists (pre ++ [p]).
    split; [apply image_heavy_is_search|]. split; [exact A|].
    intros _ Hf. congruence.
Qed.

(** The trials of a run, with what they did to the world. *)
Lemma search_trials (w : World) :
  exists made, advances made (map outcome_of made) w (snd (search w)).
Proof.
  destruct (split_first_hit self_target_size settings_outcome (search_order config))
    as [Hmiss|(pre & p & post & Hsplit & Hpre & Hp)].
  - destruct (search_without_hit w Hmiss) as (H & _).
    exists (search_order config). exact H.
  - destruct (search_with_hit w pre p post Hsplit Hpre Hp)
      as (_ & _ & _ & _ & _ & H).
    exists (pre ++ [p]). exact H.
Qed.

End GridSearch.

(** ** [compress] as a whole *)

Lemma handles_of_outcomes_in_turn (outcomes : list SettingsOutcome) :
  Forall (fun o => raised_after_open o = false) outcomes ->
  one_at_a_time (flat_map handles_of_outcome outcomes).
Proof.
  induction 1 as [|o rest Ho _ IH]; [constructor|].
  cbn [flat_map]. destruct o as [e|e written|content n]; cbn [handles_of_outcome app].
  - exact IH.
  - discriminate Ho.
  - constructor. exact IH.
Qed.

Section Compress.

Variable self_pdf_path : string.
Variable pdf_bytes : list byte.
Variable self_target_size : Z.
Variable self_tolerance : string.
Variable self_progress_callback : bool.
Variable out_path : string.
Variable copy_outcome : CopyOutcome.
Variable open_for_analysis : string + Document.
Variable text_outcome : SettingsOutcome.
Variable settings_outcome : Z -> Z -> SettingsOutcome.

Local Abbreviation run :=
  (compress self_pdf_path pdf_bytes self_target_size self_tolerance
     self_progress_callback out_path copy_outcome open_for_analysis text_outcome
     settings_outcome).
Local Abbreviation profile := (analyze self_pdf_path pdf_bytes open_for_analysis).

Lemma passes_of_app (a b : list Event) :
  passes_of (a ++ b) = passes_of a ++ passes_of b.
Proof.
  induction a as [|e a IH]; [reflexivity|].
  destruct e; cbn [app passes_of]; rewrite IH; reflexivity.
Qed.

Lemma left_open_app (a b : list Event) : left_open (a ++ b) = left_open a + left_open b.
Proof.
  induction a as [|e a IH]; [reflexivity|].
  destruct e; cbn [app left_open]; rewrite ?IH; lia.
Qed.

Lemma left_open_handles (j : list Event) : left_open (handle_events j) = left_open j.
Proof.
  induction j as [|e j IH]; [reflexivity|].
  destruct e; cbn [handle_events left_open]; rewrite ?IH; reflexivity.
Qed.

Lemma grows_refl (w : World) : grows_by_trials w w.
Proof. exists []. rewrite app_nil_r. split; reflexivity. Qed.

Lemma grows_trans (w1 w2 w3 : World) :
  grows_by_trials w1 w2 -> grows_by_trials w2 w3 -> grows_by_trials w1 w3.
Proof.
  intros (m1 & E1 & P1) (m2 & E2 & P2). exists (m1 ++ m2).
  rewrite E2, E1, app_assoc, passes_of_app, attempts_of_app, map_app, P1, P2.
  split; reflexivity.
Qed.

Lemma grows_emit (e : Event) (w : World) :
  e <> TextPass -> grows_by_trials w (emit e w).
Proof.
  intros He. exists [e]. split; [reflexivity|].
  destruct e; try reflexivity. congruence.
Qed.

Lemma grows_write (content : list byte) (w : World) :
  grows_by_trials w (write_output content w).
Proof. exists []. cbn [write_output journal]. rewrite app_nil_r. split; reflexivity. Qed.

Lemma grows_progress (callback : bool) (stage : string) (pct : Z) (w : World) :
  grows_by_trials w (_report_progress callback stage pct w).
Proof.
  unfold _report_progress. destruct callback; [|apply grows_refl].
  apply grows_emit. discriminate.
Qed.

Lemma grows_settings (q d : Z) (a : AnalysisResult) (w : World) :
  grows_by_trials w
    (snd (_compress_with_settings self_pdf_path self_target_size out_path
            settings_outcome q d a w)).
Proof.
  unfold _compress_with_settings.
  assert (H1 : grows_by_trials w (emit (Attempt q d) w))
    by (apply grows_emit; discriminate).
  set (w1 := emit (Attempt q d) w) in *.
  assert (H2 : grows_by_trials w (emit Opened w1)).
  { eapply grows_trans; [exact H1|apply grows_emit; discriminate]. }
  destruct (settings_outcome q d) as [e|e [content|]|content n]; cbn [snd].
  - exact H1.
  - eapply grows_trans; [exact H2|apply grows_write].
  - exact H2.
  - eapply grows_trans; [exact H2|].
    eapply grows_trans; [apply grows_write|apply grows_emit; discriminate].
Qed.

Lemma grows_trial (config : ToleranceConfig) (a : AnalysisResult) (q d : Z)
    (st : SearchState) :
  match attempt self_pdf_path self_target_size self_progress_callback out_path
          settings_outcome config a q d st with
  | Continue st' => grows_by_trials (world st) (world st')
  | Return r w' => grows_by_trials (world st) w'
  end.
Proof.
  unfold attempt.
  set (pct := Z.min 90 _).
  pose proof (grows_progress self_progress_callback CompressionStage.PROCESSING_IMAGES
                pct (world st)) as H1.
  set (w1 := _report_progress self_progress_callback CompressionStage.PROCESSING_IMAGES
               pct (world st)) in *.
  pose proof (grows_settings q d a w1) as H2.
  destruct (_compress_with_settings _ _ _ _ q d a w1) as [result w2]. cbn [snd] in H2.
  pose proof (grows_trans _ _ _ H1 H2) as H12.
  destruct (success result); [|exact H12].
  destruct (compressed_size result <=? self_target_size).
  - eapply grows_trans; [exact H12|apply grows_progress].
  - destruct (compressed_size result <? best_size st); exact H12.
Qed.

Lemma grows_scan (config : ToleranceConfig) (a : AnalysisResult)
    (pairs : list (Z * Z)) :
  forall st : SearchState,
    match scan self_pdf_path self_target_size self_progress_callback out_path
            settings_outcome config a pairs st with
    | Continue st' => grows_by_trials (world st) (world st')
    | Return r w' => grows_by_trials (world st) w'
    end.
Proof.
  induction pairs as [|[q d] rest IH]; intros st.
  - cbn [scan]. apply grows_refl.
  - cbn [scan].
    pose proof (grows_trial config a q d (count_iteration st)) as Ht.
    cbn [count_iteration world] in Ht.
    destruct (attempt _ _ _ _ _ _ _ q d (count_iteration st)) as [st1|r w1].
    + specialize (IH st1).
      destruct (scan _ _ _ _ _ _ _ rest st1) as [st2|r w2];
        eapply grows_trans; eassumption.
    + exact Ht.
Qed.

Lemma grows_image_heavy (a : AnalysisResult) (w : World) :
  grows_by_trials w
    (snd (_compress_image_heavy self_pdf_path self_target_size self_tolerance
            self_progress_callback out_path settings_outcome a w)).
Proof.
  unfold _compress_image_heavy.
  destruct (tolerance_config self_tolerance) as [config|] eqn:Ec;
    [|apply grows_refl].
  destruct (profile_budget _ _ Ec) as (Hmax & _).
  pose proof (grid_search_flat self_pdf_path self_target_size self_progress_callback
                out_path settings_outcome config a w Hmax) as E.
  pose proof (grows_scan config a (search_order config)
                (mkSearchState 0 None (file_size a) w)) as Hs.
  destruct (grid_search _ _ _ _ _ _ _ w) as [r w']. cbn [snd].
  destruct (scan _ _ _ _ _ _ _ (search_order config) _) as [st|r1 w1].
  - cbn [world] in Hs.
    assert (Hw : w' = _report_progress self_progress_callback
                        CompressionStage.FINALIZING 100 (world st)).
    { destruct (best_result st); injection E as _ ->; reflexivity. }
    rewrite Hw. eapply grows_trans; [exact Hs|apply grows_progress].
  - injection E as _ ->. exact Hs.
Qed.

Lemma passed_refl (w : World) : passed text_outcome settings_outcome [] w w.
Proof. unfold passed. cbn [map flat_map]. rewrite !app_nil_r. split; reflexivity. Qed.

Lemma passed_trans (p1 p2 : list Pass) (w1 w2 w3 : World) :
  passed text_outcome settings_outcome p1 w1 w2 ->
  passed text_outcome settings_outcome p2 w2 w3 ->
  passed text_outcome settings_outcome (p1 ++ p2) w1 w3.
Proof.
  intros [P1 H1] [P2 H2]. unfold passed.
  rewrite P2, P1, H2, H1, map_app, flat_map_app, !app_assoc. split; reflexivity.
Qed.

Lemma passed_progress (stage : string) (pct : Z) (w : World) :
  passed text_outcome settings_outcome [] w
    (_report_progress self_progress_callback stage pct w).
Proof.
  unfold _report_progress. destruct self_progress_callback; [|apply passed_refl].
  unfold passed. cbn [emit journal map flat_map].
  rewrite passes_of_app, handle_events_app. split; reflexivity.
Qed.

(** The search makes trials only, and each trial takes the handle events of
    its outcome. *)
Lemma image_heavy_passes (a : AnalysisResult) (w : World) :
  exists made,
    passed text_outcome settings_outcome (map trial_pass made) w
      (snd (_compress_image_heavy self_pdf_path self_target_size self_tolerance
              self_progress_callback out_path settings_outcome a w)).
Proof.
  pose proof (grows_image_heavy a w) as (more & Ej & Pm).
  destruct (tolerance_config self_tolerance) as [config|] eqn:E.
  - rewrite (image_heavy_is_search _ _ _ _ _ _ _ _ E) in Ej |- *. cbn [snd] in Ej |- *.
    destruct (search_trials self_pdf_path self_target_size self_tolerance
                self_progress_callback out_path settings_outcome a config E w)
      as (made & A & H & _).
    exists made. unfold passed. rewrite H, map_map. split; [|reflexivity].
    rewrite Ej, attempts_of_app in A. apply app_inv_head in A.
    rewrite Ej, passes_of_app, Pm, A. reflexivity.
  - exists []. unfold _compress_image_heavy. rewrite E. apply passed_refl.
Qed.

(** The text-heavy pass is one pass, with the handle events of its outcome. *)
Lemma text_heavy_passes (a : AnalysisResult) (w : World) :
  passed text_outcome settings_outcome [TextHeavyPass] w
    (snd (_compress_text_heavy self_pdf_path self_target_size self_progress_callback
            out_path text_outcome a w)).
Proof.
  unfold _compress_text_heavy, passed. cbn [map flat_map outcome_of_pass].
  unfold _report_progress.
  destruct text_outcome as [e|e [content|]|content n];
    destruct self_progress_callback;
    cbn [snd emit write_output journal handles_of_outcome];
    rewrite ?passes_of_app, ?handle_events_app;
    cbn [passes_of handle_events app];
    rewrite ?app_nil_r, <- ?app_assoc; cbn [app]; split; reflexivity.
Qed.

(** [analyze] is no pass; it takes one handle and gives it back when the
    document opens. *)
Lemma analyze_opens_and_closes (w : World) :
  passes_of (journal (snd (profile w))) = passes_of (journal w)
  /\ handle_events (journal (snd (profile w)))
     = handle_events (journal w) ++ analysis_handles open_for_analysis.
Proof.
  unfold analyze, analysis_handles. destruct open_for_analysis as [e|doc].
  - cbn [snd emit journal]. rewrite passes_of_app, handle_events_app.
    cbn [passes_of handle_events]. rewrite !app_nil_r. split; reflexivity.
  - assert (H : forall w0,
               passes_of (journal (emit Closed (emit Opened (emit Analyze w0))))
               = passes_of (journal w0)
               /\ handle_events (journal (emit Closed (emit Opened (emit Analyze w0))))
                  = handle_events (journal w0) ++ [Opened; Closed]).
    { intros w0. cbn [emit journal]. rewrite !passes_of_app, !handle_events_app.
      cbn [passes_of handle_events]. rewrite !app_nil_r, <- app_assoc.
      split; reflexivity. }
    destruct (doc_fault doc) as [e|]; [exact (H w)|].
    destruct (_analyze_images doc) as [imgs total].
    destruct (Analyzer._estimate_compression _ _ _ _ _) as [est_min est_max].
    exact (H w).
Qed.


(** C9, amended: [compress] does not hold one handle for the whole call.
    On the copy path it opens none.  Otherwise [analyze] opens one handle
    when [fitz.open] returns a document, and closes it on each of its
    return paths; then every pass over the document, each trial of the
    search or the one text-heavy pass, opens a handle of its own when
    [fitz.open] returns a document, and closes it when its save goes
    through: the handle events of the call are those of [analyze] followed
    by those of the passes made, in order.  So when in no pass of the call
    the library raises after the document was opened, every handle is
    closed before the next one is opened, and none is open when [compress]
    returns. *)
Theorem handles_are_taken_in_turn (w : World) :
  handle_events (journal (snd (profile w)))
  = handle_events (journal w) ++ analysis_handles open_for_analysis
  /\ exists passes,
       let outcomes := map (outcome_of_pass text_outcome settings_outcome) passes in
       let opened :=
         (if Py.size_of pdf_bytes <=? self_target_size then []
          else analysis_handles open_for_analysis)
         ++ flat_map handles_of_outcome outcomes in
       passes_of (journal (snd (run w))) = passes_of (journal w) ++ passes
       /\ handle_events (journal (snd (run w))) = handle_events (journal w) ++ opened
       /\ (Py.size_of pdf_bytes <= self_target_size -> passes = [])
       /\ (Forall (fun o => raised_after_open o = false) outcomes ->
           one_at_a_time opened
           /\ left_open (journal (snd (run w))) = left_open (journal w)).
Proof.
  split; [apply analyze_opens_and_closes|].
  assert (Hmain : exists passes,
             passes_of (journal (snd (run w))) = passes_of (journal w) ++ passes
             /\ handle_events (journal (snd (run w)))
                = handle_events (journal w)
                  ++ (if Py.size_of pdf_bytes <=? self_target_size then []
                      else analysis_handles open_for_analysis)
                  ++ flat_map handles_of_outcome
                       (map (outcome_of_pass text_outcome settings_outcome) passes)
             /\ (Py.size_of pdf_bytes <= self_target_size -> passes = [])).
  { unfold compress.
    destruct (Py.size_of pdf_bytes <=? self_target_size) eqn:Esz.
    { exists []. cbn [map flat_map app].
      destruct copy_outcome as [|e [content|]];
        cbn [snd write_output emit journal];
        rewrite passes_of_app, handle_events_app;
        cbn [passes_of handle_events]; rewrite ?app_nil_r;
        (split; [reflexivity|split; reflexivity]). }
    apply Z.leb_gt in Esz.
    set (w1 := _report_progress self_progress_callback CompressionStage.ANALYZING 0 w).
    pose proof (passed_progress CompressionStage.ANALYZING 0 w) as [P1 H1]. fold w1 in P1, H1.
    cbn [map flat_map] in P1, H1. rewrite app_nil_r in P1, H1.
    pose proof (analyze_opens_and_closes w1) as [P2 H2].
    destruct (profile w1) as [analysis w2]. cbn [snd] in P2, H2.
    rewrite P1 in P2. rewrite H1 in H2.
    assert (Hrest : forall ps w',
              passed text_outcome settings_outcome ps
                (_report_progress self_progress_callback CompressionStage.ANALYZING 100 w2)
                w' ->
              passes_of (journal w') = passes_of (journal w) ++ ps
              /\ handle_events (journal w')
                 = handle_events (journal w) ++ analysis_handles open_for_analysis
                   ++ flat_map handles_of_outcome
                        (map (outcome_of_pass text_outcome settings_outcome) ps)
              /\ (Py.size_of pdf_bytes <= self_target_size -> ps = [])).
    { intros ps w' Hp.
      pose proof (passed_trans _ _ _ _ _
                    (passed_progress CompressionStage.ANALYZING 100 w2) Hp) as [P H].
      cbn [app] in P, H. rewrite P2 in P. rewrite H2 in H.
      rewrite P, H, <- app_assoc. repeat split. lia. }
    assert (Hsearch : exists passes,
              passes_of (journal (snd (_compress_image_heavy self_pdf_path self_target_size
                 self_tolerance self_progress_callback out_path settings_outcome analysis
                 (_report_progress self_progress_callback CompressionStage.ANALYZING 100 w2))))
              = passes_of (journal w) ++ passes
              /\ handle_events (journal (snd (_compress_image_heavy self_pdf_path
                 self_target_size self_tolerance self_progress_callback out_path
                 settings_outcome analysis
                 (_report_progress self_progress_callback CompressionStage.ANALYZING 100 w2))))
                 = handle_events (journal w) ++ analysis_handles open_for_analysis
                   ++ flat_map handles_of_outcome
                        (map (outcome_of_pass text_outcome settings_outcome) passes)
              /\ (Py.size_of pdf_bytes <= self_target_size -> passes = [])).
    { destruct (image_heavy_passes analysis
                  (_report_progress self_progress_callback CompressionStage.ANALYZING 100 w2))
        as (made & Hp).
      exists (map trial_pass made). apply Hrest, Hp. }
    assert (Hstop : exists passes,
              passes_of (journal w2) = passes_of (journal w) ++ passes
              /\ handle_events (journal w2)
                 = handle_events (journal w) ++ analysis_handles open_for_analysis
                   ++ flat_map handles_of_outcome
                        (map (outcome_of_pass text_outcome settings_outcome) passes)
              /\ (Py.size_of pdf_bytes <= self_target_size -> passes = [])).
    { exists []. cbn [map flat_map]. rewrite !app_nil_r.
      split; [exact P2|split; [exact H2|reflexivity]]. }
    assert (Hgo : exists passes,
      passes_of (journal (snd (
        let w3 := _report_progress self_progress_callback
                    CompressionStage.ANALYZING 100 w2 in
        if String.eqb (pdf_type analysis) "image-heavy"
        then _compress_image_heavy self_pdf_path self_target_size self_tolerance
               self_progress_callback out_path settings_outcome analysis w3
        else if String.eqb (pdf_type analysis) "text-heavy"
             then let '(r, w4) :=
                    _compress_text_heavy self_pdf_path self_target_size
                      self_progress_callback out_path text_outcome analysis w3 in
                  (Returns r, w4)
             else _compress_mixed self_pdf_path self_target_size self_tolerance
                    self_progress_callback out_path settings_outcome analysis w3)))
      = passes_of (journal w) ++ passes
      /\ handle_events (journal (snd (
        let w3 := _report_progress self_progress_callback
                    CompressionStage.ANALYZING 100 w2 in
        if String.eqb (pdf_type analysis) "image-heavy"
        then _compress_image_heavy self_pdf_path self_target_size self_tolerance
               self_progress_callback out_path settings_outcome analysis w3
        else if String.eqb (pdf_type analysis) "text-heavy"
             then let '(r, w4) :=
                    _compress_text_heavy self_pdf_path self_target_size
                      self_progress_callback out_path text_outcome analysis w3 in
                  (Returns r, w4)
             else _compress_mixed self_pdf_path self_target_size self_tolerance
                    self_progress_callback out_path settings_outcome analysis w3)))
        = handle_events (journal w) ++ analysis_handles open_for_analysis
          ++ flat_map handles_of_outcome
               (map (outcome_of_pass text_outcome settings_outcome) passes)
      /\ (Py.size_of pdf_bytes <= self_target_size -> passes = [])).
    { cbv zeta.
      destruct (String.eqb (pdf_type analysis) "image-heavy"); [exact Hsearch|].
      destruct (String.eqb (pdf_type analysis) "text-heavy"); [|exact Hsearch].
      pose proof (text_heavy_passes analysis
                    (_report_progress self_progress_callback
                       CompressionStage.ANALYZING 100 w2)) as Hp.
      destruct (_compress_text_heavy _ _ _ _ _ _ _) as [r w4]. cbn [snd] in *.
      exists [TextHeavyPass]. apply Hrest, Hp. }
    destruct (analysis_error analysis) as [[|c rest]|]; [exact Hgo|exact Hstop|exact Hgo]. }
  destruct Hmain as (passes & P & H & Hcopy).
  exists passes. cbv zeta. split; [exact P|]. split; [exact H|]. split; [exact Hcopy|].
  intros Hno.
  assert (Hone : one_at_a_time
                   ((if Py.size_of pdf_bytes <=? self_target_size then []
                     else analysis_handles open_for_analysis)
                    ++ flat_map handles_of_outcome
                         (map (outcome_of_pass text_outcome settings_outcome) passes))).
  { apply one_at_a_time_app; [|apply handles_of_outcomes_in_turn, Hno].
    destruct (Py.size_of pdf_bytes <=? self_target_size); [constructor|].
    unfold analysis_handles.
    destruct open_for_analysis; repeat constructor. }
  split; [exact Hone|].
  rewrite <- (left_open_handles (journal (snd (run w)))), H, left_open_app,
    left_open_handles, (left_open_one_at_a_time _ Hone). lia.
Qed.

End Compress.

(** ** The search and [compress] on concrete runs *)

(** C3: the statement fails as it is written: with a 1000-byte input and a
    600-byte target, six trials that each save 1000 bytes end in
    [success = False], although every one of them produced an output. *)
Lemma saved_outputs_yet_failure :
  ~ (forall (target : Z) (tolerance : string)
            (settings_outcome : Z -> Z -> SettingsOutcome)
            (analysis : AnalysisResult) (w : World) (r : CompressionResult) (w' : World),
        _compress_image_heavy "in.pdf"%string target tolerance false "out.pdf"%string
          settings_outcome analysis w = (Returns r, w') ->
        (exists p, In p (attempts_of (journal w'))
                   /\ saved_size (settings_outcome (fst p) (snd p)) <> None) ->
        success r = true).
Proof.
  intros H.
  specialize (H 600 "balanced"%string nothing_gained mixed_analysis empty_world
                _ _ eq_refl).
  assert (Hs : exists p,
             In p (attempts_of (journal (snd (_compress_image_heavy "in.pdf"%string 600
                     "balanced"%string false "out.pdf"%string nothing_gained mixed_analysis
                     empty_world))))
             /\ saved_size (nothing_gained (fst p) (snd p)) <> None).
  { exists (95, 300). split; [left; reflexivity|discriminate]. }
  specialize (H Hs). vm_compute in H. discriminate H.
Qed.

Lemma success_needs_a_smaller_output_witness :
  exists r w' made,
    _compress_image_heavy "in.pdf"%string 600 "balanced"%string false "out.pdf"%string
      first_is_smallest mixed_analysis empty_world = (Returns r, w')
    /\ attempts_of (journal w') = attempts_of (journal empty_world) ++ made
    /\ (success r = true
        <-> exists p, In p made
                      /\ (meets_target 600 first_is_smallest p = true
                          \/ saves_below first_is_smallest
                               (file_size mixed_analysis) p = true))
    /\ (target_achieved r = true
        <-> exists p, In p made /\ meets_target 600 first_is_smallest p = true)
    /\ (success r = false ->
        forall p, In p made ->
                  match saved_size (first_is_smallest (fst p) (snd p)) with
                  | Some n => file_size mixed_analysis <= n
                  | None => True
                  end).
Proof.
  exact (success_needs_a_smaller_output "in.pdf"%string 600 "balanced"%string false "out.pdf"%string
           first_is_smallest mixed_analysis balanced_config eq_refl empty_world).
Defined.

Lemma first_success_returns_witness :
  (exists r w',
      _compress_image_heavy "in.pdf"%string 600 "balanced"%string false "out.pdf"%string
        second_fits mixed_analysis empty_world = (Returns r, w')
      /\ success r = true
      /\ target_achieved r = true
      /\ iterations r = 2
      /\ attempts_of (journal w') = [(95, 300); (95, 200)]
      /\ saved_size (second_fits 95 200) = Some (compressed_size r))
  /\ (exists r w',
        _compress_image_heavy "in.pdf"%string 600 "balanced"%string false "out.pdf"%string
          always_fits mixed_analysis empty_world = (Returns r, w')
        /\ target_achieved r = true
        /\ iterations r = 1
        /\ attempts_of (journal w') = [(95, 300)]).
Proof.
  split.
  - refine (proj1 (first_success_returns "in.pdf"%string 600 "balanced"%string false
                     "out.pdf"%string second_fits mixed_analysis balanced_config
                     eq_refl empty_world)
              [(95, 300)] 95 200 [(95, 150); (95, 120); (95, 100); (85, 300)]
              eq_refl _ eq_refl).
    intros p [<-|[]]. vm_compute. reflexivity.
  - apply (proj2 (first_success_returns "in.pdf"%string 600 "balanced"%string false
                    "out.pdf"%string always_fits mixed_analysis balanced_config
                    eq_refl empty_world)).
    vm_compute. reflexivity.
Defined.

Lemma attempts_within_budget_witness :
  exists made,
    attempts_of (journal (snd (_compress_image_heavy "in.pdf"%string 600
                                 "balanced"%string false "out.pdf"%string
                                 nothing_gained mixed_analysis empty_world)))
    = made
    /\ made = search_order balanced_config
    /\ Py.len made = 6.
Proof.
  destruct (attempts_within_budget "in.pdf"%string 600 "balanced"%string false
              "out.pdf"%string nothing_gained mixed_analysis balanced_config
              eq_refl empty_world)
    as (made & A & _ & _ & Hfull & _).
  exists made. split; [exact A|]. apply Hfull.
  intros p _. reflexivity.
Defined.

Lemma best_effort_reports_one_iteration_witness :
  exists r w' made,
    _compress_image_heavy "in.pdf"%string 600 "balanced"%string false "out.pdf"%string
      first_is_smallest mixed_analysis empty_world = (Returns r, w')
    /\ attempts_of (journal w') = attempts_of (journal empty_world) ++ made
    /\ (target_achieved r = false ->
        iterations r = 1 /\ Py.len made = max_iterations balanced_config
        /\ 4 <= max_iterations balanced_config)
    /\ (target_achieved r = true -> iterations r = Py.len made).
Proof.
  exact (best_effort_reports_one_iteration "in.pdf"%string 600 "balanced"%string false "out.pdf"%string
           first_is_smallest mixed_analysis balanced_config eq_refl empty_world).
Defined.

(** On that run the six trials are made and [iterations] is 1. *)
Example best_effort_run :
  let '(c, w') := _compress_image_heavy "in.pdf"%string 600 "balanced"%string false "out.pdf"%string
                    first_is_smallest mixed_analysis empty_world in
  match c with
  | Returns r =>
      success r = true /\ target_achieved r = false /\ iterations r = 1
      /\ compressed_size r = 700
      /\ option_map Py.size_of (output_file w') = Some 900
      /\ Py.len (attempts_of (journal w')) = 6
  | Escapes _ => False
  end.
Proof. vm_compute. repeat split; reflexivity. Qed.

Lemma Qlt_bool_scale (x x' c : Q) :
  (x == x')%Q -> Py.Qlt_bool x c = Py.Qlt_bool x' c.
Proof.
  intros H. unfold Py.Qlt_bool. f_equal.
  destruct (Qle_bool c x) eqn:E.
  - symmetry. apply Qle_bool_iff. rewrite <- H. apply Qle_bool_iff, E.
  - destruct (Qle_bool c x') eqn:E'; [|reflexivity].
    apply Qle_bool_iff in E'. rewrite <- H in E'. apply Qle_bool_iff in E'.
    congruence.
Qed.

Lemma coarser_is_smaller_reads_the_scale : reads_dpi_through_scale coarser_is_smaller.
Proof.
  intros quality dpi dpi' H. unfold coarser_is_smaller. cbv zeta.
  rewrite !(Qlt_bool_scale _ _ _ H). reflexivity.
Qed.

(** C4: on a best-effort return ([success = True], [target_achieved = False])
    the [compressed_size] reported is the smallest size a trial of the run
    saved, while the file at [output_path] is the one written by the last
    trial that wrote; so the reported size can be strictly smaller than the
    file.  It is so when [compress] is run in the strict profile on the
    scanned page with the sizes of [coarser_is_smaller], which depend on the
    dpi through the scale of the images only: the best of the ten trials is
    the sixth, at (95, 72), with 700 bytes, and the last one, at (85, 120),
    leaves 800 bytes at [output_path]. *)
Theorem reported_size_may_undercut_the_file :
  (forall (self_pdf_path : string) (self_target_size : Z) (self_tolerance : string)
          (self_progress_callback : bool) (out_path : string)
          (settings_outcome : Z -> Z -> SettingsOutcome) (analysis : AnalysisResult)
          (config : ToleranceConfig) (w : World),
      tolerance_config self_tolerance = Some config ->
      exists r w' made,
        _compress_image_heavy self_pdf_path self_target_size self_tolerance
          self_progress_callback out_path settings_outcome analysis w = (Returns r, w')
        /\ attempts_of (journal w') = attempts_of (journal w) ++ made
        /\ (success r = true -> target_achieved r = false ->
            (exists p, In p made
                       /\ saved_size (settings_outcome (fst p) (snd p))
                          = Some (compressed_size r))
            /\ (forall p n, In p made ->
                            saved_size (settings_outcome (fst p) (snd p)) = Some n ->
                            compressed_size r <= n)
            /\ output_file w'
               = last_output (map (fun p => settings_outcome (fst p) (snd p)) made)
                   (output_file w)))
  /\ (reads_dpi_through_scale coarser_is_smaller
      /\ exists r w' content,
           compress "in.pdf"%string (blank 1000) 600 "strict"%string false
             "out.pdf"%string CopyDone (inr scanned_document) (Saved (blank 990) 0)
             coarser_is_smaller empty_world
           = (Returns r, w')
           /\ success r = true /\ target_achieved r = false
           /\ attempts_of (journal w') = search_order strict_config
           /\ saved_size (coarser_is_smaller 95 72) = Some (compressed_size r)
           /\ output_file w' = Some content
           /\ saved_size (coarser_is_smaller 85 120) = Some (Py.size_of content)
           /\ compressed_size r < Py.size_of content).
Proof.
  split.
  - intros p t tol cb o s a c w H.
    exact (best_effort_size_and_file p t tol cb o s a c H w).
  - split; [exact coarser_is_smaller_reads_the_scale|].
    eexists. eexists. eexists. split; [vm_compute; reflexivity|].
    split; [reflexivity|]. split; [reflexivity|]. split; [reflexivity|].
    split; [reflexivity|]. split; [reflexivity|]. split; [reflexivity|].
    vm_compute. reflexivity.
Qed.

Lemma reported_size_may_undercut_the_file_witness :
  exists r w' made,
    _compress_image_heavy "in.pdf"%string 600 "strict"%string false "out.pdf"%string
      coarser_is_smaller scanned_analysis empty_world = (Returns r, w')
    /\ attempts_of (journal w') = attempts_of (journal empty_world) ++ made
    /\ (success r = true -> target_achieved r = false ->
        (exists p, In p made
                   /\ saved_size (coarser_is_smaller (fst p) (snd p))
                      = Some (compressed_size r))
        /\ (forall p n, In p made ->
                        saved_size (coarser_is_smaller (fst p) (snd p)) = Some n ->
                        compressed_size r <= n)
        /\ output_file w'
           = last_output (map (fun p => coarser_is_smaller (fst p) (snd p)) made)
               (output_file empty_world)).
Proof.
  exact (proj1 reported_size_may_undercut_the_file "in.pdf"%string 600 "strict"%string false
           "out.pdf"%string coarser_is_smaller scanned_analysis strict_config empty_world
           eq_refl).
Defined.

(** The profile of the scanned page. *)
Example scanned_page_is_image_heavy :
  pdf_type scanned_analysis = "image-heavy"%string
  /\ image_count scanned_analysis = 2
  /\ total_image_bytes scanned_analysis = 800
  /\ file_size scanned_analysis = 1000.
Proof. vm_compute. repeat split. Qed.

(** The ten trials of that run and what each saved. *)
Example best_effort_run_of_the_strict_profile :
  map (fun p => (p, saved_size (coarser_is_smaller (fst p) (snd p))))
      (search_order strict_config)
  = [((95, 300), Some 950); ((95, 200), Some 950); ((95, 150), Some 950);
     ((95, 120), Some 900); ((95, 100), Some 850); ((95, 72), Some 700);
     ((85, 300), Some 900); ((85, 200), Some 900); ((85, 150), Some 900);
     ((85, 120), Some 800)].
Proof. vm_compute. reflexivity. Qed.



(** C9: the statement fails as it is written: an ordinary call (mixed
    document, first trial meeting the target) opens and closes two handles,
    one in [analyze] and one in the trial. *)
Lemma two_handles_in_an_ordinary_call :
  ~ (forall (pdf_bytes : list byte) (target : Z) (tolerance : string)
            (copy_outcome : CopyOutcome)
            (open_for_analysis : string + Document) (text_outcome : SettingsOutcome)
            (settings_outcome : Z -> Z -> SettingsOutcome),
        single_handle
          (journal (snd (compress "in.pdf"%string pdf_bytes target tolerance false
                           "out.pdf"%string copy_outcome
                           open_for_analysis text_outcome settings_outcome
                           empty_world)))).
Proof.
  intros H.
  specialize (H (blank 1000) 600 "balanced"%string CopyDone (inr small_document)
                (Saved (blank 400) 0) always_fits).
  unfold single_handle in H. vm_compute in H. discriminate H.
Qed.

(** The handle of a trial whose save raises is not closed by the [except]
    branch of [_compress_with_settings]: after [analyze] and six such trials
    six handles are left open. *)
Example failed_saves_leave_handles_open :
  left_open (journal (snd (compress "in.pdf"%string (blank 1000) 600 "balanced"%string false "out.pdf"%string CopyDone
                             (inr small_document) (Saved (blank 400) 0)
                             save_always_raises empty_world))) = 6.
Proof. vm_compute. reflexivity. Qed.

Lemma handles_are_taken_in_turn_witness :
  handle_events
    (journal (snd (analyze "in.pdf"%string (blank 1000) (inr scanned_document)
                     empty_world)))
  = [Opened; Closed]
  /\ passes_of
       (journal (snd (compress "in.pdf"%string (blank 1000) 900 "balanced"%string false
                        "out.pdf"%string CopyDone (inr scanned_document)
                        (Saved (blank 990) 0) coarser_is_smaller empty_world)))
     = [Trial 95 300; Trial 95 200; Trial 95 150; Trial 95 120]
  /\ handle_events
       (journal (snd (compress "in.pdf"%string (blank 1000) 900 "balanced"%string false
                        "out.pdf"%string CopyDone (inr scanned_document)
                        (Saved (blank 990) 0) coarser_is_smaller empty_world)))
     = [Opened; Closed; Opened; Closed; Opened; Closed; Opened; Closed; Opened; Closed]
  /\ one_at_a_time
       [Opened; Closed; Opened; Closed; Opened; Closed; Opened; Closed; Opened; Closed]
  /\ left_open
       (journal (snd (compress "in.pdf"%string (blank 1000) 900 "balanced"%string false
                        "out.pdf"%string CopyDone (inr scanned_document)
                        (Saved (blank 990) 0) coarser_is_smaller empty_world)))
     = 0.
Proof.
  destruct (handles_are_taken_in_turn "in.pdf"%string (blank 1000) 900
              "balanced"%string false "out.pdf"%string CopyDone (inr scanned_document)
              (Saved (blank 990) 0) coarser_is_smaller empty_world)
    as (Ha & passes & Hp & Hh & _ & Hno).
  cbv zeta in Hp, Hh, Hno.
  assert (E : passes = [Trial 95 300; Trial 95 200; Trial 95 150; Trial 95 120]).
  { vm_compute in Hp. exact (eq_sym Hp). }
  subst passes. split; [exact Ha|]. split; [exact Hp|]. split; [exact Hh|].
  apply Hno. repeat constructor.
Defined.

(** * Further properties *)

(** ** Where the result of the search comes from *)

Section SearchProvenance.

Variable self_pdf_path : string.
Variable self_target_size : Z.
Variable self_progress_callback : bool.
Variable out_path : string.
Variable settings_outcome : Z -> Z -> SettingsOutcome.
Variable config : ToleranceConfig.
Variable analysis : AnalysisResult.

Local Abbreviation run_settings :=
  (_compress_with_settings self_pdf_path self_target_size out_path settings_outcome).
Local Abbreviation trial :=
  (attempt self_pdf_path self_target_size self_progress_callback out_path
     settings_outcome config analysis).
Local Abbreviation flat :=
  (scan self_pdf_path self_target_size self_progress_callback out_path
     settings_outcome config analysis).
Local Abbreviation saved := (saved_result self_pdf_path self_target_size out_path).
Local Abbreviation failure := (failed self_pdf_path self_target_size out_path).

Lemma compress_with_settings_returns (q d : Z) (w : World) :
  fst (run_settings q d analysis w)
  = match settings_outcome q d with
    | OpenRaised e => failure analysis e
    | Raised e _ => failure analysis e
    | Saved content n => saved q content n analysis
    end.
Proof.
  unfold _compress_with_settings.
  destruct (settings_outcome q d) as [e|e written|content n]; reflexivity.
Qed.

Lemma set_target_achieved_saved (q : Z) (content : list byte) (n : Z) (b : bool) :
  (Py.size_of content <=? self_target_size) = b ->
  set_target_achieved b (saved q content n analysis) = saved q content n analysis.
Proof. intros <-. reflexivity. Qed.

(** One trial either leaves [best_result] alone, or puts there the result
    of its own save, smaller than what was kept and above the target, or
    returns that result with the count of trials. *)
Lemma trial_provenance (q d : Z) (st : SearchState) :
  match trial q d st with
  | Continue st' =>
      (best_result st' = best_result st /\ best_size st' = best_size st)
      \/ exists content n,
           settings_outcome q d = Saved content n
           /\ best_result st' = Some (saved q content n analysis)
           /\ best_size st' = Py.size_of content
           /\ self_target_size < Py.size_of content < best_size st
  | Return r w =>
      exists content n,
        settings_outcome q d = Saved content n
        /\ Py.size_of content <= self_target_size
        /\ r = set_iterations (iteration st) (saved q content n analysis)
  end.
Proof.
  unfold attempt.
  set (w1 := _report_progress self_progress_callback _ _ (world st)).
  pose proof (compress_with_settings_returns q d w1) as Hr.
  destruct (run_settings q d analysis w1) as [result w2]. cbn [fst] in Hr.
  destruct (settings_outcome q d) as [e|e written|content n]; subst result;
    cbn [success failed saved_result compressed_size].
  - left. split; reflexivity.
  - left. split; reflexivity.
  - destruct (Py.size_of content <=? self_target_size) eqn:E.
    + exists content, n. split; [reflexivity|]. split; [apply Z.leb_le; exact E|].
      rewrite (set_target_achieved_saved q content n true E). reflexivity.
    + apply Z.leb_gt in E. destruct (Py.size_of content <? best_size st) eqn:E2.
      * apply Z.ltb_lt in E2. right. exists content, n.
        split; [reflexivity|]. split; [reflexivity|]. split; [reflexivity|lia].
      * left. split; reflexivity.
Qed.

Lemma scan_provenance (pairs : list (Z * Z)) :
  forall st : SearchState,
    match flat pairs st with
    | Continue st' =>
        (best_result st' = best_result st /\ best_size st' = best_size st)
        \/ exists q d content n,
             In (q, d) pairs /\ settings_outcome q d = Saved content n
             /\ best_result st' = Some (saved q content n analysis)
             /\ best_size st' = Py.size_of content
             /\ self_target_size < Py.size_of content < best_size st
    | Return r w =>
        exists q d content n k,
          In (q, d) pairs /\ settings_outcome q d = Saved content n
          /\ Py.size_of content <= self_target_size
          /\ iteration st < k <= iteration st + Py.len pairs
          /\ r = set_iterations k (saved q content n analysis)
    end.
Proof.
  induction pairs as [|[q d] rest IH]; intros st.
  - cbn [scan]. left. split; reflexivity.
  - cbn [scan]. pose proof (trial_provenance q d (count_iteration st)) as Ht.
    pose proof (trial_iteration self_pdf_path self_target_size self_progress_callback
                  out_path settings_outcome config analysis q d (count_iteration st))
      as Hi.
    destruct (trial q d (count_iteration st)) as [st1|r w].
    + specialize (Hi st1 eq_refl). cbn [count_iteration iteration] in Hi.
      specialize (IH st1). cbn [count_iteration best_result best_size] in Ht.
      destruct (flat rest st1) as [st2|r w].
      * destruct IH as [[IH1 IH2]|(q' & d' & c & n & Hin & Ho & Hb & Hs & Hlt)].
        -- destruct Ht as [[Ht1 Ht2]|(c & n & Ho & Hb & Hs & Hlt)].
           ++ left. split; congruence.
           ++ right. exists q, d, c, n.
              split; [left; reflexivity|]. split; [exact Ho|].
              split; [congruence|]. split; [congruence|exact Hlt].
        -- right. exists q', d', c, n. split; [right; exact Hin|].
           split; [exact Ho|]. split; [exact Hb|]. split; [exact Hs|].
           destruct Ht as [[_ Ht2]|(c0 & n0 & _ & _ & Hs0 & Hlt0)]; lia.
      * destruct IH as (q' & d' & c & n & k & Hin & Ho & Hle & Hk & Hr).
        exists q', d', c, n, k. split; [right; exact Hin|].
        split; [exact Ho|]. split; [exact Hle|]. split; [|exact Hr].
        rewrite len_cons. lia.
    + destruct Ht as (c & n & Ho & Hle & Hr).
      cbn [count_iteration iteration] in Hr.
      exists q, d, c, n, (iteration st + 1). split; [left; reflexivity|].
      split; [exact Ho|]. split; [exact Hle|]. split; [|exact Hr].
      rewrite len_cons. unfold Py.len. lia.
Qed.

(** The result of [grid_search] is the fixed failure record, or the record
    one of the trials of the search order built on its save, with
    [iterations] set: a save above the target and below the original size
    with [iterations] 1, or a save within the target. *)
Lemma grid_search_provenance (w : World) :
  0 <= max_iterations config ->
  let r := fst (grid_search self_pdf_path self_target_size self_progress_callback
                  out_path settings_outcome config analysis w) in
  r = failure analysis "Could not achieve target size"
  \/ exists q d content n k,
       In (q, d) (search_order config) /\ settings_outcome q d = Saved content n
       /\ 1 <= k <= Py.len (search_order config)
       /\ ((k = 1 /\ self_target_size < Py.size_of content < file_size analysis)
           \/ Py.size_of content <= self_target_size)
       /\ r = set_iterations k (saved q content n analysis).
Proof.
  intros Hmax. cbv zeta. rewrite (grid_search_flat _ _ _ _ _ _ _ w Hmax).
  pose proof (scan_provenance (search_order config)
                (mkSearchState 0 None (file_size analysis) w)) as H.
  destruct (flat (search_order config) _) as [st|r w'].
  - cbn [best_result best_size] in H.
    destruct H as [[H _]|(q & d & c & n & Hin & Ho & Hb & _ & Hlt)].
    + rewrite H. left. reflexivity.
    + rewrite Hb. right. exists q, d, c, n, 1. cbn [fst].
      split; [exact Hin|]. split; [exact Ho|]. split.
      { split; [lia|]. destruct (search_order config); [destruct Hin|].
        rewrite len_cons. unfold Py.len. lia. }
      split; [left; split; [reflexivity|exact Hlt]|]. reflexivity.
  - destruct H as (q & d & c & n & k & Hin & Ho & Hle & Hk & Hr).
    cbn [iteration] in Hk. right. exists q, d, c, n, k. cbn [fst].
    split; [exact Hin|]. split; [exact Ho|]. split; [lia|].
    split; [right; exact Hle|exact Hr].
Qed.

End SearchProvenance.

(** ** The ways out of [analyze] and of [compress] *)

Section CompressCases.

Variable self_pdf_path : string.
Variable pdf_bytes : list byte.
Variable self_target_size : Z.
Variable self_tolerance : string.
Variable self_progress_callback : bool.
Variable out_path : string.
Variable copy_outcome : CopyOutcome.
Variable open_for_analysis : string + Document.
Variable text_outcome : SettingsOutcome.
Variable settings_outcome : Z -> Z -> SettingsOutcome.

Local Abbreviation run :=
  (compress self_pdf_path pdf_bytes self_target_size self_tolerance
     self_progress_callback out_path copy_outcome open_for_analysis text_outcome
     settings_outcome).
Local Abbreviation profile := (analyze self_pdf_path pdf_bytes open_for_analysis).
Local Abbreviation saved := (saved_result self_pdf_path self_target_size out_path).
Local Abbreviation failure := (failed self_pdf_path self_target_size out_path).
Local Abbreviation text_saved := (text_result self_pdf_path self_target_size out_path).
Local Abbreviation copied := (copied_result self_pdf_path self_target_size out_path).
Local Abbreviation image_heavy :=
  (_compress_image_heavy self_pdf_path self_target_size self_tolerance
     self_progress_callback out_path settings_outcome).
Local Abbreviation text_heavy :=
  (_compress_text_heavy self_pdf_path self_target_size self_progress_callback
     out_path text_outcome).
Local Abbreviation report := (_report_progress self_progress_callback).

(** The profile does not depend on the world [analyze] starts in. *)
Lemma analyze_profile (w : World) : fst (profile w) = fst (profile empty_world).
Proof.
  unfold analyze. destruct open_for_analysis as [e|doc]; [reflexivity|].
  destruct (doc_fault doc) as [e|]; [reflexivity|].
  destruct (_analyze_images doc) as [imgs total].
  destruct (Analyzer._estimate_compression _ _ _ _ _) as [est_min est_max].
  reflexivity.
Qed.

Lemma analyze_file_size (w : World) :
  file_size (fst (profile w)) = Py.size_of pdf_bytes.
Proof.
  unfold analyze. destruct open_for_analysis as [e|doc]; [reflexivity|].
  destruct (doc_fault doc) as [e|]; [reflexivity|].
  destruct (_analyze_images doc) as [imgs total].
  destruct (Analyzer._estimate_compression _ _ _ _ _) as [est_min est_max].
  reflexivity.
Qed.

(** What [analyze] does to the world: it notes itself and, when the
    document opens, one handle taken and given back; it writes nothing. *)
Lemma analyze_world (w : World) :
  output_file (snd (profile w)) = output_file w
  /\ (journal (snd (profile w)) = journal w ++ [Analyze]
      \/ journal (snd (profile w)) = journal w ++ [Analyze; Opened; Closed]).
Proof.
  unfold analyze. destruct open_for_analysis as [e|doc].
  - split; [reflexivity|left; reflexivity].
  - assert (H : forall w0,
               journal (emit Closed (emit Opened (emit Analyze w0)))
               = journal w0 ++ [Analyze; Opened; Closed]).
    { intros w0. cbn [emit journal]. rewrite <- !app_assoc. reflexivity. }
    destruct (doc_fault doc) as [e|].
    + split; [reflexivity|right; apply H].
    + destruct (_analyze_images doc) as [imgs total].
      destruct (Analyzer._estimate_compression _ _ _ _ _) as [est_min est_max].
      split; [reflexivity|right; apply H].
Qed.

(** The error of a profile is never the empty string. *)
Lemma analyze_error_message (w : World) (e : string) :
  analysis_error (fst (profile w)) = Some e ->
  (exists cause, open_for_analysis = inl cause
                 /\ e = ("Failed to open PDF: " ++ cause)%string)
  \/ (exists doc cause, open_for_analysis = inr doc /\ doc_fault doc = Some cause
                        /\ e = ("Analysis failed: " ++ cause)%string).
Proof.
  unfold analyze. destruct open_for_analysis as [cause|doc].
  - cbn. intros [= <-]. left. exists cause. split; reflexivity.
  - destruct (doc_fault doc) as [cause|] eqn:Ef.
    + cbn. intros [= <-]. right. exists doc, cause. repeat split. exact Ef.
    + destruct (_analyze_images doc) as [imgs total].
      destruct (Analyzer._estimate_compression _ _ _ _ _) as [est_min est_max].
      cbn. discriminate.
Qed.

(** The ways through [compress]: the copy, which goes through or raises,
    and the three ways of a larger input. *)
Lemma compress_cases (w : World) :
  let w1 := report CompressionStage.ANALYZING 0 w in
  let a := fst (profile w1) in
  let w2 := snd (profile w1) in
  let w3 := report CompressionStage.ANALYZING 100 w2 in
  (Py.size_of pdf_bytes <= self_target_size
   /\ ((copy_outcome = CopyDone
        /\ run w = (Returns (copied (Py.size_of pdf_bytes)),
                    write_output pdf_bytes (emit Copied w)))
       \/ (exists e written,
              copy_outcome = CopyRaised e written
              /\ run w = (Escapes e,
                          match written with
                          | Some content => write_output content (emit Copied w)
                          | None => emit Copied w
                          end))))
  \/ (self_target_size < Py.size_of pdf_bytes
      /\ ((exists e, analysis_error a = Some e /\ run w = (Returns (failure a e), w2))
          \/ (analysis_error a = None /\ pdf_type a = "text-heavy"%string
              /\ run w = (Returns (fst (text_heavy a w3)), snd (text_heavy a w3)))
          \/ (analysis_error a = None /\ pdf_type a <> "text-heavy"%string
              /\ run w = image_heavy a w3))).
Proof.
  cbv zeta. unfold compress.
  destruct (Py.size_of pdf_bytes <=? self_target_size) eqn:Esz.
  { left. apply Z.leb_le in Esz. split; [exact Esz|].
    destruct copy_outcome as [|e written].
    - left. split; reflexivity.
    - right. exists e, written. split; reflexivity. }
  right. apply Z.leb_gt in Esz. split; [exact Esz|].
  set (w1 := report CompressionStage.ANALYZING 0 w).
  pose proof (analyze_file_size w1) as Hfs.
  pose proof (analyze_error_message w1) as Hmsg.
  destruct (profile w1) as [a w2]. cbn [fst snd] in *.
  destruct (analysis_error a) as [e|] eqn:Ee.
  - left. exists e. split; [reflexivity|].
    destruct (Hmsg e eq_refl) as [(cause & _ & ->)|(doc & cause & _ & _ & ->)];
      cbn [append]; unfold failed; rewrite Hfs; reflexivity.
  - right.
    destruct (String.eqb (pdf_type a) "image-heavy") eqn:Ei.
    + right. split; [reflexivity|]. split; [|reflexivity].
      apply String.eqb_eq in Ei. rewrite Ei. discriminate.
    + destruct (String.eqb (pdf_type a) "text-heavy") eqn:Et.
      * left. apply String.eqb_eq in Et. split; [reflexivity|]. split; [exact Et|].
        destruct (text_heavy a _) as [r w4]. reflexivity.
      * right. apply String.eqb_neq in Et. split; [reflexivity|].
        split; [exact Et|reflexivity].
Qed.

Lemma text_heavy_returns (a : AnalysisResult) (w : World) :
  fst (text_heavy a w)
  = match text_outcome with
    | OpenRaised e => failure a e
    | Raised e _ => failure a e
    | Saved content _ => text_saved content a
    end.
Proof.
  unfold _compress_text_heavy.
  destruct text_outcome as [e|e written|content n]; reflexivity.
Qed.

(** Every result [compress] returns has one of four shapes; a property of
    all four is a property of every result. *)
Lemma compress_result_ind (P : CompressionResult -> Prop) (w : World) :
  let a := fst (profile empty_world) in
  (Py.size_of pdf_bytes <= self_target_size -> P (copied (Py.size_of pdf_bytes))) ->
  (self_target_size < Py.size_of pdf_bytes -> forall msg, P (failure a msg)) ->
  (self_target_size < Py.size_of pdf_bytes ->
   forall config q d content n k,
     tolerance_config self_tolerance = Some config ->
     In (q, d) (search_order config) ->
     settings_outcome q d = Saved content n ->
     1 <= k <= max_iterations config ->
     ((k = 1 /\ self_target_size < Py.size_of content < Py.size_of pdf_bytes)
      \/ Py.size_of content <= self_target_size) ->
     pdf_type a <> "text-heavy"%string ->
     P (set_iterations k (saved q content n a))) ->
  (self_target_size < Py.size_of pdf_bytes ->
   forall content n,
     text_outcome = Saved content n -> pdf_type a = "text-heavy"%string ->
     P (text_saved content a)) ->
  forall r w', run w = (Returns r, w') -> P r.
Proof.
  cbv zeta. intros Hcopy Hfail Htrial Htext r w' Hrun.
  destruct (compress_cases w)
    as [[Hsz [[_ E]|(e & written & _ & E)]]
       |[Hsz [(e & _ & E)|[(_ & Ht & E)|(_ & Ht & E)]]]];
    rewrite E in Hrun; clear E;
    rewrite ?(analyze_profile (report CompressionStage.ANALYZING 0 w)) in *.
  - injection Hrun as <- _. apply Hcopy, Hsz.
  - discriminate Hrun.
  - injection Hrun as <- _. apply Hfail, Hsz.
  - injection Hrun as <- _. rewrite text_heavy_returns.
    destruct text_outcome as [e|e written|content n] eqn:Eo;
      [apply Hfail, Hsz|apply Hfail, Hsz|].
    apply (Htext Hsz content n eq_refl Ht).
  - unfold _compress_image_heavy in Hrun.
    destruct (tolerance_config self_tolerance) as [config|] eqn:Ec; [|discriminate Hrun].
    destruct (profile_budget _ _ Ec) as (Hmax & Hlen & _).
    set (w3 := report CompressionStage.ANALYZING 100 _) in Hrun.
    pose proof (grid_search_provenance self_pdf_path self_target_size
                  self_progress_callback out_path settings_outcome config
                  (fst (profile empty_world)) w3 Hmax) as Hp.
    cbv zeta in Hp.
    destruct (grid_search _ _ _ _ _ _ _ _) as [r0 w0]. cbn [fst] in Hp.
    injection Hrun as <- _.
    destruct Hp as [->|(q & d & c & n & k & Hin & Ho & Hk & Hone & ->)].
    + apply Hfail, Hsz.
    + apply (Htrial Hsz config q d c n k eq_refl Hin Ho); [lia| |exact Ht].
      rewrite (analyze_file_size empty_world) in Hone. exact Hone.
Qed.


Lemma quiet_refl (w : World) : quiet w w.
Proof. split; reflexivity. Qed.

Lemma quiet_trans (w1 w2 w3 : World) : quiet w1 w2 -> quiet w2 w3 -> quiet w1 w3.
Proof. intros [A1 F1] [A2 F2]. split; congruence. Qed.

Lemma quiet_report (stage : string) (pct : Z) (w : World) : quiet w (report stage pct w).
Proof.
  destruct (report_progress_advances self_progress_callback stage pct w) as (A & _ & F).
  split; [rewrite A; apply app_nil_r|exact F].
Qed.

Lemma quiet_analyze (w : World) : quiet w (snd (profile w)).
Proof.
  destruct (analyze_world w) as [F [J|J]]; (split; [|exact F]);
    rewrite J, attempts_of_app; apply app_nil_r.
Qed.

Lemma level_above_50_not_acceptable (o c : Z) (ip : Q) (level : Z) :
  50 <= level -> Utils.estimate_quality_score o c ip level <> "Acceptable"%string.
Proof.
  intros H. unfold Utils.estimate_quality_score. cbv zeta.
  destruct (Py.Qlt_bool (7 # 10) _); [discriminate|].
  destruct (Py.Qlt_bool (5 # 10) _); [discriminate|].
  destruct (Py.Qlt_bool (3 # 10) _); [discriminate|].
  destruct (level <? 50) eqn:E; [apply Z.ltb_lt in E; lia|].
  rewrite andb_false_r. discriminate.
Qed.

Lemma search_order_members (tolerance : string) (config : ToleranceConfig) (q d : Z) :
  tolerance_config tolerance = Some config ->
  In (q, d) (search_order config) ->
  (q = 95 \/ q = 85) /\ min_quality config < q /\ min_dpi config <= d <= 300.
Proof.
  intros Hc Hin.
  destruct (tolerance_config_profiles _ _ Hc) as [[_ ->]|[[_ ->]|[_ ->]]];
    vm_compute in Hin;
    repeat (destruct Hin as [[= <- <-]|Hin];
            [split; [auto|split; [reflexivity|split; discriminate]]|]);
    destruct Hin.
Qed.

Lemma ratio_of_equal_sizes (n : Z) :
  (Utils.calculate_compression_ratio n n == 0)%Q.
Proof.
  unfold Utils.calculate_compression_ratio.
  destruct (n =? 0) eqn:E; [reflexivity|].
  apply Z.eqb_neq in E.
  assert (H : ~ (inject_Z n == 0)%Q).
  { unfold Qeq. simpl. lia. }
  field. exact H.
Qed.

(** X1: in every result [compress] returns, [target_achieved] says whether
    [compressed_size <= target_size], on each of the return paths; and the
    result echoes the target asked for and the size of the input. *)
Theorem target_achieved_means_within_target (w : World) (r : CompressionResult)
    (w' : World) :
  run w = (Returns r, w') ->
  target_achieved r = (compressed_size r <=? target_size r)
  /\ target_size r = self_target_size
  /\ original_size r = Py.size_of pdf_bytes.
Proof.
  revert r w'.
  apply (compress_result_ind (fun r =>
           target_achieved r = (compressed_size r <=? target_size r)
           /\ target_size r = self_target_size
           /\ original_size r = Py.size_of pdf_bytes)).
  - intros Hsz. cbn. split; [symmetry; apply Z.leb_le; exact Hsz|split; reflexivity].
  - intros Hsz msg. cbn. rewrite (analyze_file_size empty_world).
    split; [symmetry; apply Z.leb_gt; exact Hsz|split; reflexivity].
  - intros _ config q d c n k _ _ _ _ _ _. cbn.
    rewrite (analyze_file_size empty_world). repeat split.
  - intros _ c n _ _. cbn. rewrite (analyze_file_size empty_world). repeat split.
Qed.

(** X2: a result of [compress] has [success = True] exactly when it carries
    no error message; and a failed result claims nothing: its
    [compressed_size] is the original size, its ratio 0, its counts 0, its
    label "N/A", with [target_achieved = False]. *)
Theorem failure_carries_the_error (w : World) (r : CompressionResult) (w' : World) :
  run w = (Returns r, w') ->
  (success r = true <-> error r = None)
  /\ (success r = false ->
      compressed_size r = original_size r
      /\ compression_ratio r = 0%Q
      /\ pages_processed r = 0 /\ images_processed r = 0
      /\ quality_estimate r = "N/A"%string
      /\ target_achieved r = false).
Proof.
  revert r w'.
  apply (compress_result_ind (fun r =>
           (success r = true <-> error r = None)
           /\ (success r = false ->
               compressed_size r = original_size r
               /\ compression_ratio r = 0%Q
               /\ pages_processed r = 0 /\ images_processed r = 0
               /\ quality_estimate r = "N/A"%string
               /\ target_achieved r = false))).
  - intros _. cbn. split; [split; reflexivity|discriminate].
  - intros _ msg. cbn. split; [split; discriminate|]. intros _. repeat split.
  - intros _ config q d c n k _ _ _ _ _ _. cbn.
    split; [split; reflexivity|discriminate].
  - intros _ c n _ _. cbn. split; [split; reflexivity|discriminate].
Qed.

(** X3: in every result [compress] returns, [compression_ratio] is
    [calculate_compression_ratio(original_size, compressed_size)], that is
    [1 - compressed_size / original_size], or 0 for an empty original. *)
Theorem ratio_matches_the_sizes (w : World) (r : CompressionResult) (w' : World) :
  run w = (Returns r, w') ->
  (compression_ratio r
   == Utils.calculate_compression_ratio (original_size r) (compressed_size r))%Q.
Proof.
  revert r w'.
  apply (compress_result_ind (fun r =>
           (compression_ratio r
            == Utils.calculate_compression_ratio (original_size r) (compressed_size r))%Q)).
  - intros _. cbn [copied_result compression_ratio original_size compressed_size].
    symmetry. apply ratio_of_equal_sizes.
  - intros _ msg. cbn [failed compression_ratio original_size compressed_size].
    symmetry. apply ratio_of_equal_sizes.
  - intros _ config q d c n k _ _ _ _ _ _. cbn. reflexivity.
  - intros _ c n _ _. cbn. reflexivity.
Qed.

(** X4: a successful result never reports more bytes than the input has,
    except on the text-heavy pass: on the copy path the sizes are equal, and
    after a search [compressed_size < original_size]. *)
Theorem search_success_is_smaller (w : World) (r : CompressionResult) (w' : World) :
  run w = (Returns r, w') ->
  success r = true ->
  pdf_type (fst (profile empty_world)) <> "text-heavy"%string ->
  (Py.size_of pdf_bytes <= self_target_size /\ compressed_size r = original_size r)
  \/ (self_target_size < Py.size_of pdf_bytes /\ compressed_size r < original_size r).
Proof.
  intros Hrun. revert r w' Hrun.
  apply (compress_result_ind (fun r =>
           success r = true ->
           pdf_type (fst (profile empty_world)) <> "text-heavy"%string ->
           (Py.size_of pdf_bytes <= self_target_size
            /\ compressed_size r = original_size r)
           \/ (self_target_size < Py.size_of pdf_bytes
               /\ compressed_size r < original_size r))).
  - intros Hsz _ _. left. split; [exact Hsz|reflexivity].
  - intros _ msg Hs. discriminate Hs.
  - intros Hsz config q d c n k _ _ _ _ Hsize _ _ _. right. split; [exact Hsz|].
    cbn. rewrite (analyze_file_size empty_world). lia.
  - intros _ c n _ Ht _ Hnot. congruence.
Qed.

(** X6: [compress] never returns the label "Acceptable": the text-heavy
    pass scores with level 90, and no profile lets the search reach a
    quality under 50 before its [max_iterations] are used up. *)
Theorem acceptable_is_never_reported (w : World) (r : CompressionResult) (w' : World) :
  run w = (Returns r, w') -> quality_estimate r <> "Acceptable"%string.
Proof.
  revert r w'.
  apply (compress_result_ind (fun r => quality_estimate r <> "Acceptable"%string)).
  - intros _. discriminate.
  - intros _ msg. discriminate.
  - intros _ config q d c n k Hc Hin _ _ _ _. cbn.
    apply level_above_50_not_acceptable.
    destruct (search_order_members _ _ _ _ Hc Hin) as ([-> | ->] & _); lia.
  - intros _ c n _ _. cbn. apply level_above_50_not_acceptable. lia.
Qed.

(** X7: a tolerance that is not a key of [tolerance_config] is only looked
    up by the search.  [compress] then lets [KeyError] escape exactly when
    the input is larger than the target, its analysis went through and its
    type is not text-heavy; by then no trial was made and nothing was written
    at [output_path].  On the other paths the tolerance is not read:
    [compress] returns a result, or, on the copy path, lets through the
    exception of [shutil.copy2] when that call raises. *)
Theorem unknown_tolerance_escapes (w : World) :
  tolerance_config self_tolerance = None ->
  let a := fst (profile empty_world) in
  (self_target_size < Py.size_of pdf_bytes -> analysis_error a = None ->
   pdf_type a <> "text-heavy"%string ->
   fst (run w) = Escapes "KeyError" /\ quiet w (snd (run w)))
  /\ ((Py.size_of pdf_bytes <= self_target_size /\ copy_outcome = CopyDone)
      \/ (self_target_size < Py.size_of pdf_bytes
          /\ (analysis_error a <> None \/ pdf_type a = "text-heavy"%string)) ->
      exists r, fst (run w) = Returns r)
  /\ (Py.size_of pdf_bytes <= self_target_size ->
      forall e written, copy_outcome = CopyRaised e written -> fst (run w) = Escapes e).
Proof.
  intros Hkey. cbv zeta.
  pose proof (compress_cases w) as Hc. cbv zeta in Hc.
  rewrite (analyze_profile (report CompressionStage.ANALYZING 0 w)) in Hc.
  assert (Hq : quiet w (report CompressionStage.ANALYZING 100
                          (snd (profile (report CompressionStage.ANALYZING 0 w))))).
  { eapply quiet_trans; [apply quiet_report|].
    eapply quiet_trans; [apply quiet_analyze|apply quiet_report]. }
  split; [|split].
  - intros Hsz Herr Ht.
    destruct Hc as [[Hle _]|[_ [(e & He & _)|[(_ & Ht' & _)|(_ & _ & E)]]]];
      [lia|congruence|congruence|].
    rewrite E. unfold _compress_image_heavy. rewrite Hkey. cbn [fst snd].
    split; [reflexivity|exact Hq].
  - intros Hor.
    destruct Hc as [[Hle [[_ E]|(e & written & Hraise & _)]]
                   |[Hsz [(e & _ & E)|[(_ & _ & E)|(Herr & Ht & _)]]]];
      try (rewrite E; eexists; reflexivity).
    + destruct Hor as [[_ Hdone]|[Hlt _]]; [congruence|lia].
    + destruct Hor as [[Hle _]|[_ [Hne|Ht']]]; [lia|congruence|congruence].
  - intros Hle e written Hraise.
    destruct Hc as [[_ [[Hdone _]|(e' & written' & Hraise' & E)]]|[Hsz _]];
      [congruence| |lia].
    rewrite E. cbn [fst]. congruence.
Qed.

(** X8: when the analysis fails, because the document does not open or the
    library raises while it is read, [compress] returns a failed result with
    the message of the analysis, without making a trial or writing at
    [output_path]. *)
Theorem failed_analysis_stops_compress (w : World) (e : string) :
  self_target_size < Py.size_of pdf_bytes ->
  analysis_error (fst (profile empty_world)) = Some e ->
  exists r,
    fst (run w) = Returns r
    /\ success r = false /\ error r = Some e
    /\ compressed_size r = Py.size_of pdf_bytes
    /\ quiet w (snd (run w)).
Proof.
  intros Hsz He.
  pose proof (compress_cases w) as Hc. cbv zeta in Hc.
  rewrite (analyze_profile (report CompressionStage.ANALYZING 0 w)) in Hc.
  destruct Hc as [[Hle _]|[_ [(e' & He' & E)|[(He' & _)|(He' & _)]]]];
    [lia| |congruence|congruence].
  rewrite E. cbn [fst snd]. eexists. split; [reflexivity|].
  cbn. rewrite (analyze_file_size empty_world).
  split; [reflexivity|]. split; [congruence|]. split; [reflexivity|].
  eapply quiet_trans; [apply quiet_report|apply quiet_analyze].
Qed.

(** The text-heavy pass makes no trial; what it saves is what it leaves at
    [output_path]. *)
Lemma text_heavy_world (a : AnalysisResult) (w : World) :
  attempts_of (journal (snd (text_heavy a w))) = attempts_of (journal w)
  /\ match text_outcome with
     | Saved content _ => output_file (snd (text_heavy a w)) = Some content
     | Raised _ (Some content) => output_file (snd (text_heavy a w)) = Some content
     | _ => output_file (snd (text_heavy a w)) = output_file w
     end.
Proof.
  unfold _compress_text_heavy.
  destruct (report_progress_advances self_progress_callback
              CompressionStage.OPTIMIZING_OBJECTS 30 (emit TextPass w)) as (A1 & _ & F1).
  set (w4 := report CompressionStage.OPTIMIZING_OBJECTS 30 (emit TextPass w)) in *.
  assert (A4 : attempts_of (journal w4) = attempts_of (journal w)).
  { rewrite A1. cbn [emit journal]. rewrite attempts_of_app. cbn [attempts_of].
    rewrite !app_nil_r. reflexivity. }
  cbn [emit output_file last_output] in F1.
  destruct text_outcome as [msg|msg written|content n]; cbn [snd].
  - split; [exact A4|exact F1].
  - destruct written; cbn [write_output emit journal output_file];
      rewrite attempts_of_app; cbn [attempts_of]; rewrite app_nil_r;
      (split; [exact A4|]); [reflexivity|exact F1].
  - destruct (report_progress_advances self_progress_callback
                CompressionStage.FINALIZING 100 (write_output content (emit Opened w4)))
      as (A5 & _ & F5).
    split.
    + cbn [emit journal]. rewrite attempts_of_app, A5.
      cbn [write_output emit journal attempts_of]. rewrite attempts_of_app.
      cbn [attempts_of]. rewrite !app_nil_r. exact A4.
    + cbn [emit output_file]. rewrite F5. reflexivity.
Qed.

(** X9: a text-heavy document gets one pass and no trial, whatever the
    tolerance: the result is built from the single save, with
    [images_processed = 0], and the saved file is the one left at
    [output_path]; when the save raises the result is a failure. *)
Theorem text_heavy_is_a_single_pass (w : World) :
  self_target_size < Py.size_of pdf_bytes ->
  analysis_error (fst (profile empty_world)) = None ->
  pdf_type (fst (profile empty_world)) = "text-heavy"%string ->
  attempts_of (journal (snd (run w))) = attempts_of (journal w)
  /\ match text_outcome with
     | Saved content _ =>
         fst (run w) = Returns (text_saved content (fst (profile empty_world)))
         /\ images_processed (text_saved content (fst (profile empty_world))) = 0
         /\ output_file (snd (run w)) = Some content
     | OpenRaised msg | Raised msg _ =>
         fst (run w) = Returns (failure (fst (profile empty_world)) msg)
     end.
Proof.
  intros Hsz Herr Ht.
  pose proof (compress_cases w) as Hc. cbv zeta in Hc.
  rewrite (analyze_profile (report CompressionStage.ANALYZING 0 w)) in Hc.
  destruct Hc as [[Hle _]|[_ [(e' & He' & _)|[(_ & _ & E)|(_ & Ht' & _)]]]];
    [lia|congruence| |congruence].
  rewrite E. cbn [fst snd]. rewrite text_heavy_returns.
  set (w3 := report CompressionStage.ANALYZING 100 _).
  assert (Hq : quiet w w3).
  { eapply quiet_trans; [apply quiet_report|].
    eapply quiet_trans; [apply quiet_analyze|apply quiet_report]. }
  destruct Hq as [Ha _].
  destruct (text_heavy_world (fst (profile empty_world)) w3) as [A F].
  rewrite A, Ha. split; [reflexivity|].
  destruct text_outcome as [msg|msg written|content n]; try reflexivity.
  split; [reflexivity|]. split; [reflexivity|exact F].
Qed.


(** The trials of the search are the first rungs of the search order. *)
Lemma image_heavy_made (a : AnalysisResult) (w : World) :
  exists made,
    attempts_of (journal (snd (image_heavy a w))) = attempts_of (journal w) ++ made
    /\ match tolerance_config self_tolerance with
       | Some config => exists rest, search_order config = made ++ rest
       | None => made = []
       end.
Proof.
  destruct (tolerance_config self_tolerance) as [config|] eqn:Ec.
  - rewrite (image_heavy_is_search _ _ _ _ _ _ _ _ Ec). cbn [snd].
    destruct (split_first_hit self_target_size settings_outcome (search_order config))
      as [Hmiss|(pre & p & post & Hsplit & Hpre & Hp)].
    + destruct (search_without_hit self_pdf_path self_target_size self_tolerance
                  self_progress_callback out_path settings_outcome a config Ec w Hmiss)
        as ((A & _) & _).
      exists (search_order config). split; [exact A|].
      exists []. rewrite app_nil_r. reflexivity.
    + destruct (search_with_hit self_pdf_path self_target_size self_tolerance
                  self_progress_callback out_path settings_outcome a config Ec w
                  pre p post Hsplit Hpre Hp)
        as (_ & _ & _ & _ & _ & (A & _)).
      exists (pre ++ [p]). split; [exact A|].
      exists post. rewrite <- app_assoc. exact Hsplit.
  - exists []. unfold _compress_image_heavy. rewrite Ec. cbn [snd].
    split; [rewrite app_nil_r; reflexivity|reflexivity].
Qed.

(** X5: every trial [compress] makes is at quality 95 or 85, strictly above
    the profile's [min_quality], at a dpi of the ladder that is not below the
    profile's [min_dpi]; there are at most [max_iterations] of them, and none
    at all under an unknown tolerance. *)
Theorem trials_stay_above_the_floors (w : World) :
  exists made,
    attempts_of (journal (snd (run w))) = attempts_of (journal w) ++ made
    /\ (tolerance_config self_tolerance = None -> made = [])
    /\ (forall config,
           tolerance_config self_tolerance = Some config ->
           Py.len made <= max_iterations config
           /\ forall q d, In (q, d) made ->
                          (q = 95 \/ q = 85) /\ min_quality config < q
                          /\ min_dpi config <= d <= 300).
Proof.
  assert (Hnone : forall w0, attempts_of (journal w0) = attempts_of (journal w) ->
            exists made,
              attempts_of (journal w0) = attempts_of (journal w) ++ made
              /\ (tolerance_config self_tolerance = None -> made = [])
              /\ (forall config,
                     tolerance_config self_tolerance = Some config ->
                     Py.len made <= max_iterations config
                     /\ forall q d, In (q, d) made ->
                                    (q = 95 \/ q = 85) /\ min_quality config < q
                                    /\ min_dpi config <= d <= 300)).
  { intros w0 H0. exists []. rewrite app_nil_r. split; [exact H0|].
    split; [reflexivity|]. intros config Hc.
    destruct (profile_budget _ _ Hc) as (Hmax & _). split; [exact Hmax|intros q d []]. }
  pose proof (compress_cases w) as Hc. cbv zeta in Hc.
  set (w2 := snd (profile (report CompressionStage.ANALYZING 0 w))) in *.
  set (w3 := report CompressionStage.ANALYZING 100 w2) in *.
  assert (Hq2 : quiet w w2).
  { eapply quiet_trans; [apply quiet_report|apply quiet_analyze]. }
  assert (Hq3 : quiet w w3).
  { eapply quiet_trans; [exact Hq2|apply quiet_report]. }
  destruct Hc as [[_ [[_ E]|(e & written & _ & E)]]
                 |[_ [(e & _ & E)|[(_ & _ & E)|(_ & _ & E)]]]]; rewrite E;
    cbn [snd].
  - apply Hnone. cbn [write_output emit journal]. rewrite attempts_of_app.
    apply app_nil_r.
  - apply Hnone. destruct written; cbn [write_output emit journal];
      rewrite attempts_of_app; apply app_nil_r.
  - apply Hnone. apply Hq2.
  - apply Hnone.
    destruct (text_heavy_world (fst (profile (report CompressionStage.ANALYZING 0 w))) w3)
      as [A _].
    rewrite A. apply Hq3.
  - destruct (image_heavy_made (fst (profile (report CompressionStage.ANALYZING 0 w))) w3)
      as (made & A & Hm).
    destruct Hq3 as [A3 _]. rewrite A3 in A.
    exists made. split; [exact A|].
    destruct (tolerance_config self_tolerance) as [config|] eqn:Ec.
    + split; [discriminate|]. intros config' [= <-].
      destruct Hm as (rest & Hrest).
      destruct (profile_budget _ _ Ec) as (_ & Hlen & _).
      split.
      * rewrite <- Hlen, Hrest, len_app. unfold Py.len. lia.
      * intros q d Hin. apply (search_order_members _ _ _ _ Ec).
        rewrite Hrest. apply in_or_app. left. exact Hin.
    + split; [intros _; exact Hm|discriminate].
Qed.

(** ** Progress reports *)

Lemma progress_of_app (a b : list Event) :
  progress_of (a ++ b) = progress_of a ++ progress_of b.
Proof.
  induction a as [|e a IH]; [reflexivity|].
  destruct e; cbn [app progress_of]; rewrite IH; reflexivity.
Qed.

Lemma reports_refl (w : World) : reports_in_range self_progress_callback w w.
Proof. exists []. rewrite app_nil_r. split; [reflexivity|split; [constructor|reflexivity]]. Qed.

Lemma reports_trans (w1 w2 w3 : World) :
  reports_in_range self_progress_callback w1 w2 ->
  reports_in_range self_progress_callback w2 w3 ->
  reports_in_range self_progress_callback w1 w3.
Proof.
  intros (p1 & E1 & R1 & N1) (p2 & E2 & R2 & N2). exists (p1 ++ p2).
  rewrite E2, E1, app_assoc. split; [reflexivity|]. split.
  - apply Forall_app. split; assumption.
  - intros H. rewrite (N1 H), (N2 H). reflexivity.
Qed.

Lemma reports_same (w w' : World) :
  progress_of (journal w') = progress_of (journal w) ->
  reports_in_range self_progress_callback w w'.
Proof.
  intros H. exists []. rewrite app_nil_r.
  split; [exact H|split; [constructor|reflexivity]].
Qed.

Lemma reports_report (stage : string) (pct : Z) (w : World) :
  0 <= pct <= 100 -> reports_in_range self_progress_callback w (report stage pct w).
Proof.
  intros Hp. unfold _report_progress. destruct self_progress_callback eqn:Ecb.
  - exists [(stage, pct)]. cbn [emit journal]. rewrite progress_of_app.
    split; [reflexivity|]. split; [constructor; [exact Hp|constructor]|discriminate].
  - exists []. rewrite app_nil_r. split; [reflexivity|split; [constructor|reflexivity]].
Qed.

Lemma reports_settings (q d : Z) (a : AnalysisResult) (w : World) :
  reports_in_range self_progress_callback w
    (snd (_compress_with_settings self_pdf_path self_target_size out_path
            settings_outcome q d a w)).
Proof.
  apply reports_same. unfold _compress_with_settings.
  destruct (settings_outcome q d) as [e|e [content|]|content n];
    cbn [snd emit write_output journal]; rewrite ?progress_of_app;
    cbn [progress_of]; rewrite ?app_nil_r; reflexivity.
Qed.

Lemma trial_percentage (i m : Z) :
  0 <= i -> 0 <= m ->
  0 <= Z.min 90 (Py.int (inject_Z i / inject_Z m * 90)) <= 100.
Proof.
  intros Hi Hm.
  assert (H0 : (0 <= inject_Z i / inject_Z m * 90)%Q).
  { apply Qmult_le_0_compat; [|discriminate].
    apply Qmult_le_0_compat; [unfold Qle; simpl; lia|].
    apply Qinv_le_0_compat. unfold Qle; simpl; lia. }
  rewrite (int_nonneg _ H0).
  pose proof (Qfloor_resp_le _ _ H0) as Hf. change (Qfloor 0) with 0 in Hf. lia.
Qed.

Lemma reports_trial (config : ToleranceConfig) (a : AnalysisResult) (q d : Z)
    (st : SearchState) :
  0 <= iteration st -> 0 <= max_iterations config ->
  match attempt self_pdf_path self_target_size self_progress_callback out_path
          settings_outcome config a q d st with
  | Continue st' => reports_in_range self_progress_callback (world st) (world st')
  | Return r w' => reports_in_range self_progress_callback (world st) w'
  end.
Proof.
  intros Hi Hm. unfold attempt.
  set (pct := Z.min 90 _).
  pose proof (reports_report CompressionStage.PROCESSING_IMAGES pct (world st)
                (trial_percentage _ _ Hi Hm)) as H1.
  set (w1 := report CompressionStage.PROCESSING_IMAGES pct (world st)) in *.
  pose proof (reports_settings q d a w1) as H2.
  destruct (_compress_with_settings _ _ _ _ q d a w1) as [result w2]. cbn [snd] in H2.
  pose proof (reports_trans _ _ _ H1 H2) as H12.
  destruct (success result); [|exact H12].
  destruct (compressed_size result <=? self_target_size).
  - eapply reports_trans; [exact H12|]. apply reports_report. lia.
  - destruct (compressed_size result <? best_size st); exact H12.
Qed.

Lemma reports_scan (config : ToleranceConfig) (a : AnalysisResult)
    (pairs : list (Z * Z)) :
  0 <= max_iterations config ->
  forall st : SearchState,
    0 <= iteration st ->
    match scan self_pdf_path self_target_size self_progress_callback out_path
            settings_outcome config a pairs st with
    | Continue st' => reports_in_range self_progress_callback (world st) (world st')
    | Return r w' => reports_in_range self_progress_callback (world st) w'
    end.
Proof.
  intros Hm. induction pairs as [|[q d] rest IH]; intros st Hi.
  - cbn [scan]. apply reports_refl.
  - cbn [scan].
    pose proof (reports_trial config a q d (count_iteration st)) as Ht.
    pose proof (trial_iteration self_pdf_path self_target_size self_progress_callback
                  out_path settings_outcome config a q d (count_iteration st)) as Hit.
    cbn [count_iteration iteration world] in Ht.
    specialize (Ht ltac:(lia) Hm).
    destruct (attempt _ _ _ _ _ _ _ q d (count_iteration st)) as [st1|r w1].
    + specialize (Hit st1 eq_refl). cbn [count_iteration iteration] in Hit.
      specialize (IH st1 ltac:(lia)).
      destruct (scan _ _ _ _ _ _ _ rest st1) as [st2|r w2];
        eapply reports_trans; eassumption.
    + exact Ht.
Qed.

Lemma reports_image_heavy (a : AnalysisResult) (w : World) :
  reports_in_range self_progress_callback w (snd (image_heavy a w)).
Proof.
  unfold _compress_image_heavy.
  destruct (tolerance_config self_tolerance) as [config|] eqn:Ec;
    [|apply reports_refl].
  destruct (profile_budget _ _ Ec) as (Hmax & _).
  pose proof (grid_search_flat self_pdf_path self_target_size self_progress_callback
                out_path settings_outcome config a w Hmax) as E.
  pose proof (reports_scan config a (search_order config) Hmax
                (mkSearchState 0 None (file_size a) w) ltac:(cbn; lia)) as Hs.
  destruct (grid_search _ _ _ _ _ _ _ w) as [r w']. cbn [snd].
  destruct (scan _ _ _ _ _ _ _ (search_order config) _) as [st|r1 w1].
  - cbn [world] in Hs.
    assert (Hw : w' = report CompressionStage.FINALIZING 100 (world st)).
    { destruct (best_result st); injection E as _ ->; reflexivity. }
    rewrite Hw. eapply reports_trans; [exact Hs|]. apply reports_report. lia.
  - injection E as _ ->. exact Hs.
Qed.

Lemma reports_text_heavy (a : AnalysisResult) (w : World) :
  reports_in_range self_progress_callback w (snd (text_heavy a w)).
Proof.
  unfold _compress_text_heavy.
  assert (H1 : reports_in_range self_progress_callback w
                 (report CompressionStage.OPTIMIZING_OBJECTS 30 (emit TextPass w))).
  { eapply reports_trans; [|apply reports_report; lia].
    apply reports_same. cbn [emit journal]. rewrite progress_of_app. apply app_nil_r. }
  set (w1 := report CompressionStage.OPTIMIZING_OBJECTS 30 (emit TextPass w)) in *.
  destruct text_outcome as [e|e [content|]|content n]; cbn [snd].
  - exact H1.
  - eapply reports_trans; [exact H1|]. apply reports_same.
    cbn [write_output emit journal]. rewrite progress_of_app. apply app_nil_r.
  - eapply reports_trans; [exact H1|]. apply reports_same.
    cbn [emit journal]. rewrite progress_of_app. apply app_nil_r.
  - eapply reports_trans; [exact H1|].
    apply reports_trans with (w2 := write_output content (emit Opened w1)).
    { apply reports_same. cbn [write_output emit journal].
      rewrite progress_of_app. apply app_nil_r. }
    apply reports_trans
      with (w2 := report CompressionStage.FINALIZING 100
                    (write_output content (emit Opened w1))).
    { apply reports_report. lia. }
    apply reports_same. cbn [emit journal]. rewrite progress_of_app. apply app_nil_r.
Qed.

(** X10: whatever happens, the progress callback is only handed
    percentages between 0 and 100, and without a callback [compress] reports
    nothing. *)
Theorem progress_stays_in_range (w : World) :
  exists reports,
    progress_of (journal (snd (run w))) = progress_of (journal w) ++ reports
    /\ (forall stage percentage, In (stage, percentage) reports ->
                                 0 <= percentage <= 100)
    /\ (self_progress_callback = false -> reports = []).
Proof.
  assert (H : reports_in_range self_progress_callback w (snd (run w))).
  { pose proof (compress_cases w) as Hc. cbv zeta in Hc.
    set (w1 := report CompressionStage.ANALYZING 0 w) in *.
    assert (H1 : reports_in_range self_progress_callback w w1)
      by (apply reports_report; lia).
    assert (H2 : reports_in_range self_progress_callback w (snd (profile w1))).
    { eapply reports_trans; [exact H1|]. apply reports_same.
      destruct (analyze_world w1) as [_ [J|J]]; rewrite J, progress_of_app;
        apply app_nil_r. }
    set (w2 := snd (profile w1)) in *.
    assert (H3 : reports_in_range self_progress_callback w
                   (report CompressionStage.ANALYZING 100 w2)).
    { eapply reports_trans; [exact H2|]. apply reports_report. lia. }
    destruct Hc as [[_ [[_ E]|(e & written & _ & E)]]
                   |[_ [(e & _ & E)|[(_ & _ & E)|(_ & _ & E)]]]]; rewrite E;
      cbn [snd].
    - apply reports_same. cbn [write_output emit journal].
      rewrite progress_of_app. apply app_nil_r.
    - apply reports_same. destruct written; cbn [write_output emit journal];
        rewrite progress_of_app; apply app_nil_r.
    - exact H2.
    - eapply reports_trans; [exact H3|apply reports_text_heavy].
    - eapply reports_trans; [exact H3|apply reports_image_heavy]. }
  destruct H as (ps & E & R & N). exists ps. split; [exact E|]. split; [|exact N].
  intros stage pct Hin. rewrite Forall_forall in R. exact (R _ Hin).
Qed.

End CompressCases.

(** ** The images of a profile *)

Lemma sum_sizes_app (a b : list ImageInfo) : sum_sizes (a ++ b) = sum_sizes a + sum_sizes b.
Proof.
  unfold sum_sizes. induction a as [|x a IH]; cbn [app map fold_right]; lia.
Qed.

Lemma existsb_eqb_in (x : Z) (xs : list Z) : existsb (Z.eqb x) xs = true <-> In x xs.
Proof.
  rewrite existsb_exists. split.
  - intros (y & Hin & E). apply Z.eqb_eq in E. subst. exact Hin.
  - intros H. exists x. split; [exact H|apply Z.eqb_refl].
Qed.

Section AnalyzeImages.

Variable self_pdf_path : string.
Variable pdf_bytes : list byte.
Variable doc : Document.

Lemma analyze_image_step (page_num last_page : Z) (acc : list ImageInfo * Z * list Z)
    (img : PageImage) :
  1 <= page_num + 1 <= last_page ->
  images_invariant doc last_page acc ->
  images_invariant doc last_page (analyze_image doc page_num acc img)
  /\ In (img_xref img) (seen_of (analyze_image doc page_num acc img))
  /\ (forall x, In x (seen_of acc) -> In x (seen_of (analyze_image doc page_num acc img))).
Proof.
  intros Hpage. destruct acc as [[images total] seen]. unfold images_invariant, seen_of.
  intros (Hnd & Htot & Hsound & Hcomplete). unfold analyze_image.
  destruct (existsb (Z.eqb (img_xref img)) seen) eqn:Eseen.
  { apply existsb_eqb_in in Eseen. cbn [snd].
    split; [split; [exact Hnd|split; [exact Htot|split; assumption]]|].
    split; [exact Eseen|intros x Hx; exact Hx]. }
  assert (Hnew : ~ In (img_xref img) seen).
  { intros Hin. apply existsb_eqb_in in Hin. congruence. }
  destruct (doc_extract_image doc (img_xref img)) as [| |base_image] eqn:Ex; cbn [snd].
  - split; [|split; [left; reflexivity|intros x Hx; right; exact Hx]].
    split; [exact Hnd|split; [exact Htot|split]].
    + intros info Hin. destruct (Hsound info Hin) as (Hs & Hp & Hb).
      split; [right; exact Hs|split; assumption].
    + intros x b [<-|Hx] Hb; [congruence|exact (Hcomplete x b Hx Hb)].
  - split; [|split; [left; reflexivity|intros x Hx; right; exact Hx]].
    split; [exact Hnd|split; [exact Htot|split]].
    + intros info Hin. destruct (Hsound info Hin) as (Hs & Hp & Hb).
      split; [right; exact Hs|split; assumption].
    + intros x b [<-|Hx] Hb; [congruence|exact (Hcomplete x b Hx Hb)].
  - split; [|split; [left; reflexivity|intros x Hx; right; exact Hx]].
    split; [|split; [|split]].
    + rewrite map_app. cbn [map xref].
      apply NoDup_app; [exact Hnd|constructor; [intros []|constructor]|].
      intros x Hx. apply in_map_iff in Hx. destruct Hx as (info & <- & Hin).
      intros [E|[]]. apply Hnew. rewrite E. apply (Hsound info Hin).
    + rewrite sum_sizes_app, Htot. unfold sum_sizes. cbn [map fold_right size_bytes]. lia.
    + intros info Hin. apply in_app_or in Hin. destruct Hin as [Hin|[<-|[]]].
      * destruct (Hsound info Hin) as (Hs & Hp & Hb).
        split; [right; exact Hs|split; assumption].
      * cbn [xref page_number size_bytes].
        split; [left; reflexivity|split; [exact Hpage|]].
        exists base_image. split; [exact Ex|reflexivity].
    + intros x b [<-|Hx] Hb.
      * eexists. split; [apply in_or_app; right; left; reflexivity|reflexivity].
      * destruct (Hcomplete x b Hx Hb) as (info & Hin & E).
        exists info. split; [apply in_or_app; left; exact Hin|exact E].
Qed.

Lemma analyze_page_images (page_num last_page : Z) (imgs : list PageImage) :
  1 <= page_num + 1 <= last_page ->
  forall acc,
    images_invariant doc last_page acc ->
    images_invariant doc last_page (fold_left (analyze_image doc page_num) imgs acc)
    /\ (forall img, In img imgs ->
          In (img_xref img) (seen_of (fold_left (analyze_image doc page_num) imgs acc)))
    /\ (forall x, In x (seen_of acc) ->
          In x (seen_of (fold_left (analyze_image doc page_num) imgs acc))).
Proof.
  intros Hpage. induction imgs as [|img rest IH]; intros acc Hinv.
  - cbn [fold_left]. split; [exact Hinv|split; [intros img []|intros x Hx; exact Hx]].
  - cbn [fold_left].
    destruct (analyze_image_step page_num last_page acc img Hpage Hinv) as (H1 & H2 & H3).
    destruct (IH _ H1) as (I1 & I2 & I3).
    split; [exact I1|split].
    + intros img' [<-|Hin]; [apply I3, H2|apply I2, Hin].
    + intros x Hx. apply I3, H3, Hx.
Qed.

Lemma analyze_pages_invariant (pages : list Page) :
  forall (page_num last_page : Z) acc,
    0 <= page_num -> page_num + Py.len pages <= last_page ->
    images_invariant doc last_page acc ->
    images_invariant doc last_page (analyze_pages doc page_num pages acc)
    /\ (forall page img, In page pages -> In img (page_images page) ->
          In (img_xref img) (seen_of (analyze_pages doc page_num pages acc)))
    /\ (forall x, In x (seen_of acc) ->
          In x (seen_of (analyze_pages doc page_num pages acc))).
Proof.
  induction pages as [|page rest IH]; intros page_num last_page acc Hp Hlast Hinv.
  - cbn [analyze_pages]. split; [exact Hinv|split; [intros page img []|intros x Hx; exact Hx]].
  - cbn [analyze_pages]. rewrite len_cons in Hlast.
    assert (Hrest : 0 <= Py.len rest) by (unfold Py.len; lia).
    destruct (analyze_page_images page_num last_page (page_images page)
                ltac:(lia) acc Hinv) as (H1 & H2 & H3).
    destruct (IH (page_num + 1) last_page _ ltac:(lia) ltac:(lia) H1) as (I1 & I2 & I3).
    split; [exact I1|split].
    + intros page' img [<-|Hin] Himg; [apply I3, H2, Himg|exact (I2 page' img Hin Himg)].
    + intros x Hx. apply I3, H3, Hx.
Qed.

(** What [_analyze_images] returns. *)
Lemma analyze_images_spec :
  let images := fst (_analyze_images doc) in
  let total_bytes := snd (_analyze_images doc) in
  NoDup (map xref images)
  /\ total_bytes = sum_sizes images
  /\ (forall info, In info images ->
        1 <= page_number info <= Py.len (doc_pages doc)
        /\ exists base_image,
             doc_extract_image doc (xref info) = Extracted base_image
             /\ size_bytes info = Py.len (bi_image base_image))
  /\ (forall page img base_image,
        In page (doc_pages doc) -> In img (page_images page) ->
        doc_extract_image doc (img_xref img) = Extracted base_image ->
        exists info, In info images /\ xref info = img_xref img).
Proof.
  cbv zeta. unfold _analyze_images.
  assert (H0 : images_invariant doc (Py.len (doc_pages doc)) ([], 0, [])).
  { unfold images_invariant. split; [constructor|]. split; [reflexivity|].
    split; [intros info []|intros x b []]. }
  destruct (analyze_pages_invariant (doc_pages doc) 0 (Py.len (doc_pages doc)) _
              ltac:(lia) ltac:(lia) H0) as (H1 & H2 & _).
  destruct (analyze_pages doc 0 (doc_pages doc) ([], 0, [])) as [[images total] seen].
  unfold images_invariant, seen_of in *. cbn [fst snd] in *.
  destruct H1 as (Hnd & Htot & Hsound & Hcomplete).
  split; [exact Hnd|split; [exact Htot|split]].
  - intros info Hin. destruct (Hsound info Hin) as (_ & Hp & Hb). split; assumption.
  - intros page img b Hpage Himg Hb. exact (Hcomplete _ b (H2 page img Hpage Himg) Hb).
Qed.

End AnalyzeImages.

(** ** The profile of a document that opens *)

Section AnalyzeFacts.

Variable self_pdf_path : string.
Variable pdf_bytes : list byte.
Variable open_for_analysis : string + Document.

Local Abbreviation profile := (analyze self_pdf_path pdf_bytes open_for_analysis).

Lemma analyze_success (doc : Document) (w : World) :
  open_for_analysis = inr doc -> doc_fault doc = None ->
  let a := fst (profile w) in
  images a = fst (_analyze_images doc)
  /\ total_image_bytes a = snd (_analyze_images doc)
  /\ image_count a = Py.len (images a)
  /\ page_count a = Py.len (doc_pages doc)
  /\ analysis_error a = None.
Proof.
  intros Ho Hf. cbv zeta. unfold analyze. rewrite Ho, Hf.
  destruct (_analyze_images doc) as [imgs total].
  destruct (Analyzer._estimate_compression _ _ _ _ _) as [est_min est_max].
  cbn. repeat split.
Qed.

Lemma analyze_opened (w : World) :
  analysis_error (fst (profile w)) = None ->
  exists doc, open_for_analysis = inr doc /\ doc_fault doc = None.
Proof.
  unfold analyze. destruct open_for_analysis as [e|doc]; [discriminate|].
  destruct (doc_fault doc) as [e|] eqn:Ef; [discriminate|].
  intros _. exists doc. split; [reflexivity|exact Ef].
Qed.

(** The image share of a profile and its type. *)
Lemma analyze_type (w : World) :
  let a := fst (profile w) in
  0 <= total_image_bytes a
  /\ (analysis_error a = None ->
      image_percentage a
      = (if 0 <? file_size a
         then (inject_Z (total_image_bytes a) / inject_Z (file_size a) * 100)%Q
         else 0%Q)
      /\ pdf_type a
         = Analyzer._determine_pdf_type (image_percentage a) (has_text a)
             (text_character_count a) (page_count a))
  /\ (analysis_error a <> None -> pdf_type a = "mixed"%string /\ total_image_bytes a = 0).
Proof.
  cbv zeta. unfold analyze. destruct open_for_analysis as [e|doc].
  { cbn. split; [lia|]. split; [discriminate|]. intros _. split; reflexivity. }
  destruct (doc_fault doc) as [e|].
  { cbn. split; [lia|]. split; [discriminate|]. intros _. split; reflexivity. }
  destruct (analyze_images_spec doc) as (_ & Htot & Hsound & _).
  destruct (_analyze_images doc) as [imgs total]. cbn [fst snd] in *.
  destruct (Analyzer._estimate_compression _ _ _ _ _) as [est_min est_max].
  cbn. split.
  - rewrite Htot. clear Htot. induction imgs as [|info rest IH]; [cbn; lia|].
    unfold sum_sizes in *. cbn [map fold_right].
    destruct (Hsound info (or_introl eq_refl)) as (_ & b & _ & Hs).
    specialize (IH (fun i Hi => Hsound i (or_intror Hi))).
    rewrite Hs. unfold Py.len. lia.
  - split; [intros _; split; reflexivity|]. intros H. congruence.
Qed.

Lemma percentage_above_70 (total fs : Z) :
  0 < fs ->
  (70 < inject_Z total / inject_Z fs * 100)%Q <-> 7 * fs < 10 * total.
Proof.
  intros Hfs. destruct fs as [|p|p]; try lia.
  unfold Qlt, Qdiv, Qmult, Qinv, inject_Z. cbn [Qnum Qden]. lia.
Qed.

(** X11: a successful analysis lists each image object once.  The [xref]s
    of [images] are pairwise distinct, whatever the number of pages that show
    the same image; every image of a page that the library can extract is
    listed; [image_count] is the length of the list and [total_image_bytes]
    the sum of the listed sizes; and each entry carries the number of a page
    of the document and the size of the extracted data. *)
Theorem images_are_listed_once (doc : Document) (w : World) :
  open_for_analysis = inr doc -> doc_fault doc = None ->
  let a := fst (profile w) in
  NoDup (map xref (images a))
  /\ image_count a = Py.len (images a)
  /\ total_image_bytes a = sum_sizes (images a)
  /\ (forall info, In info (images a) ->
        1 <= page_number info <= page_count a
        /\ exists base_image,
             doc_extract_image doc (xref info) = Extracted base_image
             /\ size_bytes info = Py.len (bi_image base_image))
  /\ (forall page img base_image,
        In page (doc_pages doc) -> In img (page_images page) ->
        doc_extract_image doc (img_xref img) = Extracted base_image ->
        exists info, In info (images a) /\ xref info = img_xref img).
Proof.
  intros Ho Hf. cbv zeta.
  destruct (analyze_success doc w Ho Hf) as (Hi & Ht & Hc & Hp & _).
  destruct (analyze_images_spec doc) as (Hnd & Htot & Hsound & Hcomplete).
  rewrite Hi, Ht, Hp. rewrite Hi in Hc.
  split; [exact Hnd|]. split; [exact Hc|]. split; [exact Htot|].
  split; [exact Hsound|exact Hcomplete].
Qed.

(** X12: a profile is image-heavy exactly when the listed image bytes are
    more than seven tenths of the file: [10 * total_image_bytes > 7 *
    file_size]; so a document without an extractable image, an empty file and
    a failed analysis are never image-heavy. *)
Theorem image_heavy_in_bytes (w : World) :
  let a := fst (profile w) in
  (pdf_type a = "image-heavy"%string
   <-> 0 < file_size a /\ 7 * file_size a < 10 * total_image_bytes a)
  /\ (pdf_type a = "image-heavy"%string ->
      1 <= image_count a /\ analysis_error a = None).
Proof.
  cbv zeta.
  destruct (analyze_type w) as (Hnonneg & Hok & Herr).
  assert (Hiff : pdf_type (fst (profile w)) = "image-heavy"%string
                 <-> 0 < file_size (fst (profile w))
                     /\ 7 * file_size (fst (profile w))
                        < 10 * total_image_bytes (fst (profile w))).
  { destruct (analysis_error (fst (profile w))) as [e|] eqn:Ee.
    - destruct (Herr ltac:(discriminate)) as [Hm H0]. rewrite Hm, H0.
      split; [discriminate|]. lia.
    - destruct (Hok eq_refl) as [Hip Hty]. rewrite Hty, Hip.
      unfold Analyzer._determine_pdf_type. cbv zeta.
      destruct (0 <? file_size (fst (profile w))) eqn:Efs.
      + apply Z.ltb_lt in Efs.
        destruct (Py.Qlt_bool 70 _) eqn:E70.
        * apply Qlt_bool_iff, percentage_above_70 in E70; [|exact Efs].
          split; [intros _; split; assumption|reflexivity].
        * split.
          -- destruct (Py.Qlt_bool _ 20 && _)%bool; discriminate.
          -- intros [_ H]. apply percentage_above_70, Qlt_bool_iff in H; [|exact Efs].
             congruence.
      + apply Z.ltb_ge in Efs.
        change (Py.Qlt_bool 70 0) with false.
        split; [destruct (Py.Qlt_bool _ 20 && _)%bool; discriminate|lia]. }
  split; [exact Hiff|]. intros Hh.
  destruct (proj1 Hiff Hh) as [Hfs Hlt].
  destruct (analysis_error (fst (profile w))) as [e|] eqn:Ee.
  { destruct (Herr ltac:(discriminate)) as [Hm _]. congruence. }
  split; [|reflexivity].
  destruct (analyze_opened w Ee) as (doc & Ho & Hf).
  destruct (analyze_success doc w Ho Hf) as (Hi & Ht & Hc & _).
  destruct (analyze_images_spec doc) as (_ & Htot & _).
  rewrite Hc. rewrite Ht, Htot, <- Hi in Hlt.
  destruct (images (fst (profile w))) as [|info rest].
  - unfold sum_sizes in Hlt. cbn [map fold_right] in Hlt. lia.
  - rewrite len_cons. unfold Py.len. lia.
Qed.

End AnalyzeFacts.

(** ** The bound estimator and the fonts *)

Lemma int_le_whole (x : Q) (n : Z) : (0 <= x)%Q -> (x <= inject_Z n)%Q -> 0 <= Py.int x <= n.
Proof.
  intros H0 Hn. rewrite (int_nonneg x H0).
  pose proof (Qfloor_resp_le _ _ H0) as Hlo. change (Qfloor 0) with 0 in Hlo.
  pose proof (Qfloor_resp_le _ _ Hn) as Hhi. rewrite Qfloor_Z in Hhi. lia.
Qed.

(** X13: for a file size that is not negative and an image share between 0
    and 100, both estimates lie between 0 and the size of the file, the
    minimum not above the maximum: the estimator never predicts growth. *)
Theorem estimates_stay_within_the_file
    (file_size : Z) (image_percentage : Q) (images : list ImageInfo)
    (has_text has_embedded_fonts : bool) :
  0 <= file_size -> (0 <= image_percentage <= 100)%Q ->
  let bounds :=
    Analyzer._estimate_compression file_size image_percentage images
      has_text has_embedded_fonts in
  0 <= fst bounds /\ fst bounds <= snd bounds /\ snd bounds <= file_size.
Proof.
  intros Hfs [H0 H100]. cbv zeta. unfold Analyzer._estimate_compression.
  destruct (Analyzer.image_reduction_factors images) as [rmin rmax] eqn:Ef.
  cbn [fst snd].
  assert (Hq : (0 <= inject_Z file_size)%Q) by (unfold Qle; simpl; lia).
  set (f := (image_percentage / 100)%Q).
  assert (Hf : (0 <= f <= 1)%Q).
  { unfold f. split.
    - apply Qle_shift_div_l; [reflexivity|]. lra.
    - apply Qle_shift_div_r; [reflexivity|]. lra. }
  destruct Hf as [Hf0 Hf1].
  assert (Htenth : 0 <= Py.int (inject_Z file_size * (1 # 10)) <= file_size).
  { apply int_le_whole; nra. }
  assert (Hmin : 0 <= Py.int (inject_Z file_size * f * rmin
                              + inject_Z file_size * (1 - f)
                                * (if has_embedded_fonts
                                   then (8 # 10) * (9 # 10) else 8 # 10))
                 <= file_size).
  { apply int_le_whole;
      destruct (image_reduction_factors_cases images) as [E|[E|E]];
      rewrite E in Ef; injection Ef as <- <-;
      destruct has_embedded_fonts; nra. }
  assert (Hmax : 0 <= Py.int (inject_Z file_size * f * rmax
                              + inject_Z file_size * (1 - f)
                                * (if has_embedded_fonts
                                   then (95 # 100) * (95 # 100) else 95 # 100))
                 <= file_size).
  { apply int_le_whole;
      destruct (image_reduction_factors_cases images) as [E|[E|E]];
      rewrite E in Ef; injection Ef as <- <-;
      destruct has_embedded_fonts; nra. }
  lia.
Qed.

Lemma estimates_stay_within_the_file_witness :
  let bounds := Analyzer._estimate_compression 1000 85 five_jpeg true true in
  0 <= fst bounds /\ fst bounds <= snd bounds /\ snd bounds <= 1000.
Proof.
  apply (estimates_stay_within_the_file 1000 85 five_jpeg true true).
  - lia.
  - split; discriminate.
Defined.

(** X14: [_check_embedded_fonts] answers [True] exactly when some page
    reports a font and every page before it answered without raising and
    without a font: a page whose font query raises ends the scan with
    [False], whatever the later pages hold. *)
Theorem fonts_found_before_any_failure (pdf_doc : Document) :
  _check_embedded_fonts pdf_doc = true
  <-> exists before page after,
        doc_pages pdf_doc = before ++ page :: after
        /\ page_fonts page = Some true
        /\ forall p, In p before -> page_fonts p = Some false.
Proof.
  unfold _check_embedded_fonts. generalize (doc_pages pdf_doc). intros pages.
  induction pages as [|page rest IH]; cbn [check_fonts].
  - split; [discriminate|]. intros (b & p & a & E & _). destruct b; discriminate E.
  - destruct (page_fonts page) as [[|]|] eqn:Ep.
    + split; [|reflexivity]. intros _. exists [], page, rest.
      split; [reflexivity|split; [exact Ep|intros p []]].
    + rewrite IH. split.
      * intros (b & p & a & E & Hp & Hb). exists (page :: b), p, a.
        split; [rewrite E; reflexivity|split; [exact Hp|]].
        intros p' [<-|Hin]; [exact Ep|exact (Hb p' Hin)].
      * intros (b & p & a & E & Hp & Hb). destruct b as [|p0 b].
        -- injection E as -> _. congruence.
        -- injection E as -> E. exists b, p, a.
           split; [exact E|split; [exact Hp|]]. intros p' Hin. apply Hb. right. exact Hin.
    + split; [discriminate|]. intros (b & p & a & E & Hp & Hb). destruct b as [|p0 b].
      * injection E as -> _. congruence.
      * injection E as E1 _. specialize (Hb p0 (or_introl eq_refl)). congruence.
Qed.

(** ** utils.py: the ratio and the quality label *)

Lemma Qlt_bool_ratio (num : Z) (den : positive) (c o : Z) :
  0 < o ->
  Py.Qlt_bool (num # den) (inject_Z c / inject_Z o) = true <-> num * o < c * Z.pos den.
Proof.
  intros Ho. destruct o as [|p|p]; try lia.
  rewrite Qlt_bool_iff, Qlt_ratio. cbn [Qnum Qden]. reflexivity.
Qed.

(** X15: for an original that is not empty, the sign of
    [calculate_compression_ratio] tells how the sizes compare: it is positive
    exactly when the output is smaller, 0 when the sizes are equal and
    negative when the output grew, and never above 1 for a size that is not
    negative; for an empty original it is 0. *)
Theorem ratio_sign_follows_the_sizes (original_size compressed_size : Z) :
  let ratio := Utils.calculate_compression_ratio original_size compressed_size in
  (original_size = 0 -> ratio = 0%Q)
  /\ (0 < original_size ->
      ((0 < ratio)%Q <-> compressed_size < original_size)
      /\ ((ratio == 0)%Q <-> compressed_size = original_size)
      /\ ((ratio < 0)%Q <-> original_size < compressed_size)
      /\ ((ratio <= 1)%Q <-> 0 <= compressed_size)).
Proof.
  cbv zeta. unfold Utils.calculate_compression_ratio. split.
  - intros ->. reflexivity.
  - intros Ho. destruct (original_size =? 0) eqn:E; [apply Z.eqb_eq in E; lia|].
    destruct original_size as [|p|p]; try lia.
    unfold Qlt, Qle, Qeq, Qminus, Qplus, Qopp, Qdiv, Qmult, Qinv, inject_Z.
    cbn [Qnum Qden]. repeat split; intros H; nia.
Qed.

Lemma ratio_sign_follows_the_sizes_witness :
  (0 < Utils.calculate_compression_ratio 1000 700)%Q
  /\ (Utils.calculate_compression_ratio 1000 1200 < 0)%Q.
Proof.
  split.
  - apply (proj1 (proj2 (ratio_sign_follows_the_sizes 1000 700) ltac:(lia))). lia.
  - apply (proj1 (proj2 (proj2 (proj2 (ratio_sign_follows_the_sizes 1000 1200)
                                         ltac:(lia))))). lia.
Defined.

Lemma quality_label_cases (o c : Z) (ip : Q) (level : Z) :
  0 < o ->
  let label := Utils.estimate_quality_score o c ip level in
  (7 * o < 10 * c /\ label = "Excellent"%string)
  \/ (5 * o < 10 * c <= 7 * o /\ label = "Good"%string)
  \/ (3 * o < 10 * c <= 5 * o /\ label = "Fair"%string)
  \/ (10 * c <= 3 * o
      /\ (label = "Acceptable"%string \/ label = "Reduced"%string)).
Proof.
  intros Ho. cbv zeta. unfold Utils.estimate_quality_score. cbv zeta.
  destruct (0 <? o) eqn:E; [|apply Z.ltb_ge in E; lia].
  pose proof (Qlt_bool_ratio 7 10 c o Ho) as H7.
  pose proof (Qlt_bool_ratio 5 10 c o Ho) as H5.
  pose proof (Qlt_bool_ratio 3 10 c o Ho) as H3.
  destruct (Py.Qlt_bool (7 # 10) _) eqn:E7.
  { left. split; [pose proof (proj1 H7 eq_refl); lia|reflexivity]. }
  assert (N7 : 10 * c <= 7 * o).
  { destruct (Z.le_gt_cases (10 * c) (7 * o)) as [L|G]; [exact L|].
    assert (X : false = true) by (apply H7; lia). discriminate X. }
  clear H7. destruct (Py.Qlt_bool (5 # 10) _) eqn:E5.
  { right; left. split; [pose proof (proj1 H5 eq_refl); lia|reflexivity]. }
  assert (N5 : 10 * c <= 5 * o).
  { destruct (Z.le_gt_cases (10 * c) (5 * o)) as [L|G]; [exact L|].
    assert (X : false = true) by (apply H5; lia). discriminate X. }
  clear H5. destruct (Py.Qlt_bool (3 # 10) _) eqn:E3.
  { right; right; left. split; [pose proof (proj1 H3 eq_refl); lia|reflexivity]. }
  assert (N3 : 10 * c <= 3 * o).
  { destruct (Z.le_gt_cases (10 * c) (3 * o)) as [L|G]; [exact L|].
    assert (X : false = true) by (apply H3; lia). discriminate X. }
  right; right; right. split; [exact N3|].
  destruct (Py.Qlt_bool 70 ip && (level <? 50))%bool; [left|right]; reflexivity.
Qed.

(** X16: the label of [estimate_quality_score] only gets better with the
    size kept: for the same original, image share and level, a larger
    compressed size never gets a lower label in the order  Excellent > Good >
    Fair > Acceptable, Reduced; the steps are at 70%, 50% and 30% of the
    original size. *)
Theorem quality_label_is_monotone (original_size c1 c2 : Z) (image_percentage : Q)
    (compression_level : Z) :
  0 < original_size -> c1 <= c2 ->
  quality_rank (Utils.estimate_quality_score original_size c1 image_percentage
                  compression_level)
  <= quality_rank (Utils.estimate_quality_score original_size c2 image_percentage
                     compression_level)
  /\ (Utils.estimate_quality_score original_size c1 image_percentage compression_level
      = "Excellent"%string <-> 7 * original_size < 10 * c1).
Proof.
  intros Ho Hc.
  pose proof (quality_label_cases original_size c1 image_percentage compression_level Ho)
    as H1.
  pose proof (quality_label_cases original_size c2 image_percentage compression_level Ho)
    as H2.
  cbv zeta in H1, H2. split.
  - destruct H1 as [[A1 ->]|[[A1 ->]|[[A1 ->]|[A1 [-> | ->]]]]];
      destruct H2 as [[A2 ->]|[[A2 ->]|[[A2 ->]|[A2 [-> | ->]]]]];
      cbn; lia.
  - destruct H1 as [[A1 ->]|[[A1 ->]|[[A1 ->]|[A1 [-> | ->]]]]];
      (split; [intros E; try discriminate E; lia|intros L; try reflexivity; lia]).
Qed.

Lemma quality_label_is_monotone_witness :
  quality_rank (Utils.estimate_quality_score 1000 400 80 45)
  <= quality_rank (Utils.estimate_quality_score 1000 800 80 45).
Proof.
  apply (proj1 (quality_label_is_monotone 1000 400 800 80 45 ltac:(lia) ltac:(lia))).
Defined.

(** ** The further properties on concrete runs *)

Lemma target_achieved_means_within_target_witness :
  exists r w',
    compress "in.pdf"%string (blank 10) 6 "balanced"%string true "out.pdf"%string CopyDone (inr illustrated_document)
      (Saved (blank 4) 0) five_bytes empty_world = (Returns r, w')
    /\ target_achieved r = (compressed_size r <=? target_size r)
    /\ target_size r = 6
    /\ original_size r = Py.size_of (blank 10).
Proof.
  eexists. eexists. split; [vm_compute; reflexivity|].
  eapply (target_achieved_means_within_target "in.pdf"%string (blank 10) 6 "balanced"%string true
            "out.pdf"%string CopyDone (inr illustrated_document) (Saved (blank 4) 0) five_bytes
            empty_world).
  vm_compute. reflexivity.
Defined.

Lemma failure_carries_the_error_witness :
  exists r w',
    compress "in.pdf"%string (blank 10) 6 "balanced"%string true "out.pdf"%string CopyDone (inl "no such file"%string)
      (Saved (blank 4) 0) five_bytes empty_world = (Returns r, w')
    /\ (success r = true <-> error r = None)
    /\ (success r = false ->
        compressed_size r = original_size r
        /\ compression_ratio r = 0%Q
        /\ pages_processed r = 0 /\ images_processed r = 0
        /\ quality_estimate r = "N/A"%string
        /\ target_achieved r = false).
Proof.
  eexists. eexists. split; [vm_compute; reflexivity|].
  eapply (failure_carries_the_error "in.pdf"%string (blank 10) 6 "balanced"%string true
            "out.pdf"%string CopyDone (inl "no such file"%string) (Saved (blank 4) 0) five_bytes empty_world).
  vm_compute. reflexivity.
Defined.

Lemma ratio_matches_the_sizes_witness :
  exists r w',
    compress "in.pdf"%string (blank 10) 6 "balanced"%string true "out.pdf"%string CopyDone (inr illustrated_document)
      (Saved (blank 4) 0) five_bytes empty_world = (Returns r, w')
    /\ (compression_ratio r
        == Utils.calculate_compression_ratio (original_size r) (compressed_size r))%Q.
Proof.
  eexists. eexists. split; [vm_compute; reflexivity|].
  eapply (ratio_matches_the_sizes "in.pdf"%string (blank 10) 6 "balanced"%string true
            "out.pdf"%string CopyDone (inr illustrated_document) (Saved (blank 4) 0) five_bytes
            empty_world).
  vm_compute. reflexivity.
Defined.

Lemma search_success_is_smaller_witness :
  exists r w',
    compress "in.pdf"%string (blank 1000) 600 "balanced"%string false "out.pdf"%string CopyDone (inr small_document)
      (Saved (blank 400) 0) first_is_smallest empty_world = (Returns r, w')
    /\ compressed_size r < original_size r.
Proof.
  eexists. eexists. split; [vm_compute; reflexivity|].
  destruct (search_success_is_smaller "in.pdf"%string (blank 1000) 600 "balanced"%string false
              "out.pdf"%string CopyDone (inr small_document) (Saved (blank 400) 0) first_is_smallest
              empty_world _ _ ltac:(vm_compute; reflexivity) ltac:(reflexivity)
              ltac:(vm_compute; discriminate)) as [[H _]|[_ H]].
  - vm_compute in H. exfalso. apply H. reflexivity.
  - exact H.
Defined.

(** The text-heavy pass is the exception: it returns [success = True] also
    for a save that is larger than the input. *)
Example text_heavy_success_may_grow :
  exists r w',
    compress "in.pdf"%string (blank 10) 6 "balanced"%string false "out.pdf"%string CopyDone (inr wordy_document)
      (Saved (blank 12) 0) five_bytes empty_world = (Returns r, w')
    /\ success r = true /\ original_size r < compressed_size r.
Proof. eexists. eexists. split; [vm_compute; reflexivity|]. split; reflexivity. Qed.

Lemma trials_stay_above_the_floors_witness :
  exists made,
    attempts_of (journal (snd (compress "in.pdf"%string (blank 1000) 600 "balanced"%string false
                                 "out.pdf"%string CopyDone (inr small_document) (Saved (blank 400) 0)
                                 nothing_gained empty_world)))
    = made
    /\ Py.len made <= 6
    /\ forall q d, In (q, d) made -> (q = 95 \/ q = 85) /\ 45 < q /\ 100 <= d <= 300.
Proof.
  destruct (trials_stay_above_the_floors "in.pdf"%string (blank 1000) 600 "balanced"%string false
              "out.pdf"%string CopyDone (inr small_document) (Saved (blank 400) 0) nothing_gained
              empty_world) as (made & A & _ & H).
  exists made. split; [exact A|]. exact (H balanced_config eq_refl).
Defined.

Lemma acceptable_is_never_reported_witness :
  exists r w',
    compress "in.pdf"%string (blank 1000) 600 "strict"%string false "out.pdf"%string CopyDone (inr small_document)
      (Saved (blank 400) 0) first_is_smallest empty_world = (Returns r, w')
    /\ quality_estimate r <> "Acceptable"%string.
Proof.
  eexists. eexists. split; [vm_compute; reflexivity|].
  eapply (acceptable_is_never_reported "in.pdf"%string (blank 1000) 600 "strict"%string false
            "out.pdf"%string CopyDone (inr small_document) (Saved (blank 400) 0) first_is_smallest
            empty_world).
  vm_compute. reflexivity.
Defined.

Lemma unknown_tolerance_escapes_witness :
  (fst (compress "in.pdf"%string (blank 10) 6 "gentle"%string false "out.pdf"%string CopyDone (inr illustrated_document)
          (Saved (blank 4) 0) five_bytes empty_world) = Escapes "KeyError"%string
   /\ quiet empty_world
        (snd (compress "in.pdf"%string (blank 10) 6 "gentle"%string false "out.pdf"%string CopyDone
                (inr illustrated_document) (Saved (blank 4) 0) five_bytes empty_world)))
  /\ exists r,
       fst (compress "in.pdf"%string (blank 10) 6 "gentle"%string false "out.pdf"%string CopyDone (inr wordy_document)
              (Saved (blank 4) 0) five_bytes empty_world) = Returns r.
Proof.
  split.
  - apply (proj1 (unknown_tolerance_escapes "in.pdf"%string (blank 10) 6 "gentle"%string false
                    "out.pdf"%string CopyDone (inr illustrated_document) (Saved (blank 4) 0) five_bytes
                    empty_world eq_refl)).
    + reflexivity.
    + reflexivity.
    + vm_compute. discriminate.
  - apply (proj1 (proj2 (unknown_tolerance_escapes "in.pdf"%string (blank 10) 6
                           "gentle"%string false "out.pdf"%string CopyDone
                           (inr wordy_document) (Saved (blank 4) 0) five_bytes
                           empty_world eq_refl))).
    right. split; [reflexivity|]. right. vm_compute. reflexivity.
Defined.

Lemma failed_analysis_stops_compress_witness :
  exists r,
    fst (compress "in.pdf"%string (blank 10) 6 "balanced"%string false "out.pdf"%string CopyDone (inl "no such file"%string)
           (Saved (blank 4) 0) five_bytes empty_world) = Returns r
    /\ success r = false
    /\ error r = Some "Failed to open PDF: no such file"%string
    /\ compressed_size r = Py.size_of (blank 10)
    /\ quiet empty_world
         (snd (compress "in.pdf"%string (blank 10) 6 "balanced"%string false "out.pdf"%string CopyDone
                 (inl "no such file"%string) (Saved (blank 4) 0) five_bytes empty_world)).
Proof.
  apply (failed_analysis_stops_compress "in.pdf"%string (blank 10) 6 "balanced"%string false "out.pdf"%string CopyDone
           (inl "no such file"%string) (Saved (blank 4) 0) five_bytes empty_world).
  - reflexivity.
  - reflexivity.
Defined.

Lemma text_heavy_is_a_single_pass_witness :
  attempts_of (journal (snd (compress "in.pdf"%string (blank 10) 6 "gentle"%string false "out.pdf"%string CopyDone
                               (inr wordy_document) (Saved (blank 4) 0) five_bytes
                               empty_world))) = []
  /\ output_file (snd (compress "in.pdf"%string (blank 10) 6 "gentle"%string false "out.pdf"%string CopyDone
                         (inr wordy_document) (Saved (blank 4) 0) five_bytes
                         empty_world)) = Some (blank 4).
Proof.
  destruct (text_heavy_is_a_single_pass "in.pdf"%string (blank 10) 6 "gentle"%string false "out.pdf"%string CopyDone
              (inr wordy_document) (Saved (blank 4) 0) five_bytes empty_world
              ltac:(reflexivity) ltac:(reflexivity) ltac:(vm_compute; reflexivity))
    as (A & _ & _ & F).
  split; [exact A|exact F].
Defined.

Lemma progress_stays_in_range_witness :
  exists reports,
    progress_of (journal (snd (compress "in.pdf"%string (blank 1000) 600 "balanced"%string true
                                 "out.pdf"%string CopyDone (inr small_document) (Saved (blank 400) 0)
                                 nothing_gained empty_world)))
    = reports
    /\ forall stage percentage, In (stage, percentage) reports -> 0 <= percentage <= 100.
Proof.
  destruct (progress_stays_in_range "in.pdf"%string (blank 1000) 600 "balanced"%string true
              "out.pdf"%string CopyDone (inr small_document) (Saved (blank 400) 0) nothing_gained
              empty_world) as (ps & E & R & _).
  exists ps. split; [exact E|exact R].
Defined.

(** The reports of that run: analysis, six trials, the end. *)
Example progress_of_a_full_search :
  progress_of (journal (snd (compress "in.pdf"%string (blank 1000) 600 "balanced"%string true
                               "out.pdf"%string CopyDone (inr small_document) (Saved (blank 400) 0)
                               nothing_gained empty_world)))
  = [ ("Analyzing PDF"%string, 0); ("Analyzing PDF"%string, 100);
      ("Processing images"%string, 15); ("Processing images"%string, 30);
      ("Processing images"%string, 45); ("Processing images"%string, 60);
      ("Processing images"%string, 75); ("Processing images"%string, 90);
      ("Finalizing PDF"%string, 100) ].
Proof. vm_compute. reflexivity. Qed.

Lemma images_are_listed_once_witness :
  let a := fst (analyze "in.pdf"%string (blank 10) (inr illustrated_document) empty_world) in
  NoDup (map xref (images a))
  /\ image_count a = 1
  /\ total_image_bytes a = 8.
Proof.
  destruct (images_are_listed_once "in.pdf"%string (blank 10) (inr illustrated_document)
              illustrated_document empty_world eq_refl eq_refl)
    as (Hnd & Hc & Ht & _).
  cbv zeta. split; [exact Hnd|]. split; [exact Hc|exact Ht].
Defined.

Lemma image_heavy_in_bytes_witness :
  pdf_type (fst (analyze "in.pdf"%string (blank 10) (inr illustrated_document) empty_world))
  = "image-heavy"%string
  /\ 1 <= image_count
            (fst (analyze "in.pdf"%string (blank 10) (inr illustrated_document) empty_world)).
Proof.
  assert (H : pdf_type (fst (analyze "in.pdf"%string (blank 10) (inr illustrated_document)
                               empty_world)) = "image-heavy"%string).
  { apply (proj1 (image_heavy_in_bytes "in.pdf"%string (blank 10) (inr illustrated_document)
                    empty_world)).
    split; vm_compute; reflexivity. }
  split; [exact H|].
  apply (proj2 (image_heavy_in_bytes "in.pdf"%string (blank 10) (inr illustrated_document)
                  empty_world) H).
Defined.

Lemma fonts_found_before_any_failure_witness :
  _check_embedded_fonts illustrated_document = true.
Proof.
  apply (proj2 (fonts_found_before_any_failure illustrated_document)).
  exists [mkPage "Figure 1"%string [mkPageImage 7 (Some "DeviceRGB"%string); mkPageImage 9 None]
            (Some false)],
         (mkPage ""%string [mkPageImage 7 (Some "DeviceRGB"%string)] (Some true)), [].
  split; [reflexivity|]. split; [reflexivity|].
  intros p [<-|[]]. reflexivity.
Defined.

(** * Properties of the helpers *)

(** ** Python strings *)

(** ** Strings *)

Lemma append_nil_r (s : string) : (s ++ "")%string = s.
Proof. induction s as [|c s IH]; [reflexivity|]. cbn. rewrite IH. reflexivity. Qed.

Lemma append_assoc (a b c : string) : ((a ++ b) ++ c)%string = (a ++ (b ++ c))%string.
Proof. induction a as [|x a IH]; [reflexivity|]. cbn. rewrite IH. reflexivity. Qed.

Lemma all_chars_app (p : ascii -> bool) (a b : string) :
  PyStr.all_chars p (a ++ b) = (PyStr.all_chars p a && PyStr.all_chars p b)%bool.
Proof.
  induction a as [|x a IH]; [reflexivity|]. cbn. rewrite IH. apply andb_assoc.
Qed.

Lemma all_chars_impl (p q : ascii -> bool) (s : string) :
  (forall c, p c = true -> q c = true) ->
  PyStr.all_chars p s = true -> PyStr.all_chars q s = true.
Proof.
  intros Hpq. induction s as [|c s IH]; [reflexivity|]. cbn.
  intros H. apply andb_true_iff in H. destruct H as [Hc Hs].
  rewrite (Hpq c Hc), (IH Hs). reflexivity.
Qed.

Lemma span_app (p : ascii -> bool) (a b : string) :
  PyStr.all_chars p a = true -> starts_outside p b ->
  PyStr.span p (a ++ b) = (a, b).
Proof.
  intros Ha Hb. induction a as [|c a IH].
  - destruct b as [|c b]; [reflexivity|]. cbn in *. rewrite Hb. reflexivity.
  - cbn in Ha |- *. apply andb_true_iff in Ha. destruct Ha as [Hc Ha].
    rewrite Hc, (IH Ha). reflexivity.
Qed.

Lemma lstrip_spaces (lead s : string) :
  PyStr.all_chars Py.is_space lead = true ->
  PyStr.lstrip (lead ++ s) = PyStr.lstrip s.
Proof.
  induction lead as [|c lead IH]; [reflexivity|]. cbn.
  intros H. apply andb_true_iff in H. destruct H as [Hc Hl]. rewrite Hc. exact (IH Hl).
Qed.

Lemma lstrip_outside (s : string) : starts_outside Py.is_space s -> PyStr.lstrip s = s.
Proof. destruct s as [|c s]; [reflexivity|]. cbn. intros ->. reflexivity. Qed.

Lemma rstrip_spaces (trail : string) :
  PyStr.all_chars Py.is_space trail = true -> PyStr.rstrip trail = ""%string.
Proof.
  induction trail as [|c trail IH]; [reflexivity|]. cbn.
  intros H. apply andb_true_iff in H. destruct H as [Hc Ht].
  rewrite (IH Ht), Hc. reflexivity.
Qed.

Lemma rstrip_app_spaces (s trail : string) :
  PyStr.all_chars Py.is_space trail = true ->
  PyStr.rstrip (s ++ trail) = PyStr.rstrip s.
Proof.
  intros Ht. induction s as [|c s IH].
  - cbn. apply rstrip_spaces, Ht.
  - cbn. rewrite IH. reflexivity.
Qed.

Lemma rstrip_ink (s : string) : ends_with_ink s = true -> PyStr.rstrip s = s.
Proof.
  induction s as [|c s IH]; [discriminate|].
  destruct s as [|d s].
  - cbn. intros H. apply negb_true_iff in H. rewrite H. reflexivity.
  - intros H. change (ends_with_ink (String d s) = true) in H.
    specialize (IH H). cbn [PyStr.rstrip] in IH |- *. rewrite IH. reflexivity.
Qed.

Lemma ends_with_ink_app (a b : string) :
  ends_with_ink b = true -> ends_with_ink (a ++ b) = true.
Proof.
  intros Hb. induction a as [|c a IH]; [exact Hb|].
  cbn [append]. destruct (a ++ b)%string as [|d r] eqn:E.
  - destruct a; [cbn in E; subst b; discriminate Hb|discriminate E].
  - exact IH.
Qed.

Lemma strip_ink (lead s trail : string) :
  PyStr.all_chars Py.is_space lead = true ->
  PyStr.all_chars Py.is_space trail = true ->
  starts_outside Py.is_space s -> ends_with_ink s = true ->
  PyStr.strip (lead ++ s ++ trail) = s.
Proof.
  intros Hl Ht Hs He. unfold PyStr.strip.
  rewrite (lstrip_spaces lead _ Hl).
  rewrite lstrip_outside.
  - rewrite (rstrip_app_spaces s trail Ht). apply rstrip_ink, He.
  - destruct s as [|c s]; [discriminate He|exact Hs].
Qed.

(** ** Characters *)

Ltac each_char c :=
  destruct c as [b0 b1 b2 b3 b4 b5 b6 b7];
  destruct b0, b1, b2, b3, b4, b5, b6, b7.

Lemma digit_is_plain (c : ascii) :
  PyStr.is_digit c = true ->
  Py.is_space c = false /\ PyStr.upper_ascii c = c
  /\ UtilsSize.is_number_char c = true /\ 0 <= PyStr.digit_value c <= 9.
Proof.
  each_char c; vm_compute; intros H; try discriminate H;
    repeat split; discriminate.
Qed.

Lemma space_is_plain (c : ascii) :
  Py.is_space c = true ->
  PyStr.upper_ascii c = c /\ UtilsSize.is_number_char c = false
  /\ PyStr.is_digit c = false.
Proof.
  each_char c; vm_compute; intros H; try discriminate H; repeat split.
Qed.

Lemma upper_ascii_idem (c : ascii) :
  PyStr.upper_ascii (PyStr.upper_ascii c) = PyStr.upper_ascii c
  /\ Py.is_space (PyStr.upper_ascii c) = Py.is_space c.
Proof. each_char c; vm_compute; split; reflexivity. Qed.

Lemma digit_char_spec (d : Z) :
  0 <= d <= 9 ->
  PyStr.is_digit (PyStr.digit_char d) = true
  /\ PyStr.digit_value (PyStr.digit_char d) = d.
Proof.
  intros H.
  assert (E : d = 0 \/ d = 1 \/ d = 2 \/ d = 3 \/ d = 4 \/ d = 5 \/ d = 6 \/ d = 7
              \/ d = 8 \/ d = 9) by lia.
  repeat (destruct E as [->|E]; [split; reflexivity|]). subst. split; reflexivity.
Qed.

(** ** Decimal digits *)

Lemma digits_value_app (acc : Z) (a b : string) :
  PyStr.digits_value acc (a ++ b) = PyStr.digits_value (PyStr.digits_value acc a) b.
Proof.
  revert acc. induction a as [|c a IH]; intros acc; [reflexivity|]. cbn. apply IH.
Qed.

Lemma digits_spec (fuel : nat) :
  forall n : Z,
    0 <= n < 2 ^ Z.of_nat (S fuel) ->
    PyStr.all_chars PyStr.is_digit (PyStr.digits (S fuel) n) = true
    /\ PyStr.digits_value 0 (PyStr.digits (S fuel) n) = n
    /\ ends_with_ink (PyStr.digits (S fuel) n) = true
    /\ starts_outside Py.is_space (PyStr.digits (S fuel) n).
Proof.
  induction fuel as [|fuel IH]; intros n Hn.
  - assert (E : n / 10 = 0) by (apply Z.div_small; cbn in Hn; lia).
    assert (Hmod : 0 <= n mod 10 <= 9) by (pose proof (Z.mod_pos_bound n 10); lia).
    destruct (digit_char_spec (n mod 10) Hmod) as [Hd Hv].
    destruct (digit_is_plain _ Hd) as (Hs & _).
    cbn [PyStr.digits]. rewrite E, Z.eqb_refl.
    cbn [append PyStr.all_chars PyStr.digits_value ends_with_ink starts_outside].
    rewrite Hd, Hv, Hs. split; [reflexivity|]. split; [|split; reflexivity].
    pose proof (Z.div_mod n 10 ltac:(lia)). lia.
  - remember (S fuel) as fuel1 eqn:Ef. cbn [PyStr.digits].
    assert (Hmod : 0 <= n mod 10 <= 9) by (pose proof (Z.mod_pos_bound n 10); lia).
    destruct (digit_char_spec (n mod 10) Hmod) as [Hd Hv].
    destruct (digit_is_plain _ Hd) as (Hs & _).
    assert (Hlast : ends_with_ink (String (PyStr.digit_char (n mod 10)) "") = true).
    { cbn. rewrite Hs. reflexivity. }
    destruct (n / 10 =? 0) eqn:E.
    + apply Z.eqb_eq in E. cbn [append PyStr.all_chars PyStr.digits_value].
      rewrite Hd, Hv. split; [reflexivity|]. split.
      * pose proof (Z.div_mod n 10 ltac:(lia)). lia.
      * split; [exact Hlast|exact Hs].
    + apply Z.eqb_neq in E.
      assert (Hdiv : 0 <= n / 10 < 2 ^ Z.of_nat fuel1).
      { rewrite Nat2Z.inj_succ, Z.pow_succ_r in Hn by lia.
        pose proof (Z.div_mod n 10 ltac:(lia)).
        split; [apply Z.div_pos; lia|]. apply Z.div_lt_upper_bound; lia. }
      destruct (IH (n / 10) Hdiv) as (Ha & Hval & He & Hst).
      rewrite all_chars_app, digits_value_app, Ha, Hval.
      cbn [PyStr.all_chars PyStr.digits_value]. rewrite Hd, Hv.
      split; [reflexivity|]. split.
      * pose proof (Z.div_mod n 10 ltac:(lia)). lia.
      * split; [apply ends_with_ink_app, Hlast|].
        destruct (PyStr.digits fuel1 (n / 10)) as [|c r]; [discriminate He|exact Hst].
Qed.

Lemma str_spec (n : Z) :
  0 <= n ->
  PyStr.all_chars PyStr.is_digit (PyStr.str n) = true
  /\ PyStr.digits_value 0 (PyStr.str n) = n
  /\ ends_with_ink (PyStr.str n) = true
  /\ starts_outside Py.is_space (PyStr.str n).
Proof.
  intros Hn. unfold PyStr.str.
  destruct (n <? 0) eqn:E; [apply Z.ltb_lt in E; lia|].
  apply digits_spec. split; [exact Hn|].
  destruct (Z.eq_dec n 0) as [->|Hne]; [cbn; lia|].
  rewrite Nat2Z.inj_succ, Z2Nat.id by apply Z.log2_nonneg.
  apply Z.log2_spec. lia.
Qed.

(** ** utils.py: [parse_size] *)

Lemma upper_app (a b : string) :
  PyStr.upper (a ++ b) = (PyStr.upper a ++ PyStr.upper b)%string.
Proof. induction a as [|c a IH]; [reflexivity|]. cbn. rewrite IH. reflexivity. Qed.

Lemma upper_fixed (p : ascii -> bool) (s : string) :
  (forall c, p c = true -> PyStr.upper_ascii c = c) ->
  PyStr.all_chars p s = true -> PyStr.upper s = s.
Proof.
  intros Hp. induction s as [|c s IH]; [reflexivity|]. cbn.
  intros H. apply andb_true_iff in H. destruct H as [Hc Hs].
  rewrite (Hp c Hc), (IH Hs). reflexivity.
Qed.

Lemma upper_digits (s : string) :
  PyStr.all_chars PyStr.is_digit s = true -> PyStr.upper s = s.
Proof. apply upper_fixed. intros c Hc. apply (digit_is_plain c Hc). Qed.

Lemma upper_spaces (s : string) :
  PyStr.all_chars Py.is_space s = true -> PyStr.upper s = s.
Proof. apply upper_fixed. intros c Hc. apply (space_is_plain c Hc). Qed.

Lemma upper_idem (s : string) : PyStr.upper (PyStr.upper s) = PyStr.upper s.
Proof.
  induction s as [|c s IH]; [reflexivity|]. cbn.
  rewrite IH, (proj1 (upper_ascii_idem c)). reflexivity.
Qed.

Lemma lstrip_upper (s : string) : PyStr.lstrip (PyStr.upper s) = PyStr.upper (PyStr.lstrip s).
Proof.
  induction s as [|c s IH]; [reflexivity|]. cbn.
  rewrite (proj2 (upper_ascii_idem c)). destruct (Py.is_space c); [exact IH|reflexivity].
Qed.

Lemma rstrip_upper (s : string) : PyStr.rstrip (PyStr.upper s) = PyStr.upper (PyStr.rstrip s).
Proof.
  induction s as [|c s IH]; [reflexivity|]. cbn. rewrite IH.
  destruct (PyStr.rstrip s) as [|d r]; cbn.
  - rewrite (proj2 (upper_ascii_idem c)). destruct (Py.is_space c); reflexivity.
  - reflexivity.
Qed.

Lemma strip_upper (s : string) : PyStr.strip (PyStr.upper s) = PyStr.upper (PyStr.strip s).
Proof. unfold PyStr.strip. rewrite lstrip_upper, rstrip_upper. reflexivity. Qed.

Lemma upper_lower (s : string) : PyStr.upper (Py.lower s) = PyStr.upper s.
Proof.
  induction s as [|c s IH]; [reflexivity|]. cbn. rewrite IH. f_equal.
  clear. each_char c; reflexivity.
Qed.

Lemma strip_lower (s : string) : PyStr.strip (Py.lower s) = Py.lower (PyStr.strip s).
Proof.
  assert (Hsp : forall c, Py.is_space (Py.lower_ascii c) = Py.is_space c).
  { intros c. each_char c; reflexivity. }
  unfold PyStr.strip.
  assert (Hl : forall t, PyStr.lstrip (Py.lower t) = Py.lower (PyStr.lstrip t)).
  { induction t as [|c t IH]; [reflexivity|]. cbn. rewrite Hsp.
    destruct (Py.is_space c); [exact IH|reflexivity]. }
  assert (Hr : forall t, PyStr.rstrip (Py.lower t) = Py.lower (PyStr.rstrip t)).
  { induction t as [|c t IH]; [reflexivity|]. cbn. rewrite IH.
    destruct (PyStr.rstrip t) as [|d r]; cbn; [|reflexivity].
    rewrite Hsp. destruct (Py.is_space c); reflexivity. }
  rewrite Hl, Hr. reflexivity.
Qed.

Lemma strip_padding (lead s trail : string) :
  PyStr.all_chars Py.is_space lead = true ->
  PyStr.all_chars Py.is_space trail = true ->
  PyStr.strip (lead ++ s ++ trail) = PyStr.strip s.
Proof.
  intros Hl Ht. unfold PyStr.strip. rewrite (lstrip_spaces lead _ Hl).
  induction s as [|c s IH].
  - cbn [append]. rewrite <- (append_nil_r trail), (lstrip_spaces trail "" Ht).
    reflexivity.
  - cbn [append PyStr.lstrip]. destruct (Py.is_space c); [exact IH|].
    apply (rstrip_app_spaces (String c s) trail Ht).
Qed.

(** White space around the text is not read. *)
Lemma parse_size_padding (s lead trail : string) :
  PyStr.all_chars Py.is_space lead = true ->
  PyStr.all_chars Py.is_space trail = true ->
  UtilsSize.parse_size (lead ++ s ++ trail) = UtilsSize.parse_size s.
Proof.
  intros Hl Ht. unfold UtilsSize.parse_size. cbv zeta.
  rewrite (strip_padding lead s trail Hl Ht). reflexivity.
Qed.

(** X17: [parse_size] ignores the case of the letters and the white space
    around the text: on an ASCII text, padded, in upper case or in lower
    case, it returns the same size or raises [ValueError] alike. *)
Theorem parse_size_ignores_case_and_padding (s lead trail : string) :
  PyStr.all_chars PyStr.is_ascii s = true ->
  PyStr.all_chars Py.is_space lead = true ->
  PyStr.all_chars Py.is_space trail = true ->
  UtilsSize.parse_size (lead ++ s ++ trail) = UtilsSize.parse_size s
  /\ UtilsSize.parse_size (PyStr.upper s) = UtilsSize.parse_size s
  /\ UtilsSize.parse_size (Py.lower s) = UtilsSize.parse_size s.
Proof.
  intros _ Hl Ht. split; [exact (parse_size_padding s lead trail Hl Ht)|].
  unfold UtilsSize.parse_size. cbv zeta.
  rewrite strip_upper, upper_idem, strip_lower, upper_lower.
  split; reflexivity.
Qed.

Lemma span_taken (p : ascii -> bool) (s : string) :
  PyStr.all_chars p (fst (PyStr.span p s)) = true.
Proof.
  induction s as [|c s IH]; [reflexivity|]. cbn.
  destruct (p c) eqn:E; [|reflexivity].
  destruct (PyStr.span p s) as [taken remaining]. cbn in *. rewrite E, IH. reflexivity.
Qed.

Lemma digits_value_nonneg (s : string) :
  forall acc, 0 <= acc -> PyStr.all_chars PyStr.is_digit s = true ->
              0 <= PyStr.digits_value acc s.
Proof.
  induction s as [|c s IH]; intros acc Ha H; [exact Ha|]. cbn in *.
  apply andb_true_iff in H. destruct H as [Hc Hs].
  destruct (digit_is_plain c Hc) as (_ & _ & _ & Hv). apply IH; [lia|exact Hs].
Qed.

Lemma float_of_nonneg (s : string) (value : Q) :
  PyStr.float_of s = Some value -> (0 <= value)%Q.
Proof.
  unfold PyStr.float_of.
  pose proof (span_taken PyStr.is_digit s) as Hw.
  destruct (PyStr.span PyStr.is_digit s) as [whole rest]. cbn [fst] in Hw.
  pose proof (digits_value_nonneg whole 0 ltac:(lia) Hw) as Hv.
  assert (Hq : (0 <= inject_Z (PyStr.digits_value 0 whole))%Q)
    by (unfold Qle; simpl; lia).
  destruct rest as [|c fraction].
  - destruct whole; [discriminate|]. intros [= <-]. exact Hq.
  - destruct (Ascii.eqb c "."); [|discriminate].
    destruct (PyStr.all_chars PyStr.is_digit fraction) eqn:Ef; [|discriminate].
    destruct (whole ++ fraction)%string; [discriminate|]. intros [= <-].
    pose proof (digits_value_nonneg fraction 0 ltac:(lia) Ef) as Hf.
    assert (Hp : 0 < 10 ^ PyStr.len fraction).
    { apply Z.pow_pos_nonneg; [lia|]. unfold PyStr.len. lia. }
    apply Qle_trans with (y := inject_Z (PyStr.digits_value 0 whole)); [exact Hq|].
    rewrite <- (Qplus_0_r (inject_Z (PyStr.digits_value 0 whole))) at 1.
    apply Qplus_le_r. apply Qle_shift_div_l.
    + unfold Qlt. simpl. lia.
    + rewrite Qmult_0_l. unfold Qle. simpl. lia.
Qed.

Lemma multiplier_positive (unit : string) (factor : Z) :
  UtilsSize.multiplier unit = Some factor -> 0 < factor.
Proof.
  unfold UtilsSize.multiplier.
  repeat (destruct (String.eqb unit _); [intros [= <-]; lia|]). discriminate.
Qed.

(** X18: [parse_size] never returns a negative size: what it accepts starts
    with a digit or a dot, so a text with a sign is refused with
    [ValueError], as are the empty text and a text of white space. *)
Theorem parse_size_is_never_negative (s : string) :
  (forall n, UtilsSize.parse_size s = Some n -> 0 <= n)
  /\ (forall rest, UtilsSize.parse_size (String "-" rest) = None)
  /\ (PyStr.all_chars Py.is_space s = true -> UtilsSize.parse_size s = None).
Proof.
  split; [|split].
  - intros n. unfold UtilsSize.parse_size. cbv zeta.
    destruct (PyStr.span UtilsSize.is_number_char _) as [number rest].
    destruct number as [|c number]; [discriminate|].
    destruct (UtilsSize.multiplier _) as [factor|] eqn:Em; [|discriminate].
    destruct (PyStr.float_of _) as [value|] eqn:Ev; [|discriminate].
    intros [= <-].
    pose proof (float_of_nonneg _ _ Ev) as Hv.
    pose proof (multiplier_positive _ _ Em) as Hf.
    assert (H0 : (0 <= value * inject_Z factor)%Q).
    { apply Qmult_le_0_compat; [exact Hv|]. unfold Qle. simpl. lia. }
    rewrite (int_nonneg _ H0).
    pose proof (Qfloor_resp_le _ _ H0) as Hfl. exact Hfl.
  - intros rest. unfold UtilsSize.parse_size. cbv zeta.
    assert (E : exists r, PyStr.upper (PyStr.strip (String "-" rest)) = String "-" r).
    { unfold PyStr.strip. cbn [PyStr.lstrip]. change (Py.is_space "-") with false.
      cbn iota. cbn [PyStr.rstrip].
      destruct (PyStr.rstrip rest) as [|d r]; cbn; eexists; reflexivity. }
    destruct E as (r & ->). reflexivity.
  - intros Hs. unfold UtilsSize.parse_size. cbv zeta.
    assert (E : PyStr.strip s = ""%string).
    { unfold PyStr.strip.
      rewrite <- (append_nil_r s), (lstrip_spaces s "" Hs). reflexivity. }
    rewrite E. reflexivity.
Qed.

Lemma unit_letter (c : ascii) :
  In (PyStr.upper_ascii c) ["B"; "K"; "M"; "G"]%char ->
  Py.is_space c = false /\ Py.is_space (PyStr.upper_ascii c) = false
  /\ UtilsSize.is_number_char (PyStr.upper_ascii c) = false.
Proof.
  each_char c; cbn; intros [H|[H|[H|[H|[]]]]]; try discriminate H;
    repeat split.
Qed.

(** What is known of a unit, in any case of letters, that is not empty. *)
Lemma unit_shape (unit : string) (factor : Z) :
  UtilsSize.multiplier (PyStr.upper unit) = Some factor -> unit <> ""%string ->
  starts_outside Py.is_space unit
  /\ ends_with_ink unit = true
  /\ starts_outside Py.is_space (PyStr.upper unit)
  /\ starts_outside UtilsSize.is_number_char (PyStr.upper unit).
Proof.
  intros Hm Hne.
  assert (Hone : forall c, In (PyStr.upper_ascii c) ["B"; "K"; "M"; "G"]%char ->
            starts_outside Py.is_space (String c "")
            /\ ends_with_ink (String c "") = true
            /\ starts_outside Py.is_space (PyStr.upper (String c ""))
            /\ starts_outside UtilsSize.is_number_char (PyStr.upper (String c ""))).
  { intros c Hc. destruct (unit_letter c Hc) as (H1 & H2 & H3). cbn.
    rewrite H1. repeat split; assumption. }
  assert (Htwo : forall c d, In (PyStr.upper_ascii c) ["B"; "K"; "M"; "G"]%char ->
            In (PyStr.upper_ascii d) ["B"; "K"; "M"; "G"]%char ->
            starts_outside Py.is_space (String c (String d ""))
            /\ ends_with_ink (String c (String d "")) = true
            /\ starts_outside Py.is_space (PyStr.upper (String c (String d "")))
            /\ starts_outside UtilsSize.is_number_char
                 (PyStr.upper (String c (String d "")))).
  { intros c d Hc Hd. destruct (unit_letter c Hc) as (H1 & H2 & H3).
    destruct (unit_letter d Hd) as (G1 & _). cbn. rewrite G1.
    repeat split; assumption. }
  unfold UtilsSize.multiplier in Hm.
  destruct unit as [|c [|d [|e unit]]]; [congruence| | |].
  - cbn [PyStr.upper] in Hm. apply Hone.
    remember (PyStr.upper_ascii c) as x. clear -Hm.
    each_char x; cbn in Hm; try discriminate Hm; cbn; auto 10.
  - cbn [PyStr.upper] in Hm.
    remember (PyStr.upper_ascii c) as x. remember (PyStr.upper_ascii d) as y.
    assert (In x ["B"; "K"; "M"; "G"]%char /\ y = "B"%char) as [Hx ->].
    { clear -Hm. each_char x; cbn in Hm; try discriminate Hm;
        each_char y; cbn in Hm; try discriminate Hm; cbn; auto 10. }
    subst x. apply Htwo; [exact Hx|]. rewrite <- Heqy. left. reflexivity.
  - exfalso. cbn [PyStr.upper] in Hm.
    remember (PyStr.upper_ascii c) as x. remember (PyStr.upper_ascii d) as y.
    remember (PyStr.upper_ascii e) as z. remember (PyStr.upper unit) as r.
    clear -Hm.
    each_char x; cbn in Hm; try discriminate Hm;
      each_char y; cbn in Hm; discriminate Hm.
Qed.

Lemma float_of_digits (s : string) :
  PyStr.all_chars PyStr.is_digit s = true -> s <> ""%string ->
  PyStr.float_of s = Some (inject_Z (PyStr.digits_value 0 s)).
Proof.
  intros Hs Hne. unfold PyStr.float_of.
  rewrite <- (append_nil_r s) at 1. rewrite (span_app _ s "" Hs I).
  destruct s; [congruence|reflexivity].
Qed.

Lemma int_of_product (n factor : Z) : Py.int (inject_Z n * inject_Z factor) = n * factor.
Proof. unfold Py.int, Qmult, inject_Z. cbn [Qnum Qden]. apply Z.quot_1_r. Qed.

Lemma str_not_empty (n : Z) : 0 <= n -> PyStr.str n <> ""%string.
Proof.
  intros Hn E. destruct (str_spec n Hn) as (_ & _ & He & _).
  rewrite E in He. discriminate He.
Qed.

(** A whole number, white space and a unit, with nothing around them. *)
Lemma parse_size_whole_number (n : Z) (gap unit : string) (factor : Z) :
  0 <= n ->
  PyStr.all_chars Py.is_space gap = true ->
  UtilsSize.multiplier (PyStr.upper unit) = Some factor ->
  UtilsSize.parse_size (PyStr.str n ++ gap ++ unit) = Some (n * factor).
Proof.
  intros Hn Hg Hm.
  destruct (str_spec n Hn) as (Hd & Hv & He & Hst).
  pose proof (str_not_empty n Hn) as Hne.
  unfold UtilsSize.parse_size. cbv zeta.
  assert (Hnum : PyStr.all_chars UtilsSize.is_number_char (PyStr.str n) = true).
  { apply (all_chars_impl PyStr.is_digit); [|exact Hd].
    intros c Hc. apply (digit_is_plain c Hc). }
  destruct unit as [|c unit].
  - (* no unit *)
    assert (E : PyStr.strip (PyStr.str n ++ gap ++ "") = PyStr.str n).
    { rewrite append_nil_r.
      exact (strip_ink "" (PyStr.str n) gap eq_refl Hg Hst He). }
    rewrite E, (upper_digits _ Hd).
    rewrite <- (append_nil_r (PyStr.str n)) at 1.
    rewrite (span_app _ _ "" Hnum I).
    destruct (PyStr.str n) as [|d r] eqn:Es; [congruence|]. cbv iota.
    rewrite <- Es in *.
    cbn [PyStr.lstrip]. cbn in Hm. injection Hm as <-.
    change (UtilsSize.multiplier "") with (Some 1).
    rewrite (float_of_digits _ Hd Hne), Hv, int_of_product. reflexivity.
  - destruct (unit_shape (String c unit) factor Hm ltac:(discriminate))
      as (U1 & U2 & U3 & U4).
    assert (E : PyStr.strip (PyStr.str n ++ gap ++ String c unit)
                = (PyStr.str n ++ gap ++ String c unit)%string).
    { rewrite <- (append_nil_r (PyStr.str n ++ gap ++ String c unit)) at 1.
      apply (strip_ink "" (PyStr.str n ++ gap ++ String c unit) "" eq_refl eq_refl).
      - destruct (PyStr.str n); [congruence|exact Hst].
      - apply ends_with_ink_app, ends_with_ink_app, U2. }
    rewrite E, !upper_app, (upper_digits _ Hd), (upper_spaces _ Hg).
    assert (Hrest : starts_outside UtilsSize.is_number_char
                      (gap ++ PyStr.upper (String c unit))).
    { destruct gap as [|g gap]; [exact U4|]. cbn in Hg |- *.
      apply andb_true_iff in Hg. apply (space_is_plain g (proj1 Hg)). }
    rewrite (span_app _ _ _ Hnum Hrest).
    destruct (PyStr.str n) as [|d r] eqn:Es; [congruence|]. cbv iota.
    rewrite <- Es in *.
    rewrite (lstrip_spaces gap _ Hg), (lstrip_outside _ U3), Hm.
    rewrite (float_of_digits _ Hd Hne), Hv, int_of_product. reflexivity.
Qed.

(** X19: a whole number followed by a unit is read in binary multiples:
    [parse_size] of the digits of [n] and a unit is [n * 1024^k] for B, K or
    KB, M or MB, G or GB, in either case of letters, with or without white
    space around the number and the unit; without unit the number counts
    bytes.  [n] is below [2^53], where [float] holds it exactly. *)
Theorem parse_size_reads_binary_units (n : Z) (lead gap unit trail : string)
    (factor : Z) :
  0 <= n < 2 ^ 53 ->
  PyStr.all_chars Py.is_space lead = true ->
  PyStr.all_chars Py.is_space gap = true ->
  PyStr.all_chars Py.is_space trail = true ->
  UtilsSize.multiplier (PyStr.upper unit) = Some factor ->
  UtilsSize.parse_size (lead ++ (PyStr.str n ++ gap ++ unit) ++ trail)
  = Some (n * factor).
Proof.
  intros Hn Hl Hg Ht Hm.
  rewrite (parse_size_padding (PyStr.str n ++ gap ++ unit) lead trail Hl Ht).
  apply parse_size_whole_number; [lia|exact Hg|exact Hm].
Qed.

(** ** utils.py: [format_size], and reading its output back *)

Lemma inject_Z_pos (z : Z) : 0 < z -> (0 < inject_Z z)%Q.
Proof. intros H. rewrite (Zlt_Qlt 0 z) in H. exact H. Qed.

Lemma inject_Z_nonneg (z : Z) : 0 <= z -> (0 <= inject_Z z)%Q.
Proof. intros H. rewrite (Zle_Qle 0 z) in H. exact H. Qed.

Lemma read_back_bound (n r u s : Z) (v : Q) :
  0 < u -> 0 < s ->
  (2 * inject_Z r - 1 <= 2 * (inject_Z n / inject_Z u * inject_Z s))%Q ->
  (2 * (inject_Z n / inject_Z u * inject_Z s) <= 2 * inject_Z r + 1)%Q ->
  (v * inject_Z s == inject_Z r)%Q ->
  2 * n * s < 2 * s * (Qfloor (v * inject_Z u) + 1) + u
  /\ 2 * s * Qfloor (v * inject_Z u) <= 2 * n * s + u.
Proof.
  intros Hu Hs Hlo Hhi Hv.
  pose proof (inject_Z_pos u Hu) as Qu.
  pose proof (inject_Z_pos s Hs) as Qs.
  set (y := (inject_Z n / inject_Z u * inject_Z s)%Q) in *.
  assert (Hy : (y * inject_Z u == inject_Z n * inject_Z s)%Q).
  { unfold y. field. intros E. rewrite E in Qu. apply (Qlt_irrefl 0), Qu. }
  pose proof (Qfloor_le (v * inject_Z u)) as F1.
  pose proof (Qlt_floor (v * inject_Z u)) as F2.
  set (fz := Qfloor (v * inject_Z u)) in *.
  rewrite inject_Z_plus in F2. change (inject_Z 1) with 1%Q in F2.
  split.
  - rewrite Zlt_Qlt. rewrite !inject_Z_plus, !inject_Z_mult, !inject_Z_plus.
    change (inject_Z 2) with 2%Q. change (inject_Z 1) with 1%Q.
    nra.
  - rewrite Zle_Qle. rewrite inject_Z_plus, !inject_Z_mult.
    change (inject_Z 2) with 2%Q.
    nra.
Qed.

(** The rounded value is within one half of the number, and is not negative
    when the number is not. *)
Lemma round_half_even_spec (x : Q) :
  (2 * inject_Z (PyStr.round_half_even x) - 1 <= 2 * x)%Q
  /\ (2 * x <= 2 * inject_Z (PyStr.round_half_even x) + 1)%Q
  /\ ((0 <= x)%Q -> 0 <= PyStr.round_half_even x).
Proof.
  unfold PyStr.round_half_even. cbv zeta.
  pose proof (Qfloor_le x) as F1. pose proof (Qlt_floor x) as F2.
  pose proof (Qfloor_le (x * 2)) as G1. pose proof (Qlt_floor (x * 2)) as G2.
  assert (N : (0 <= x)%Q -> 0 <= Qfloor x).
  { intros H0. apply (Qfloor_resp_le 0 x H0). }
  set (below := Qfloor x) in *. set (double := Qfloor (x * 2)) in *.
  rewrite inject_Z_plus in F2, G2. change (inject_Z 1) with 1%Q in F2, G2.
  assert (Hd : 2 * below <= double <= 2 * below + 1).
  { split.
    - apply Z.lt_succ_r. rewrite Zlt_Qlt. unfold Z.succ.
      rewrite inject_Z_plus, inject_Z_mult.
      change (inject_Z 2) with 2%Q. change (inject_Z 1) with 1%Q. lra.
    - apply Z.lt_succ_r. rewrite Zlt_Qlt. unfold Z.succ.
      rewrite !inject_Z_plus, inject_Z_mult.
      change (inject_Z 2) with 2%Q. change (inject_Z 1) with 1%Q. lra. }
  destruct (double - 2 * below =? 0) eqn:E0.
  - apply Z.eqb_eq in E0. assert (Ed : double = 2 * below) by lia.
    rewrite Ed, inject_Z_mult in G2. change (inject_Z 2) with 2%Q in G2.
    repeat split; [lra|lra|exact N].
  - apply Z.eqb_neq in E0. assert (Ed : double = 2 * below + 1) by lia.
    rewrite Ed, inject_Z_plus, inject_Z_mult in G1.
    change (inject_Z 2) with 2%Q in G1. change (inject_Z 1) with 1%Q in G1.
    destruct (Qeq_bool _ _) eqn:Et.
    + apply Qeq_bool_iff in Et. rewrite inject_Z_plus, inject_Z_mult in Et.
      change (inject_Z 2) with 2%Q in Et. change (inject_Z 1) with 1%Q in Et.
      destruct (Z.even below);
        try (rewrite inject_Z_plus; change (inject_Z 1) with 1%Q);
        (repeat split; [lra|lra|intros H0; specialize (N H0); lia]).
    + rewrite inject_Z_plus. change (inject_Z 1) with 1%Q.
      repeat split; [lra|lra|intros H0; specialize (N H0); lia].
Qed.

Lemma number_char_plain (c : ascii) :
  UtilsSize.is_number_char c = true ->
  PyStr.upper_ascii c = c /\ Py.is_space c = false.
Proof. each_char c; vm_compute; intros H; try discriminate H; split; reflexivity. Qed.

Lemma padded_fraction_spec (decimals : nat) (m : Z) :
  (decimals = 1 \/ decimals = 2)%nat -> 0 <= m < 10 ^ Z.of_nat decimals ->
  padded_fraction_ok decimals m = true.
Proof.
  intros Hd Hm.
  assert (H : forall k : nat, (k < 100)%nat ->
            (Z.of_nat k <? 10 ^ Z.of_nat decimals) = true ->
            padded_fraction_ok decimals (Z.of_nat k) = true).
  { intros k Hk.
    destruct Hd as [-> | ->];
      do 100 (destruct k as [|k];
              [vm_compute; intros E; first [reflexivity|discriminate E]|]);
      lia. }
  rewrite <- (Z2Nat.id m) by lia. apply H.
  - destruct Hd as [-> | ->]; cbn in Hm; lia.
  - rewrite Z2Nat.id by lia. apply Z.ltb_lt. lia.
Qed.

(** What [parse_size] reads from a number printed with one or two decimals
    and followed by a unit. *)
Lemma parse_size_of_fixed (decimals : nat) (x : Q) (unit : string) (factor : Z) :
  (decimals = 1 \/ decimals = 2)%nat -> (0 <= x)%Q ->
  In (unit, factor)
     [("KB", 1024); ("MB", 1024 * 1024); ("GB", 1024 * 1024 * 1024)]%string ->
  exists value : Q,
    UtilsSize.parse_size (PyStr.format_fixed decimals x ++ String " " unit)
    = Some (Qfloor (value * inject_Z factor))
    /\ (value * inject_Z (10 ^ Z.of_nat decimals)
        == inject_Z (PyStr.round_half_even (x * inject_Z (10 ^ Z.of_nat decimals))))%Q.
Proof.
  intros Hd Hx Hunit.
  set (scale := 10 ^ Z.of_nat decimals).
  assert (Hscale : 0 < scale) by (apply Z.pow_pos_nonneg; lia).
  pose proof (inject_Z_pos scale Hscale) as Qscale.
  set (r := PyStr.round_half_even (x * inject_Z scale)).
  assert (Hr : 0 <= r).
  { apply (round_half_even_spec (x * inject_Z scale)).
    apply Qmult_le_0_compat; [exact Hx|]. apply Qlt_le_weak, Qscale. }
  pose proof (Z.div_pos r scale Hr Hscale) as Hq.
  pose proof (Z.mod_pos_bound r scale Hscale) as Hm.
  pose proof (Z.div_mod r scale ltac:(lia)) as Hqm.
  destruct (str_spec (r / scale) Hq) as (Qd & Qv & Qe & Qst).
  pose proof (str_not_empty (r / scale) Hq) as Qne.
  pose proof (padded_fraction_spec decimals (r mod scale) Hd Hm) as Hf.
  unfold padded_fraction_ok in Hf.
  apply andb_true_iff in Hf. destruct Hf as [Hf Fv].
  apply andb_true_iff in Hf. destruct Hf as [Fd Fl].
  apply Z.eqb_eq in Fl, Fv.
  exists (inject_Z (r / scale) + inject_Z (r mod scale) / inject_Z scale)%Q.
  split.
  - assert (Eform : PyStr.format_fixed decimals x
                    = (PyStr.str (r / scale)
                       ++ String "." (padded_fraction decimals (r mod scale)))%string)
      by reflexivity.
    rewrite Eform. set (fraction := padded_fraction decimals (r mod scale)) in *.
    set (number := (PyStr.str (r / scale) ++ String "." fraction)%string).
    assert (Hnum : PyStr.all_chars UtilsSize.is_number_char number = true).
    { unfold number. rewrite all_chars_app. apply andb_true_iff. split.
      - apply (all_chars_impl PyStr.is_digit); [|exact Qd].
        intros c Hc. apply (digit_is_plain c Hc).
      - cbn. apply (all_chars_impl PyStr.is_digit); [|exact Fd].
        intros c Hc. apply (digit_is_plain c Hc). }
    assert (Hfloat : PyStr.float_of number
                     = Some (inject_Z (r / scale)
                             + inject_Z (r mod scale) / inject_Z scale)%Q).
    { unfold PyStr.float_of, number.
      rewrite (span_app PyStr.is_digit _ (String "." fraction) Qd eq_refl).
      change (Ascii.eqb "." ".") with true. cbv iota. rewrite Fd.
      destruct (PyStr.str (r / scale)) as [|d rest] eqn:Es; [congruence|].
      cbn [append]. rewrite <- Es in *. rewrite Qv, Fv, Fl. reflexivity. }
    assert (Hunits : exists a b, unit = String a (String b "")
                       /\ Py.is_space a = false /\ Py.is_space b = false
                       /\ UtilsSize.is_number_char a = false
                       /\ PyStr.upper unit = unit
                       /\ UtilsSize.multiplier unit = Some factor).
    { destruct Hunit as [E|[E|[E|[]]]]; injection E as <- <-;
        do 2 eexists; repeat split. }
    destruct Hunits as (a & b & -> & Ha & Hb & Ha' & Hup & Hmul).
    unfold UtilsSize.parse_size. cbv zeta.
    assert (Estrip : PyStr.strip (number ++ String " " (String a (String b "")))
                     = (number ++ String " " (String a (String b "")))%string).
    { rewrite <- (append_nil_r (number ++ _)) at 1.
      apply (strip_ink "" (number ++ String " " (String a (String b ""))) ""
               eq_refl eq_refl).
      - unfold number. destruct (PyStr.str (r / scale)); [congruence|exact Qst].
      - apply ends_with_ink_app. cbn. rewrite Hb. reflexivity. }
    rewrite Estrip, upper_app.
    rewrite (upper_fixed UtilsSize.is_number_char number
               (fun c Hc => proj1 (number_char_plain c Hc)) Hnum).
    change (PyStr.upper (String " " (String a (String b ""))))
      with (String " " (PyStr.upper (String a (String b "")))).
    rewrite Hup.
    rewrite (span_app UtilsSize.is_number_char number
               (String " " (String a (String b ""))) Hnum eq_refl).
    assert (Hne : number <> ""%string).
    { unfold number. destruct (PyStr.str (r / scale)); [congruence|discriminate]. }
    destruct number as [|c0 number0] eqn:En; [congruence|]. cbv iota.
    rewrite <- En in *.
    change (PyStr.lstrip (String " " (String a (String b ""))))
      with (PyStr.lstrip (String a (String b ""))).
    cbn [PyStr.lstrip]. rewrite Ha, Hmul, Hfloat.
    f_equal. apply int_nonneg.
    apply Qmult_le_0_compat.
    + pose proof (inject_Z_nonneg (r / scale) Hq) as Q1.
      assert (Q2 : (0 <= inject_Z (r mod scale) / inject_Z scale)%Q).
      { apply Qle_shift_div_l; [exact Qscale|]. rewrite Qmult_0_l.
        apply inject_Z_nonneg. lia. }
      lra.
    + apply inject_Z_nonneg. destruct Hunit as [E|[E|[E|[]]]]; injection E as _ <-; lia.
  - fold scale. fold r. rewrite Hqm at 3.
    rewrite inject_Z_plus, inject_Z_mult. field.
    intros E. rewrite E in Qscale. apply (Qlt_irrefl 0), Qscale.
Qed.

(** X20: what [format_size] prints, [parse_size] reads back: exactly below
    1 KB, and further up to within half a unit of the last printed digit
    (0.05 KB, 0.005 MB, 0.005 GB) and the byte [int] cuts off. *)
Theorem parse_size_reads_format_size_back (n : Z) :
  0 <= n < 2 ^ 48 ->
  exists m : Z,
    UtilsSize.parse_size (UtilsSize.format_size n) = Some m
    /\ Z.abs (m - n) <= (if n <? 1024 then 0
                         else if n <? 1024 * 1024 then 52
                         else if n <? 1024 * 1024 * 1024 then 5243
                         else 5368710).
Proof.
  intros Hn. unfold UtilsSize.format_size.
  pose proof (inject_Z_nonneg n (proj1 Hn)) as Q0.
  assert (Hdiv : forall u, 0 < u -> (0 <= inject_Z n / inject_Z u)%Q).
  { intros u Hu. apply Qle_shift_div_l; [exact (inject_Z_pos u Hu)|].
    rewrite Qmult_0_l. exact Q0. }
  destruct (n <? 1024) eqn:E1.
  - exists n. split; [|lia].
    pose proof (parse_size_whole_number n " " "B" 1 (proj1 Hn) eq_refl eq_refl) as H.
    change (" " ++ "B")%string with " B"%string in H. rewrite H.
    f_equal. lia.
  - apply Z.ltb_ge in E1.
    destruct (n <? 1024 * 1024) eqn:E2; [|destruct (n <? 1024 * 1024 * 1024) eqn:E3].
    + destruct (parse_size_of_fixed 1 (inject_Z n / inject_Z 1024) "KB" 1024
                  (or_introl eq_refl) (Hdiv 1024 ltac:(lia))
                  (or_introl eq_refl)) as (value & Hp & Hv).
      exists (Qfloor (value * inject_Z 1024)). split; [exact Hp|].
      destruct (round_half_even_spec (inject_Z n / inject_Z 1024 * inject_Z (10 ^ Z.of_nat 1)))
        as (R1 & R2 & _).
      pose proof (read_back_bound n _ 1024 10 value
                    ltac:(lia) ltac:(lia) R1 R2 Hv) as [B1 B2].
      apply Z.ltb_lt in E2. lia.
    + destruct (parse_size_of_fixed 2 (inject_Z n / inject_Z (1024 * 1024)) "MB"
                  (1024 * 1024) (or_intror eq_refl) (Hdiv (1024 * 1024) ltac:(lia))
                  (or_intror (or_introl eq_refl))) as (value & Hp & Hv).
      exists (Qfloor (value * inject_Z (1024 * 1024))). split; [exact Hp|].
      destruct (round_half_even_spec
                  (inject_Z n / inject_Z (1024 * 1024) * inject_Z (10 ^ Z.of_nat 2)))
        as (R1 & R2 & _).
      pose proof (read_back_bound n _ (1024 * 1024) 100 value
                    ltac:(lia) ltac:(lia) R1 R2 Hv) as [B1 B2].
      apply Z.ltb_ge in E2. apply Z.ltb_lt in E3. lia.
    + destruct (parse_size_of_fixed 2 (inject_Z n / inject_Z (1024 * 1024 * 1024)) "GB"
                  (1024 * 1024 * 1024) (or_intror eq_refl)
                  (Hdiv (1024 * 1024 * 1024) ltac:(lia))
                  (or_intror (or_intror (or_introl eq_refl)))) as (value & Hp & Hv).
      exists (Qfloor (value * inject_Z (1024 * 1024 * 1024))). split; [exact Hp|].
      destruct (round_half_even_spec
                  (inject_Z n / inject_Z (1024 * 1024 * 1024) * inject_Z (10 ^ Z.of_nat 2)))
        as (R1 & R2 & _).
      pose proof (read_back_bound n _ (1024 * 1024 * 1024) 100 value
                    ltac:(lia) ltac:(lia) R1 R2 Hv) as [B1 B2].
      apply Z.ltb_ge in E2, E3. lia.
Qed.

(** ** utils.py: [get_output_path]; web/app.py: [allowed_file] *)

Lemma rsplit_dot_spec (s before after : string) :
  PyName.rsplit_dot s = Some (before, after) ->
  s = (before ++ String "." after)%string /\ PyName.has_dot after = false.
Proof.
  revert before. induction s as [|c s IH]; intros before; [discriminate|].
  cbn [PyName.rsplit_dot].
  destruct (PyName.rsplit_dot s) as [[b a]|] eqn:E.
  - intros [= <- <-]. destruct (IH b eq_refl) as [-> Ha]. split; [reflexivity|exact Ha].
  - destruct (Ascii.eqb c ".") eqn:Ec; [|discriminate].
    apply Ascii.eqb_eq in Ec. subst c. intros [= <- <-]. split; [reflexivity|].
    clear IH. induction s as [|d s IH]; [reflexivity|].
    cbn [PyName.rsplit_dot] in E. cbn [PyName.has_dot].
    destruct (PyName.rsplit_dot s) as [[b a]|]; [discriminate|].
    destruct (Ascii.eqb d "."); [discriminate|]. exact (IH eq_refl).
Qed.

Lemma rsplit_dot_none (s : string) :
  PyName.rsplit_dot s = None <-> PyName.has_dot s = false.
Proof.
  induction s as [|c s IH]; [split; reflexivity|].
  cbn [PyName.rsplit_dot PyName.has_dot].
  destruct (PyName.rsplit_dot s) as [[b a]|].
  - split; [discriminate|]. intros H. apply orb_false_iff in H.
    destruct H as [_ H]. apply IH in H. discriminate H.
  - destruct (Ascii.eqb c "."); [split; discriminate|].
    split; intros _; [apply IH|]; reflexivity.
Qed.

Lemma rsplit_dot_app (before after : string) :
  PyName.has_dot after = false ->
  PyName.rsplit_dot (before ++ String "." after) = Some (before, after).
Proof.
  intros Ha. apply rsplit_dot_none in Ha.
  induction before as [|c b IH].
  - cbn. rewrite Ha. reflexivity.
  - cbn [append PyName.rsplit_dot]. rewrite IH. reflexivity.
Qed.

Lemma has_dot_app (a b : string) :
  PyName.has_dot (a ++ b) = PyName.has_dot a || PyName.has_dot b.
Proof.
  induction a as [|c a IH]; [reflexivity|]. cbn. rewrite IH. apply orb_assoc.
Qed.

(** A name is its stem followed by its suffix, and the suffix is empty or
    one dot followed by characters that are not dots. *)
Lemma stem_suffix (name : string) :
  name = (PyName.stem name ++ PyName.suffix name)%string
  /\ (PyName.suffix name = ""%string
      \/ exists extension, PyName.suffix name = String "." extension
                           /\ PyName.has_dot extension = false).
Proof.
  unfold PyName.stem, PyName.suffix.
  destruct (PyName.rsplit_dot name) as [[before after]|] eqn:E.
  - destruct (rsplit_dot_spec _ _ _ E) as [-> Ha].
    destruct before as [|c before], after as [|d after];
      rewrite ?append_nil_r; (split; [reflexivity|]); auto.
    right. exists (String d after). split; [reflexivity|exact Ha].
  - rewrite append_nil_r. split; [reflexivity|left; reflexivity].
Qed.

Lemma append_cancel_l (a b c : string) : (a ++ b)%string = (a ++ c)%string -> b = c.
Proof.
  induction a as [|x a IH]; [auto|]. cbn. intros [= H]. exact (IH H).
Qed.

(** X21: with no output path given, the file [get_output_path] names lies
    beside the input, and is the input itself only when the suffix to add
    is empty and the input ends in [.pdf]; so with the default suffix the
    input is never named.  An output path that is given is returned as it
    is. *)
Theorem default_output_is_another_file (input_name suffix : string)
    (output_path : option string) :
  output_path = None \/ output_path = Some ""%string ->
  exists file_name,
    UtilsPath.get_output_path input_name output_path suffix = Beside file_name
    /\ (file_name = input_name
        <-> suffix = ""%string /\ PyName.suffix input_name = ".pdf"%string)
    /\ (suffix = UtilsPath.default_suffix -> file_name <> input_name).
Proof.
  intros Hout.
  exists (PyName.stem input_name ++ suffix ++ ".pdf")%string.
  destruct (stem_suffix input_name) as [Hname Hsuffix].
  assert (Hiff : (PyName.stem input_name ++ suffix ++ ".pdf")%string = input_name
                 <-> suffix = ""%string /\ PyName.suffix input_name = ".pdf"%string).
  { split.
    - intros H. rewrite Hname in H at 2. apply append_cancel_l in H.
      destruct Hsuffix as [E | (extension & E & Hdot)]; rewrite E in H |- *.
      + destruct suffix; discriminate H.
      + destruct suffix as [|c suffix]; [auto|]. exfalso.
        cbn in H. injection H as _ H. rewrite <- H, has_dot_app in Hdot.
        apply orb_false_iff in Hdot. destruct Hdot as [_ Hdot]. discriminate Hdot.
    - intros [-> E]. rewrite Hname at 2. rewrite E. reflexivity. }
  split; [|split].
  - destruct Hout as [-> | ->]; reflexivity.
  - exact Hiff.
  - intros -> H. apply Hiff in H. destruct H as [H _]. discriminate H.
Qed.

(** X22: the web upload accepts exactly the names that end in a dot
    followed by [pdf], in any case of the letters. *)
Theorem allowed_file_means_a_pdf_ending (filename : string) :
  WebApp.allowed_file filename = true
  <-> exists base extension,
        filename = (base ++ String "." extension)%string
        /\ Py.lower extension = "pdf"%string.
Proof.
  unfold WebApp.allowed_file, WebApp.ALLOWED_EXTENSIONS. split.
  - destruct (PyName.rsplit_dot filename) as [[base extension]|] eqn:E; [|discriminate].
    cbn [existsb]. rewrite orb_false_r. intros H. apply String.eqb_eq in H.
    exists base, extension. split; [|exact H].
    apply (rsplit_dot_spec _ _ _ E).
  - intros (base & extension & -> & Hl).
    assert (Hdot : PyName.has_dot extension = false).
    { destruct extension as [|a [|b [|c [|d e]]]]; try discriminate Hl.
      cbn in Hl. injection Hl as Ha Hb Hc. cbn.
      assert (N : forall x y, Py.lower_ascii x = y -> y <> "."%char -> Ascii.eqb x "." = false).
      { intros x y <- Hy. apply Ascii.eqb_neq. intros ->. apply Hy. reflexivity. }
      rewrite (N a _ Ha), (N b _ Hb), (N c _ Hc) by discriminate. reflexivity. }
    rewrite (rsplit_dot_app base extension Hdot). cbn [existsb].
    rewrite Hl. reflexivity.
Qed.

(** ** text_handler.py: [extract_text] and [has_text] *)

Lemma remove_char_app (c : ascii) (a b : string) :
  PyStr.remove_char c (a ++ b)
  = (PyStr.remove_char c a ++ PyStr.remove_char c b)%string.
Proof.
  induction a as [|d a IH]; [reflexivity|]. cbn.
  destruct (Ascii.eqb c d); rewrite IH; reflexivity.
Qed.

Lemma ink_app (a b : string) : PyText.ink (a ++ b) = (PyText.ink a ++ PyText.ink b)%string.
Proof. unfold PyText.ink. rewrite !remove_char_app. reflexivity. Qed.

Lemma str_len_app (a b : string) : PyStr.len (a ++ b) = PyStr.len a + PyStr.len b.
Proof.
  unfold PyStr.len. induction a as [|c a IH]; [reflexivity|].
  cbn [append String.length]. lia.
Qed.

Lemma ink_count_app (a b : string) : ink_count (a ++ b) = ink_count a + ink_count b.
Proof. unfold ink_count. rewrite ink_app. apply str_len_app. Qed.

Lemma ink_count_nonneg (s : string) : 0 <= ink_count s.
Proof. unfold ink_count, PyStr.len. lia. Qed.

Lemma sum_of_cons {A : Type} (f : A -> Z) (x : A) (xs : list A) :
  sum_of f (x :: xs) = f x + sum_of f xs.
Proof. reflexivity. Qed.

Lemma sum_of_app {A : Type} (f : A -> Z) (xs ys : list A) :
  sum_of f (xs ++ ys) = sum_of f xs + sum_of f ys.
Proof.
  unfold sum_of. induction xs as [|x xs IH]; cbn [app fold_right]; [reflexivity|].
  rewrite IH. lia.
Qed.

(** Joining with newlines adds no ink. *)
Lemma ink_count_join (texts : list string) :
  ink_count (String.concat (String PyText.newline "") texts) = sum_of ink_count texts.
Proof.
  induction texts as [|x [|y rest] IH].
  - reflexivity.
  - cbn. lia.
  - change (String.concat (String PyText.newline "") (x :: y :: rest))
      with (x ++ String PyText.newline ""
              ++ String.concat (String PyText.newline "") (y :: rest))%string.
    rewrite !ink_count_app, IH. cbn [sum_of fold_right].
    change (ink_count (String PyText.newline "")) with 0. lia.
Qed.

Lemma ink_of_digits (s : string) :
  PyStr.all_chars PyStr.is_digit s = true -> PyText.ink s = s.
Proof.
  induction s as [|c s IH]; [reflexivity|]. cbn [PyStr.all_chars].
  intros H. apply andb_true_iff in H. destruct H as [Hc Hs].
  assert (E : Ascii.eqb PyText.newline c = false /\ Ascii.eqb " " c = false).
  { clear -Hc. each_char c; vm_compute in Hc; try discriminate Hc; split; reflexivity. }
  destruct E as [E1 E2]. unfold PyText.ink in *. cbn [PyStr.remove_char].
  rewrite E1. cbn [PyStr.remove_char]. rewrite E2, (IH Hs). reflexivity.
Qed.

Lemma marker_ink_spec (page_num : Z) :
  0 <= page_num ->
  sum_of ink_count (page_marker page_num) = marker_ink page_num
  /\ 105 <= marker_ink page_num.
Proof.
  intros Hp. destruct (str_spec (page_num + 1) ltac:(lia)) as (Hd & _ & _ & _).
  pose proof (str_not_empty (page_num + 1) ltac:(lia)) as Hne.
  unfold page_marker, marker_ink. cbn [sum_of fold_right]. split.
  - rewrite ink_count_app. unfold ink_count at 3. rewrite (ink_of_digits _ Hd).
    change (ink_count (String PyText.newline (PyText.bar 50))) with 50.
    change (ink_count "Page ") with 4.
    change (ink_count (PyText.bar 50 ++ String PyText.newline "")) with 50.
    lia.
  - destruct (PyStr.str (page_num + 1)); [congruence|].
    unfold PyStr.len. cbn [String.length]. lia.
Qed.

Lemma extract_pages_spec (page_blocks : Z -> list Block) (markers : bool)
    (pages : list Page) :
  forall page_num all_text text_blocks count,
    let '(all_text', _, count') :=
      extract_pages page_blocks markers page_num pages (all_text, text_blocks, count) in
    all_text' = all_text
                ++ flat_map (page_entries markers) (pages_with_text_from page_num pages)
    /\ count' = count + Py.len (pages_with_text_from page_num pages).
Proof.
  induction pages as [|page rest IH]; intros page_num all_text text_blocks count.
  - cbn. rewrite app_nil_r. split; [reflexivity|]. unfold Py.len. cbn. lia.
  - cbn [extract_pages pages_with_text_from].
    destruct (Py.has_non_space (page_text page)).
    + specialize (IH (page_num + 1)
                    (all_text ++ (if markers then page_marker page_num else [])
                       ++ [page_text page])
                    (fold_left (add_block page_num) (page_blocks page_num) text_blocks)
                    (count + 1)).
      destruct (extract_pages _ _ _ _ _) as [[at' tb'] c'].
      destruct IH as [-> ->]. cbn [app flat_map]. unfold page_entries at 2.
      cbn [fst snd]. rewrite <- !app_assoc. split; [reflexivity|].
      unfold Py.len. cbn [List.length]. lia.
    + specialize (IH (page_num + 1) all_text text_blocks count).
      destruct (extract_pages _ _ _ _ _) as [[at' tb'] c'].
      exact IH.
Qed.

Lemma pages_with_text_numbers (pages : list Page) :
  forall page_num, 0 <= page_num ->
    Forall (fun numbered : Z * Page => page_num <= fst numbered
                                       /\ Py.has_non_space (page_text (snd numbered)) = true)
           (pages_with_text_from page_num pages)
    /\ Py.len (pages_with_text_from page_num pages) <= Py.len pages
    /\ (Py.len (pages_with_text_from page_num pages) = 0
        <-> existsb (fun page => Py.has_non_space (page_text page)) pages = false).
Proof.
  induction pages as [|page rest IH]; intros page_num Hp.
  - cbn. split; [constructor|split; [lia|split; reflexivity]].
  - cbn [pages_with_text_from existsb].
    destruct (IH (page_num + 1) ltac:(lia)) as (Hall & Hlen & Hzero).
    assert (Hall' : Forall (fun numbered : Z * Page =>
                              page_num <= fst numbered
                              /\ Py.has_non_space (page_text (snd numbered)) = true)
                           (pages_with_text_from (page_num + 1) rest)).
    { eapply Forall_impl; [|exact Hall]. cbn. intros a [H1 H2]. split; [lia|exact H2]. }
    unfold Py.len in *. destruct (Py.has_non_space (page_text page)) eqn:E.
    + cbn [app List.length orb]. split; [|split].
      * constructor; [split; [cbn; lia|exact E]|exact Hall'].
      * lia.
      * split; [lia|discriminate].
    + cbn [app List.length orb]. split; [exact Hall'|split; [lia|exact Hzero]].
Qed.

Lemma sum_of_entries (markers : bool) (numbered : list (Z * Page)) :
  Forall (fun ip : Z * Page => 0 <= fst ip) numbered ->
  sum_of ink_count (flat_map (page_entries markers) numbered)
  = sum_of (fun ip => ink_count (page_text (snd ip))) numbered
    + (if markers then sum_of (fun ip => marker_ink (fst ip)) numbered else 0).
Proof.
  induction 1 as [|ip rest Hip Hrest IH].
  - destruct markers; reflexivity.
  - cbn [flat_map]. rewrite sum_of_app, IH, !sum_of_cons. unfold page_entries.
    destruct markers.
    + rewrite sum_of_app, (proj1 (marker_ink_spec (fst ip) Hip)), sum_of_cons.
      change (sum_of ink_count []) with 0. lia.
    + cbn [app]. rewrite sum_of_cons. change (sum_of ink_count []) with 0. lia.
Qed.

Lemma sum_of_markers_bound (numbered : list (Z * Page)) :
  Forall (fun ip : Z * Page => 0 <= fst ip) numbered ->
  105 * Py.len numbered <= sum_of (fun ip => marker_ink (fst ip)) numbered.
Proof.
  induction 1 as [|ip rest Hip Hrest IH]; [unfold Py.len; cbn; lia|].
  rewrite sum_of_cons. unfold Py.len in *. cbn [List.length].
  pose proof (proj2 (marker_ink_spec (fst ip) Hip)). lia.
Qed.

(** What a call of [extract_text] that meets no exception returns. *)
Lemma extract_text_success (open_for_text : string + Document)
    (page_blocks : Z -> list Block) (path_text : string -> string)
    (second_close_raises : option string) (doc : Document)
    (output_path : option string) (markers : bool) (w : World) :
  open_for_text = inr doc -> doc_fault doc = None ->
  exists r,
    fst (fst (extract_text open_for_text page_blocks path_text None
                second_close_raises output_path markers w)) = TextReturns r
    /\ te_success r = true
    /\ te_total_pages r = Py.len (doc_pages doc)
    /\ te_pages_with_text r = Py.len (pages_with_text_from 0 (doc_pages doc))
    /\ te_text_content r
       = String.concat (String PyText.newline "")
           (flat_map (page_entries markers) (pages_with_text_from 0 (doc_pages doc)))
    /\ te_total_characters r = ink_count (te_text_content r).
Proof.
  intros Ho Hf. unfold extract_text. rewrite Ho, Hf.
  pose proof (extract_pages_spec page_blocks markers (doc_pages doc) 0 [] [] 0) as H.
  destruct (extract_pages _ _ _ _ _) as [[all_text text_blocks] count].
  destruct H as [-> ->]. cbn [app].
  destruct output_path as [[|c rest]|]; eexists; cbn [fst];
    (split; [reflexivity|]); cbn; repeat split.
Qed.

(** X23: [total_characters] counts the characters of the page markers too.
    Without markers it is the number of characters, newlines and spaces
    apart, of the pages that have text; with markers every such page adds
    the 104 characters of its two bars and of [Page] and the digits of its
    number, at least 105 in all. *)
Theorem page_markers_are_counted (open_for_text : string + Document)
    (page_blocks : Z -> list Block) (path_text : string -> string)
    (second_close_raises : option string) (doc : Document)
    (output_path : option string) (w : World) :
  open_for_text = inr doc -> doc_fault doc = None ->
  exists plain marked,
    fst (fst (extract_text open_for_text page_blocks path_text None
                second_close_raises output_path false w)) = TextReturns plain
    /\ fst (fst (extract_text open_for_text page_blocks path_text None
                   second_close_raises output_path true w)) = TextReturns marked
    /\ te_total_characters plain
       = sum_of (fun numbered => ink_count (page_text (snd numbered)))
           (pages_with_text_from 0 (doc_pages doc))
    /\ te_total_characters marked
       = te_total_characters plain
         + sum_of (fun numbered => marker_ink (fst numbered))
             (pages_with_text_from 0 (doc_pages doc))
    /\ te_pages_with_text marked = te_pages_with_text plain
    /\ te_total_characters plain + 105 * te_pages_with_text marked
       <= te_total_characters marked.
Proof.
  intros Ho Hf.
  destruct (extract_text_success open_for_text page_blocks path_text
              second_close_raises doc output_path false w Ho Hf)
    as (plain & Hp & _ & _ & Pn & Pt & Pc).
  destruct (extract_text_success open_for_text page_blocks path_text
              second_close_raises doc output_path true w Ho Hf)
    as (marked & Hm & _ & _ & Mn & Mt & Mc).
  exists plain, marked.
  destruct (pages_with_text_numbers (doc_pages doc) 0 ltac:(lia)) as (Hall & _ & _).
  assert (Hnum : Forall (fun ip : Z * Page => 0 <= fst ip)
                   (pages_with_text_from 0 (doc_pages doc))).
  { eapply Forall_impl; [|exact Hall]. cbn. intros a [H _]. exact H. }
  rewrite Pc, Mc, Pt, Mt, !ink_count_join, !(sum_of_entries _ _ Hnum), Mn, Pn.
  pose proof (sum_of_markers_bound _ Hnum).
  split; [exact Hp|]. split; [exact Hm|]. repeat split; lia.
Qed.

Lemma has_non_space_app (a b : string) :
  Py.has_non_space (a ++ b) = Py.has_non_space a || Py.has_non_space b.
Proof.
  induction a as [|c a IH]; [reflexivity|]. cbn. rewrite IH. apply orb_assoc.
Qed.

Lemma text_content_has_text (pages : list Page) :
  forall acc,
    Py.has_non_space (fold_left (fun acc page => (acc ++ page_text page)%string) pages acc)
    = Py.has_non_space acc
      || existsb (fun page => Py.has_non_space (page_text page)) pages.
Proof.
  induction pages as [|page rest IH]; intros acc; cbn [fold_left existsb].
  - rewrite orb_false_r. reflexivity.
  - rewrite IH, has_non_space_app, orb_assoc. reflexivity.
Qed.

Lemma has_text_pages_readable (unreadable : Z -> bool) (pages : list Page) :
  (forall page_num, unreadable page_num = false) ->
  forall page_num,
    has_text_pages unreadable page_num pages
    = Some (existsb (fun page => Py.has_non_space (page_text page)) pages).
Proof.
  intros Hr. induction pages as [|page rest IH]; intros page_num; [reflexivity|].
  cbn [has_text_pages existsb]. rewrite Hr.
  destruct (Py.has_non_space (page_text page)); [reflexivity|apply IH].
Qed.

(** X24: the three answers to whether a document has text agree when the
    library raises nothing: [analyze] reports [has_text] exactly when
    [TextHandler.has_text] does, and exactly when [extract_text] finds a
    page with text; [extract_text] never finds more pages with text than
    the document has, and when it finds none its text is empty. *)
Theorem text_detection_agrees (self_pdf_path : string) (pdf_bytes : list byte)
    (opening : string + Document) (page_blocks : Z -> list Block)
    (unreadable : Z -> bool) (path_text : string -> string)
    (second_close_raises : option string) (doc : Document)
    (output_path : option string) (markers : bool) (w : World) :
  opening = inr doc -> doc_fault doc = None ->
  (forall page_num, unreadable page_num = false) ->
  exists r,
    fst (fst (extract_text opening page_blocks path_text None
                second_close_raises output_path markers w)) = TextReturns r
    /\ has_text (fst (analyze self_pdf_path pdf_bytes opening w))
       = fst (handler_has_text opening unreadable w)
    /\ (0 <? te_pages_with_text r) = fst (handler_has_text opening unreadable w)
    /\ 0 <= te_pages_with_text r <= te_total_pages r
    /\ (te_pages_with_text r = 0
        -> te_text_content r = ""%string /\ te_total_characters r = 0).
Proof.
  intros Ho Hf Hr.
  destruct (extract_text_success opening page_blocks path_text
              second_close_raises doc output_path markers w Ho Hf)
    as (r & Hret & _ & Ht & Hn & Hc & Hk).
  exists r. split; [exact Hret|].
  destruct (pages_with_text_numbers (doc_pages doc) 0 ltac:(lia)) as (_ & Hle & Hzero).
  assert (Hh : fst (handler_has_text opening unreadable w)
               = existsb (fun page => Py.has_non_space (page_text page)) (doc_pages doc)).
  { unfold handler_has_text. rewrite Ho, (has_text_pages_readable unreadable _ Hr).
    reflexivity. }
  assert (Ha : has_text (fst (analyze self_pdf_path pdf_bytes opening w))
               = existsb (fun page => Py.has_non_space (page_text page)) (doc_pages doc)).
  { unfold analyze. rewrite Ho, Hf.
    destruct (_analyze_images doc) as [imgs total].
    destruct (Analyzer._estimate_compression _ _ _ _ _) as [est_min est_max].
    cbn [fst has_text]. rewrite text_content_has_text. reflexivity. }
  rewrite Ha, Hh, Hn, Ht.
  assert (Hpos : 0 <= Py.len (pages_with_text_from 0 (doc_pages doc)))
    by (unfold Py.len; lia).
  split; [reflexivity|]. split; [|split].
  - destruct (existsb _ (doc_pages doc)).
    + apply Z.ltb_lt.
      assert (Py.len (pages_with_text_from 0 (doc_pages doc)) <> 0)
        by (intros E0; apply Hzero in E0; discriminate E0).
      lia.
    + apply Z.ltb_ge. rewrite (proj2 Hzero eq_refl). lia.
  - lia.
  - intros E0. rewrite Hk, Hc.
    assert (En : pages_with_text_from 0 (doc_pages doc) = []).
    { unfold Py.len in E0. destruct (pages_with_text_from 0 (doc_pages doc));
        [reflexivity|cbn in E0; lia]. }
    rewrite En. split; reflexivity.
Qed.

Lemma rstrip_empty (s : string) :
  PyStr.rstrip s = ""%string <-> Py.has_non_space s = false.
Proof.
  induction s as [|c s IH]; [split; reflexivity|].
  cbn [PyStr.rstrip Py.has_non_space].
  destruct (PyStr.rstrip s) as [|d kept].
  - rewrite (proj1 IH eq_refl), orb_false_r.
    destruct (Py.is_space c); split; (reflexivity || discriminate).
  - split; [discriminate|]. intros H. apply orb_false_iff in H.
    destruct H as [_ H]. apply IH in H. discriminate H.
Qed.

Lemma rstrip_ends_with_ink (s : string) :
  Py.has_non_space s = true -> ends_with_ink (PyStr.rstrip s) = true.
Proof.
  induction s as [|c s IH]; [discriminate|].
  cbn [PyStr.rstrip Py.has_non_space]. intros H.
  destruct (PyStr.rstrip s) as [|d kept] eqn:E.
  - rewrite (proj1 (rstrip_empty s) E), orb_false_r in H.
    apply negb_true_iff in H. rewrite H. cbn. rewrite H. reflexivity.
  - assert (Hs : Py.has_non_space s = true).
    { destruct (Py.has_non_space s) eqn:E'; [reflexivity|].
      apply rstrip_empty in E'. rewrite E' in E. discriminate E. }
    specialize (IH Hs). exact IH.
Qed.

Lemma lstrip_has_ink (s : string) :
  Py.has_non_space s = true ->
  exists c rest, PyStr.lstrip s = String c rest /\ Py.is_space c = false.
Proof.
  induction s as [|c s IH]; [discriminate|].
  cbn [PyStr.lstrip Py.has_non_space]. destruct (Py.is_space c) eqn:E.
  - cbn. exact IH.
  - intros _. exists c, s. split; [reflexivity|exact E].
Qed.

(** What [strip] leaves of a text that is not blank: a text with ink at
    both ends, which [strip] leaves as it is. *)
Lemma strip_of_text (s : string) :
  Py.has_non_space s = true ->
  Py.has_non_space (PyStr.strip s) = true
  /\ PyStr.strip (PyStr.strip s) = PyStr.strip s.
Proof.
  intros H. destruct (lstrip_has_ink s H) as (c & rest & El & Ec).
  unfold PyStr.strip at 1 3 4. rewrite El.
  assert (Hink : Py.has_non_space (String c rest) = true) by (cbn; rewrite Ec; reflexivity).
  pose proof (rstrip_ends_with_ink _ Hink) as He.
  assert (Hs : exists kept, PyStr.rstrip (String c rest) = String c kept).
  { cbn [PyStr.rstrip]. destruct (PyStr.rstrip rest); [rewrite Ec|]; eexists; reflexivity. }
  destruct Hs as (kept & Ek). rewrite Ek in He |- *. split.
  - cbn. rewrite Ec. reflexivity.
  - rewrite <- (append_nil_r (String c kept)) at 1.
    exact (strip_ink "" (String c kept) "" eq_refl eq_refl Ec He).
Qed.

Lemma add_block_sound (total_pages page_num : Z) (blocks : list Block) :
  0 <= page_num < total_pages ->
  forall text_blocks,
    Forall (sound_block total_pages) text_blocks ->
    Forall (sound_block total_pages) (fold_left (add_block page_num) blocks text_blocks).
Proof.
  intros Hp. induction blocks as [|block rest IH]; intros text_blocks Hall; [exact Hall|].
  cbn [fold_left]. apply IH. unfold add_block.
  destruct (block_type block) as [[| |]|]; try exact Hall.
  destruct (Py.has_non_space (block_text block)) eqn:E; [|exact Hall].
  apply Forall_app. split; [exact Hall|]. constructor; [|constructor].
  destruct (strip_of_text _ E) as [H1 H2].
  unfold sound_block. cbn [tb_page_number tb_text]. split; [lia|split; assumption].
Qed.

Lemma extract_pages_blocks (page_blocks : Z -> list Block) (markers : bool)
    (total_pages : Z) (pages : list Page) :
  forall page_num all_text text_blocks count,
    0 <= page_num -> page_num + Py.len pages <= total_pages ->
    Forall (sound_block total_pages) text_blocks ->
    Forall (sound_block total_pages)
      (snd (fst (extract_pages page_blocks markers page_num pages
                   (all_text, text_blocks, count)))).
Proof.
  induction pages as [|page rest IH]; intros page_num all_text text_blocks count Hp Hle Hall.
  - exact Hall.
  - cbn [extract_pages]. unfold Py.len in *. cbn [List.length] in Hle.
    destruct (Py.has_non_space (page_text page)).
    + apply IH; [lia|lia|]. apply add_block_sound; [lia|exact Hall].
    + apply IH; [lia|lia|exact Hall].
Qed.

(** X25: every text block [extract_text] reports carries the number of a
    page of the document, counted from 1, and a text that is not blank and
    has no white space at its ends. *)
Theorem text_blocks_are_sound (open_for_text : string + Document)
    (page_blocks : Z -> list Block) (path_text : string -> string)
    (write_text_raises second_close_raises : option string)
    (output_path : option string) (markers : bool) (w : World)
    (r : TextExtractionResult) :
  fst (fst (extract_text open_for_text page_blocks path_text write_text_raises
              second_close_raises output_path markers w)) = TextReturns r ->
  Forall (sound_block (te_total_pages r)) (te_text_blocks r)
  /\ (te_success r = false -> te_text_blocks r = []).
Proof.
  unfold extract_text. destruct open_for_text as [e|doc].
  - cbn. intros [= <-]. split; [constructor|reflexivity].
  - destruct (doc_fault doc) as [e|].
    + cbn. intros [= <-]. split; [constructor|reflexivity].
    + pose proof (extract_pages_blocks page_blocks markers (Py.len (doc_pages doc))
                    (doc_pages doc) 0 [] [] 0 ltac:(lia) ltac:(lia) (Forall_nil _)) as H.
      destruct (extract_pages _ _ _ _ _) as [[all_text text_blocks] count].
      cbn [fst snd] in H.
      destruct output_path as [[|c rest]|];
        [| destruct write_text_raises as [e|];
           [destruct second_close_raises as [e'|]|] |];
        cbn; intros [= <-]; cbn;
        (split; [first [exact H|constructor]|first [discriminate|reflexivity]]).
Qed.

(** ** The further properties of the helpers on concrete inputs *)

Example format_size_examples :
  UtilsSize.format_size 0 = "0 B"%string
  /\ UtilsSize.format_size 1023 = "1023 B"%string
  /\ UtilsSize.format_size 1024 = "1.0 KB"%string
  /\ UtilsSize.format_size 1280 = "1.2 KB"%string
  /\ UtilsSize.format_size 1792 = "1.8 KB"%string
  /\ UtilsSize.format_size (5 * 1024 * 1024) = "5.00 MB"%string
  /\ UtilsSize.format_size 1048575 = "1024.0 KB"%string
  /\ UtilsSize.format_size (3 * 1024 * 1024 * 1024 + 1) = "3.00 GB"%string.
Proof. vm_compute. repeat split. Qed.

Example parse_size_examples :
  UtilsSize.parse_size "5MB" = Some 5242880
  /\ UtilsSize.parse_size " 800 kb " = Some 819200
  /\ UtilsSize.parse_size "1.5GB" = Some 1610612736
  /\ UtilsSize.parse_size ".5K" = Some 512
  /\ UtilsSize.parse_size "12" = Some 12
  /\ UtilsSize.parse_size "0.1KB" = Some 102
  /\ UtilsSize.parse_size "1.2.3" = None
  /\ UtilsSize.parse_size "5TB" = None
  /\ UtilsSize.parse_size "MB" = None
  /\ UtilsSize.parse_size "-5" = None.
Proof. vm_compute. repeat split. Qed.

(** On the way back 1.2 KB stands for 1228 bytes, not for the 1280 that
    were printed so. *)
Example format_size_loses_bytes :
  UtilsSize.parse_size (UtilsSize.format_size 1280) = Some 1228.
Proof. vm_compute. reflexivity. Qed.

(** A negative size is printed with its sign, and not read back. *)
Example negative_size_is_not_read_back :
  UtilsSize.format_size (-5) = "-5 B"%string
  /\ UtilsSize.parse_size (UtilsSize.format_size (-5)) = None.
Proof. vm_compute. split; reflexivity. Qed.

Lemma parse_size_ignores_case_and_padding_witness :
  UtilsSize.parse_size " 5mb " = UtilsSize.parse_size "5mb"
  /\ UtilsSize.parse_size (PyStr.upper "5mb") = UtilsSize.parse_size "5mb"
  /\ UtilsSize.parse_size (Py.lower "5mb") = UtilsSize.parse_size "5mb".
Proof.
  exact (parse_size_ignores_case_and_padding "5mb" " " " " eq_refl eq_refl eq_refl).
Defined.

Lemma parse_size_is_never_negative_witness :
  UtilsSize.parse_size "0.5kb" = Some 512 /\ 0 <= 512.
Proof.
  split; [vm_compute; reflexivity|].
  apply (proj1 (parse_size_is_never_negative "0.5kb") 512). vm_compute. reflexivity.
Defined.

Lemma parse_size_reads_binary_units_witness :
  UtilsSize.parse_size " 800 kb " = Some (800 * 1024).
Proof.
  apply (parse_size_reads_binary_units 800 " " " " "kb" " " 1024);
    first [lia | reflexivity].
Defined.

Lemma parse_size_reads_format_size_back_witness :
  exists m : Z,
    UtilsSize.parse_size (UtilsSize.format_size 1280) = Some m
    /\ Z.abs (m - 1280) <= 52.
Proof.
  apply (parse_size_reads_format_size_back 1280). lia.
Defined.

Lemma default_output_is_another_file_witness :
  exists file_name,
    UtilsPath.get_output_path "report.pdf" None UtilsPath.default_suffix
    = Beside file_name
    /\ (file_name = "report.pdf"%string
        <-> UtilsPath.default_suffix = ""%string
            /\ PyName.suffix "report.pdf" = ".pdf"%string)
    /\ (UtilsPath.default_suffix = UtilsPath.default_suffix
        -> file_name <> "report.pdf"%string).
Proof.
  apply (default_output_is_another_file "report.pdf" UtilsPath.default_suffix None).
  left. reflexivity.
Defined.

Example default_output_names :
  UtilsPath.get_output_path "report.pdf" None UtilsPath.default_suffix
  = Beside "report_compressed.pdf"
  /\ UtilsPath.get_output_path "archive.tar.gz" None UtilsPath.default_suffix
     = Beside "archive.tar_compressed.pdf"
  /\ UtilsPath.get_output_path ".hidden" (Some ""%string) UtilsPath.default_suffix
     = Beside ".hidden_compressed.pdf"
  /\ UtilsPath.get_output_path "report.pdf" None "" = Beside "report.pdf"
  /\ UtilsPath.get_output_path "report.pdf" (Some "out/small.pdf"%string) ""
     = Explicit "out/small.pdf".
Proof. vm_compute. repeat split. Qed.

Lemma allowed_file_means_a_pdf_ending_witness :
  WebApp.allowed_file "scan.v2.PdF" = true.
Proof.
  apply (proj2 (allowed_file_means_a_pdf_ending "scan.v2.PdF")).
  exists "scan.v2"%string, "PdF"%string. split; reflexivity.
Defined.

Example allowed_file_examples :
  WebApp.allowed_file "a.pdf" = true
  /\ WebApp.allowed_file ".pdf" = true
  /\ WebApp.allowed_file "pdf" = false
  /\ WebApp.allowed_file "a.pdf." = false
  /\ WebApp.allowed_file "a.pdf.exe" = false
  /\ WebApp.allowed_file "a.pdf " = false.
Proof. vm_compute. repeat split. Qed.

(** The caption "Figure 1" has 7 characters of ink; with the marker of
    page 1 [extract_text] reports 112. *)
Example extract_text_of_a_caption :
  exists plain marked w',
    extract_text (inr illustrated_document) figure_blocks same_path None None None
      false empty_world = (TextReturns plain, None, w')
    /\ extract_text (inr illustrated_document) figure_blocks same_path None None None
         true empty_world = (TextReturns marked, None, w')
    /\ te_total_characters plain = 7
    /\ te_total_characters marked = 112
    /\ te_pages_with_text marked = 1
    /\ te_total_pages marked = 2
    /\ te_text_blocks marked = [mkTextBlock 1 "Figure 1" (72, 72, 200, 90)%Q]
    /\ journal w' = [Opened; Closed].
Proof. do 3 eexists. vm_compute. repeat split. Qed.

Lemma page_markers_are_counted_witness :
  exists plain marked,
    fst (fst (extract_text (inr illustrated_document) figure_blocks same_path None
                None None false empty_world)) = TextReturns plain
    /\ fst (fst (extract_text (inr illustrated_document) figure_blocks same_path None
                   None None true empty_world)) = TextReturns marked
    /\ te_total_characters plain
       = sum_of (fun numbered => ink_count (page_text (snd numbered)))
           (pages_with_text_from 0 (doc_pages illustrated_document))
    /\ te_total_characters marked
       = te_total_characters plain
         + sum_of (fun numbered => marker_ink (fst numbered))
             (pages_with_text_from 0 (doc_pages illustrated_document))
    /\ te_pages_with_text marked = te_pages_with_text plain
    /\ te_total_characters plain + 105 * te_pages_with_text marked
       <= te_total_characters marked.
Proof.
  apply (page_markers_are_counted (inr illustrated_document) figure_blocks same_path
           None illustrated_document None empty_world); reflexivity.
Defined.

Lemma text_detection_agrees_witness :
  exists r,
    fst (fst (extract_text (inr illustrated_document) figure_blocks same_path None
                None None true empty_world)) = TextReturns r
    /\ has_text (fst (analyze "in.pdf" (blank 10) (inr illustrated_document) empty_world))
       = fst (handler_has_text (inr illustrated_document) all_readable empty_world)
    /\ (0 <? te_pages_with_text r)
       = fst (handler_has_text (inr illustrated_document) all_readable empty_world)
    /\ 0 <= te_pages_with_text r <= te_total_pages r
    /\ (te_pages_with_text r = 0
        -> te_text_content r = ""%string /\ te_total_characters r = 0).
Proof.
  apply (text_detection_agrees "in.pdf" (blank 10) (inr illustrated_document)
           figure_blocks all_readable same_path None illustrated_document None true
           empty_world); reflexivity.
Defined.

(** [has_text] stops at the page whose text cannot be read: it answers
    [False] for a document whose second page has text, and leaves the
    document open. *)
Example has_text_gives_up_at_an_unreadable_page :
  handler_has_text
    (inr (mkDocument [mkPage "" [] None; mkPage "words" [] None]
            (fun _ => ExtractEmpty) false false None))
    (fun page_num => page_num =? 0) empty_world
  = (false, mkWorld None [Opened]).
Proof. reflexivity. Qed.

Lemma text_blocks_are_sound_witness :
  exists r,
    fst (fst (extract_text (inr illustrated_document) figure_blocks same_path None
                None (Some "out.txt"%string) true empty_world)) = TextReturns r
    /\ Forall (sound_block (te_total_pages r)) (te_text_blocks r)
    /\ (te_success r = false -> te_text_blocks r = []).
Proof.
  eexists. split; [vm_compute; reflexivity|].
  apply (text_blocks_are_sound (inr illustrated_document) figure_blocks same_path None
           None (Some "out.txt"%string) true empty_world).
  vm_compute. reflexivity.
Defined.
